(** * Arc-overhang G-code post-processor: a shallow embedding

    This development embeds [arc_overhangs_v1.0.0.py] and checks the
    properties its specification states about it.

    Conventions of the embedding.
    - Python [float]s are read as exact rationals ([Q]); equality of numbers
      is [Qeq], comparisons are [Qle_bool]/[Qlt_bool].  Square roots and the
      trigonometric functions are an interface ([FloatOps]).
    - shapely, the geometry library, is an interface ([Shapely]); a
      [LineString] whose vertices the script reads is the list of its
      coordinates.
    - A Python exception is the [Raise] outcome of [result]; [sys.exit] is
      the exception [SystemExit].
    - [print], [warnings.warn] and the debugging plots have no effect on
      the values modelled and are left out; so is [input], which is taken
      to return. *)

From Stdlib Require Import ZArith QArith Qround Qabs Qminmax Lia Lqa Ascii String.
From stdpp Require Import gmap strings list.

(* ===================================================================== *)
(** * Part I: definitions                                                  *)
(* ===================================================================== *)

(** ** Python outcomes *)

Inductive pyexc : Type :=
  | ValueError
  | TypeError
  | IndexError
  | AttributeError
  | UnboundLocalError
  | ZeroDivisionError
  | NotImplementedError
  | SystemExit (code : Z).

Inductive result (A : Type) : Type :=
  | Ok (a : A)
  | Raise (e : pyexc).
Arguments Ok {A} a.
Arguments Raise {A} e.

Definition rbind {A B} (m : result A) (k : A -> result B) : result B :=
  match m with
  | Ok a => k a
  | Raise e => Raise e
  end.

Notation "'let*' x ':=' m 'in' k" := (rbind m (fun x => k))
  (at level 10, x pattern, m at level 100, k at level 200).

(** ** Strings: the operations of [str] the script uses *)

(** [pat in s] *)
Fixpoint str_in (pat s : string) : bool :=
  if String.prefix pat s then true
  else match s with
       | EmptyString => false
       | String _ s' => str_in pat s'
       end.

(** [s.split(sep, 1)[0]]: the text before the first [sep]. *)
Fixpoint before_char (sep : ascii) (s : string) : string :=
  match s with
  | EmptyString => EmptyString
  | String c s' => if Ascii.eqb c sep then EmptyString
                   else String c (before_char sep s')
  end.

(** [s.split(sep, 1)[-1]]: the text after the first [sep], all of [s] when
    there is none. *)
Fixpoint after_char_aux (sep : ascii) (s : string) : option string :=
  match s with
  | EmptyString => None
  | String c s' => if Ascii.eqb c sep then Some s' else after_char_aux sep s'
  end.

Definition after_char (sep : ascii) (s : string) : string :=
  match after_char_aux sep s with
  | Some t => t
  | None => s
  end.

(** [s.split(sep)] for a one-character separator. *)
Fixpoint split_char (sep : ascii) (s : string) : list string :=
  match s with
  | EmptyString => [EmptyString]
  | String c s' =>
      if Ascii.eqb c sep then EmptyString :: split_char sep s'
      else match split_char sep s' with
           | [] => [String c EmptyString]
           | w :: ws => String c w :: ws
           end
  end.

(** [s[1:]] *)
Definition str_tail (s : string) : string :=
  match s with
  | EmptyString => EmptyString
  | String _ s' => s'
  end.

(** [s.strip("\n")]: the newlines at both ends are removed; newline is
    character 10. *)
Definition newline : ascii := Ascii.ascii_of_nat 10.

Fixpoint rstrip_newline (s : string) : string :=
  match s with
  | EmptyString => EmptyString
  | String c s' =>
      match rstrip_newline s' with
      | EmptyString => if Ascii.eqb c newline then EmptyString
                       else String c EmptyString
      | t => String c t
      end
  end.

Fixpoint lstrip_newline (s : string) : string :=
  match s with
  | EmptyString => EmptyString
  | String c s' => if Ascii.eqb c newline then lstrip_newline s' else s
  end.

Definition strip_newline (s : string) : string :=
  rstrip_newline (lstrip_newline s).

(** ** Numbers *)

Definition Point : Type := (Q * Q)%type.

Definition Qlt_bool (x y : Q) : bool := negb (Qle_bool y x).

(** [np.clip(x, lo, hi)] is [minimum(maximum(x, lo), hi)]. *)
Definition np_clip (x lo hi : Q) : Q := Qmin (Qmax x lo) hi.

(** [np.arange(start, stop, step)]: [ceil((stop - start) / step)] values
    [start + i * step]; none when that count is not positive. *)
Definition np_arange (start stop step : Q) : result (list Q) :=
  if Qeq_bool step 0 then Raise ZeroDivisionError
  else Ok (map (fun i : nat => start + inject_Z (Z.of_nat i) * step)%Q
               (seq 0 (Z.to_nat (Qceiling ((stop - start) / step))))).

(** [np.linspace(a, b, n)] *)
Definition np_linspace (a b : Q) (n : nat) : list Q :=
  match n with
  | 0%nat => []
  | 1%nat => [a]
  | _ => map (fun i : nat =>
                a + inject_Z (Z.of_nat i) * ((b - a) / inject_Z (Z.of_nat (n - 1))))%Q
             (seq 0 n)
  end.

(** The functions of [math] and [numpy] that are not rational. *)
Class FloatOps : Type := {
  fsqrt : Q -> Q;
  fsin : Q -> Q;
  fcos : Q -> Q;
  farccos : Q -> Q;
  fatan2 : Q -> Q -> Q;
  fpi : Q;
  (** [np.argsort]: the indices that sort the array in ascending order *)
  np_argsort : list Q -> list nat;
  (** [float(s)]; [None] where it raises [ValueError] *)
  float_of_string : string -> option Q;
}.

Definition py_float `{FloatOps} (s : string) : result Q :=
  match float_of_string s with
  | Some q => Ok q
  | None => Raise ValueError
  end.

(** ** Python values held by the settings dictionary *)

Inductive pyval : Type :=
  | PNone
  | PBool (b : bool)
  | PInt (z : Z)
  | PFloat (q : Q)
  | PStr (s : string)
  | POther (nonempty : bool).
(** [POther] is any other literal (a list, a dictionary): only its truth
    value is observed. *)

(** [bool(v)] *)
Definition truthy (v : pyval) : bool :=
  match v with
  | PNone => false
  | PBool b => b
  | PInt z => negb (z =? 0)%Z
  | PFloat q => negb (Qeq_bool q 0)
  | PStr s => negb (String.eqb s "")
  | POther nonempty => nonempty
  end.

(** The number a value stands for in float arithmetic and in comparisons
    with a float; [None], strings and lists raise [TypeError] there. *)
Definition py_num (v : pyval) : result Q :=
  match v with
  | PBool b => Ok (if b then 1 else 0)%Q
  | PInt z => Ok (inject_Z z)
  | PFloat q => Ok q
  | PNone | PStr _ | POther _ => Raise TypeError
  end.

(** [d.get(key)]: [None] for a missing key. *)
Definition dict_get (d : gmap string pyval) (key : string) : pyval :=
  match d !! key with
  | Some v => v
  | None => PNone
  end.

(** ** Geometry: the interface of shapely *)

Class Shapely : Type := {
  geom : Type;
  (** constructors *)
  LinearRing : list Point -> result geom;  (* raises on too few points *)
  Polygon : list Point -> geom;
  Polygon_of_ring : geom -> geom;
  LineString_of : list Point -> geom;
  MultiLineString_of : list geom -> geom;
  (** predicates and measures *)
  is_empty : geom -> bool;
  is_valid : geom -> bool;
  geom_type : geom -> string;
  area : geom -> Q;
  intersects : geom -> geom -> bool;
  contains : geom -> geom -> bool;
  overlaps : geom -> geom -> bool;
  geom_distance : geom -> geom -> Q;
  point_distance : geom -> Point -> Q;
  (** [g.coords], which some geometry types do not implement *)
  geom_coords : geom -> option (list Point);
  (** [g.geoms] *)
  geoms : geom -> list geom;
  (** constructive operations *)
  boundary : geom -> geom;
  buffer : geom -> Q -> geom;
  intersection : geom -> geom -> geom;
  difference : geom -> geom -> geom;
  unary_union : list geom -> geom;
  linemerge : geom -> geom;
  segmentize : geom -> Q -> geom;
}.

Definition is_a `{Shapely} (ty : string) (g : geom) : bool :=
  String.eqb (geom_type g) ty.

(** [isinstance(g, MultiLineString)] *)
Definition is_MultiLineString `{Shapely} (g : geom) : bool :=
  is_a "MultiLineString" g.

(** What the geometry of the plane gives for the operations of shapely:
    [within a b] reads "every point of [a] is a point of [b]". *)
Class ShapelyLaws `{Shapely} : Type := {
  within : geom -> geom -> Prop;
  within_intersection_l a b : within (intersection a b) a;
  within_intersection a b c :
    within c a -> within c b -> within c (intersection a b);
  within_unary_union a gs : In a gs -> within a (unary_union gs);
  area_mono a b : within a b -> (area a <= area b)%Q;
}.

(** ** Random numbers: the interface of [random] *)

Class Random : Type := {
  rng : Type;
  (** a draw below [n], and the generator after it *)
  randbelow : Z -> rng -> Z * rng;
}.

(** Code that draws random numbers threads the generator and may raise. *)
Definition M `{Random} (A : Type) : Type := rng -> result (A * rng).

Definition mret `{Random} {A} (a : A) : M A := fun g => Ok (a, g).

Definition mbind `{Random} {A B} (m : M A) (k : A -> M B) : M B :=
  fun g => match m g with
           | Ok (a, g') => k a g'
           | Raise e => Raise e
           end.

Definition lift `{Random} {A} (r : result A) : M A :=
  fun g => match r with
           | Ok a => Ok (a, g)
           | Raise e => Raise e
           end.

Notation "'let!' x ':=' m 'in' k" := (mbind m (fun x => k))
  (at level 10, x pattern, m at level 100, k at level 200).

(** [random.choice(seq)] *)
Definition choice `{Random} {A} (l : list A) : M A :=
  fun g => let '(i, g') := randbelow (Z.of_nat (length l)) g in
           match l !! Z.to_nat i with
           | Some a => Ok (a, g')
           | None => Raise IndexError
           end.

(** [random.randint(a, b)] *)
Definition randint `{Random} (a b : Z) : M Z :=
  fun g => let '(i, g') := randbelow (b - a + 1) g in
           Ok ((a + i)%Z, g').

(** ** The parameters (ll. 170-229) *)

(** The entries of [AddManualSettingsDict]; the plotting and logging
    switches are left out with the plots, and [AllowedSpaceForArcs] is the
    vertex list its [Polygon] is built from. *)
Record ManualSettings : Type := {
  AllowedArcRetries : nat;
  CheckForAllowedSpace : bool;
  AllowedSpaceForArcs : list Point;
  ArcCenterOffset : Q;
  ArcExtrusionMultiplier : Q;
  ArcFanSpeed : Z;
  ArcMinPrintSpeed : Q;
  ArcPrintSpeed : Q;
  ArcSlowDownBelowThisDuration : Q;
  ArcPointsPerMillimeter : Q;
  ArcTravelFeedRate : Z;
  ArcWidth : Q;
  CornerImportanceMultiplier : Q;
  DistanceBetweenPointsOnStartLine : Q;
  ExtendArcDist : Q;
  ExtendArcsIntoPerimeter : Q;
  ExtendHilbertIntoPerimeter : Q;
  GCodeArcPtMinDist : Q;
  HilbertFillingPercentage : Q;
  HilbertInfillExtrusionMultiplier : Q;
  HilbertTravelEveryNSeconds : Q;
  MinArea : Q;
  MinBridgeLength : Q;
  MinDistanceFromPerimeter : Q;
  MinStartArcs : nat;
  Path2Output : string;
  RMax : Q;
  ReplaceInternalBridging : bool;
  SafetyBreak_MaxArcNumber : nat;
  TimeLapseEveryNArcs : nat;
  UseLeastAmountOfCenterPoints : bool;
  WarnBelowThisFillingPercentage : Q;
  aboveArcsFanSpeed : Z;
  aboveArcsInfillPrintSpeed : Z;
  aboveArcsPerimeterFanSpeed : Z;
  aboveArcsPerimeterPrintSpeed : Z;
  applyAboveFanSpeedToWholeLayer : bool;
  CoolingSettingDetectionDistance : Q;
  doSpecialCooling : bool;
  specialCoolingZdist : Q;
}.

(** The dictionary [makeFullSettingDict] returns: the settings read from
    the G-code, updated with the manual ones.  The keys of the two never
    coincide, so the pair stands for the merged dictionary. *)
Record Parameters : Type := {
  manual : ManualSettings;
  slicerSettings : gmap string pyval;
}.

(** [AddManualSettingsDict], given the two settings of the slicer it is
    computed from. *)
Definition AddManualSettingsDict (nozzle_diameter extrusion_width : Q)
    : ManualSettings :=
  {|
    AllowedArcRetries := 2;
    CheckForAllowedSpace := false;
    AllowedSpaceForArcs := [(0, 0); (500, 0); (500, 500); (0, 500)]%Q;
    ArcCenterOffset := (3 # 2) * nozzle_diameter;
    ArcExtrusionMultiplier := 135 # 100;
    ArcFanSpeed := 255;
    ArcMinPrintSpeed := (1 # 2) * 60;
    ArcPrintSpeed := (3 # 2) * 60;
    ArcSlowDownBelowThisDuration := 3;
    ArcPointsPerMillimeter := 10;
    ArcTravelFeedRate := 30 * 60;
    ArcWidth := nozzle_diameter * (95 # 100);
    CornerImportanceMultiplier := 2 # 10;
    DistanceBetweenPointsOnStartLine := 1 # 10;
    ExtendArcDist := nozzle_diameter;
    ExtendArcsIntoPerimeter := (1 # 2) * extrusion_width;
    ExtendHilbertIntoPerimeter := 1 * extrusion_width;
    GCodeArcPtMinDist := 1 # 10;
    HilbertFillingPercentage := 100;
    HilbertInfillExtrusionMultiplier := 105 # 100;
    HilbertTravelEveryNSeconds := 6;
    MinArea := 0;
    MinBridgeLength := 0;
    MinDistanceFromPerimeter := 1 * extrusion_width;
    MinStartArcs := 2;
    Path2Output := "";
    RMax := 30;
    ReplaceInternalBridging := true;
    SafetyBreak_MaxArcNumber := 2000;
    TimeLapseEveryNArcs := 0;
    UseLeastAmountOfCenterPoints := false;
    WarnBelowThisFillingPercentage := 90;
    aboveArcsFanSpeed := 25;
    aboveArcsInfillPrintSpeed := 10 * 60;
    aboveArcsPerimeterFanSpeed := 25;
    aboveArcsPerimeterPrintSpeed := 3 * 60;
    applyAboveFanSpeedToWholeLayer := true;
    CoolingSettingDetectionDistance := 3;
    doSpecialCooling := true;
    specialCoolingZdist := 3;
  |}.


Definition makeFullSettingDict (gCodeSettingDict : gmap string pyval)
    : result Parameters :=
  let* nozzle_diameter := py_num (dict_get gCodeSettingDict "nozzle_diameter") in
  let* extrusion_width := py_num (dict_get gCodeSettingDict "extrusion_width") in
  Ok {| manual := AddManualSettingsDict nozzle_diameter extrusion_width;
        slicerSettings := gCodeSettingDict |}.

(** ** Arcs (ll. 1134-1191, 1245-1247, 1303-1309, 1368-1402, 1420-1434) *)

Section Arcs.
Context `{FloatOps} `{Shapely}.
Local Open Scope Q_scope.

(** [math.hypot(dx, dy)], [np.linalg.norm((dx, dy))] *)
Definition hypot (dx dy : Q) : Q := fsqrt (dx * dx + dy * dy).

(** [shapely.distance] of two points *)
Definition distance (p q : Point) : Q :=
  hypot (fst p - fst q) (snd p - snd q).

(** [ls.length] of a [LineString] with these coordinates *)
Fixpoint ls_length (coords : list Point) : Q :=
  match coords with
  | p :: (q :: _) as rest => distance q p + ls_length rest
  | _ => 0
  end.

Definition degrees (x : Q) : Q := x * 180 / fpi.
Definition radians (x : Q) : Q := x * fpi / 180.

Definition midpoint (p1 p2 : Point) : Point :=
  ((fst p1 + fst p2) / 2, (snd p1 + snd p2) / 2).

Definition move_toward_point (start_point target_point : Point)
    (dist angle_correction : Q) : Point :=
  let dx := fst target_point - fst start_point in
  let dy := snd target_point - snd start_point in
  let magnitude := hypot dx dy in
  if Qeq_bool magnitude 0 then start_point
  else
    let dx := dx / magnitude in
    let dy := dy / magnitude in
    let angle := degrees (fatan2 dy dx) in
    let new_angle := angle + angle_correction in
    let move_x := fcos (radians new_angle) * dist in
    let move_y := fsin (radians new_angle) * dist in
    (fst start_point + move_x, snd start_point + move_y).

(** [math.ceil] of a number, as the [int] it returns *)
Definition ceil (x : Q) : Z := Qceiling x.

Definition create_circle (center : Point) (radius points_per_mm : Q)
    : result geom :=
  let '(x, y) := center in
  let n := ceil (2 * fpi * radius * points_per_mm) in
  if (n =? 0)%Z then Raise ZeroDivisionError
  else if (n <? 0)%Z then Raise ValueError
  else
    let theta :=
      np_linspace 0 (2 * fpi - 2 * fpi / inject_Z n) (Z.to_nat n) in
    LinearRing (map (fun t => (radius * fsin t + x, radius * fcos t + y)) theta).

(** An [Arc] after [generateConcentricArc] has set [circle] and [arcline]. *)
Record Arc : Type := {
  center : Point;
  r : Q;
  circle : geom;
  arcline : geom;
}.

(** [Arc(center, r, kwargs).generateConcentricArc(startpt, remainingSpace)] *)
Definition generateConcentricArc (center : Point) (r : Q)
    (pointsPerMillimeter : Q) (startpt : Point) (remainingSpace : geom)
    : result Arc :=
  let* circle := create_circle startpt r pointsPerMillimeter in
  let arcline := intersection circle remainingSpace in
  let arcline := if is_MultiLineString arcline then linemerge arcline
                 else arcline in
  Ok {| center := center; r := r; circle := circle; arcline := arcline |}.

(** The loop over [r_values]; [arcs.append] is the cons of the result. *)
Fixpoint generateMultipleConcentricArcs_loop (r_values : list Q)
    (startpt : Point) (basePoly remainingSpace : geom)
    (kwargs : ManualSettings) : result (list Arc) :=
  match r_values with
  | [] => Ok []
  | r :: r_values' =>
      let* arcObj :=
        generateConcentricArc startpt r (ArcPointsPerMillimeter kwargs)
                              startpt remainingSpace in
      if is_empty (arcline arcObj) then Ok []
      else if intersects basePoly (arcline arcObj)
              && negb (UseLeastAmountOfCenterPoints kwargs)
      then Ok [arcObj]
      else
        let* arcs := generateMultipleConcentricArcs_loop
                       r_values' startpt basePoly remainingSpace kwargs in
        Ok (arcObj :: arcs)
  end.


Definition generateMultipleConcentricArcs (startpt : Point) (rMin rMax : Q)
    (basePoly remainingSpace : geom) (kwargs : ManualSettings)
    : result (list Arc) :=
  let* r_values := np_arange rMin (rMax + ArcWidth kwargs) (ArcWidth kwargs) in
  generateMultipleConcentricArcs_loop r_values startpt basePoly
                                      remainingSpace kwargs.

End Arcs.

(** ** The start point (ll. 1249-1301) *)

(** What [makeStartLineString] hands over: one line string, or a
    [MultiLineString]/[GeometryCollection] whose members are each a line
    string or not, with their coordinates where the member has any. *)
Inductive linegeom : Type :=
  | LineString (coords : list Point)
  | MultiGeom (parts : list (bool * option (list Point))).

(** [max(l)]: the running maximum is replaced when an item is greater. *)
Fixpoint py_max_from (cur : Q) (l : list Q) : Q :=
  match l with
  | [] => cur
  | x :: l' => py_max_from (if Qlt_bool cur x then x else cur) l'
  end.

Definition py_max (l : list Q) : result Q :=
  match l with
  | [] => Raise ValueError
  | x :: l' => Ok (py_max_from x l')
  end.

(** [l.index(m)]: the first position whose item equals [m]. *)
Fixpoint py_index (m : Q) (l : list Q) : result nat :=
  match l with
  | [] => Raise ValueError
  | x :: l' => if Qeq_bool x m then Ok 0%nat
               else let* i := py_index m l' in Ok (S i)
  end.

(** [np.argmax(l)] *)
Definition np_argmax (l : list Q) : result nat :=
  let* m := py_max l in py_index m l.

Section StartPoint.
Context `{FloatOps} `{Random}.
Local Open Scope Q_scope.

Definition origin : Point := (0, 0).

(** The body of the scoring loop for one interior vertex: the score, given
    the length accumulated so far [curLength] (already including the
    segment that ends at the vertex). *)
Definition vertex_score (pts : list Point) (total mult : Q) (idp : nat)
    (curLength : Q) : Q :=
  let relLength := curLength / total in
  let lengthscore := 1 - Qabs (relLength - (1 # 2)) in
  let p := nth idp pts origin in
  let pprev := nth (idp - 1) pts origin in
  let pnext := nth (idp + 1) pts origin in
  let v1 := (fst p - fst pprev, snd p - snd pprev) in
  let v2 := (fst pnext - fst p, snd pnext - snd p) in
  let n1 := hypot (fst v1) (snd v1) in
  let n2 := hypot (fst v2) (snd v2) in
  if Qlt_bool 0 n1 && Qlt_bool 0 n2 then
    let v1 := (fst v1 / n1, snd v1 / n1) in
    let v2 := (fst v2 / n2, snd v2 / n2) in
    let dot := fst v1 * fst v2 + snd v1 * snd v2 in
    let anglescore := Qabs (fsin (farccos (np_clip dot (-1) 1))) in
    let anglescore := anglescore * mult in
    lengthscore + anglescore
  else lengthscore.

(** [for idp, p in enumerate(pts)]: [idps] are the indices still to visit. *)
Fixpoint scores_loop (pts : list Point) (total mult : Q) (idps : list nat)
    (curLength : Q) : list Q :=
  match idps with
  | [] => []
  | idp :: idps' =>
      if (idp =? 0)%nat || (idp =? length pts - 1)%nat
      then 0 :: scores_loop pts total mult idps' curLength
      else
        let curLength :=
          curLength + distance (nth idp pts origin) (nth (idp - 1) pts origin) in
        vertex_score pts total mult idp curLength
          :: scores_loop pts total mult idps' curLength
  end.

Definition scores (pts : list Point) (mult : Q) : list Q :=
  scores_loop pts (ls_length pts) mult (seq 0 (length pts)) 0.

(** The longest member of a multi-part start line. *)
Definition longest_linestring (parts : list (bool * option (list Point)))
    : result (list Point) :=
  let lengths :=
    map (fun g : bool * option (list Point) =>
           if fst g then ls_length (default [] (snd g)) else 0) parts in
  let* lsidx := np_argmax lengths in
  match parts !! lsidx with
  | Some (_, Some coords) => Ok coords
  | Some (_, None) => Raise NotImplementedError
  | None => Raise IndexError
  end.

(** [getStartPtOnLS(ls, kwargs, choseRandom)].

    A line string of length zero (all vertices equal) divides zero by zero
    for every interior vertex: each of these scores is NaN, no NaN is
    greater than the 0 of the first vertex, so [max] is that 0 and [index]
    finds it at position 0.  The rationals have no NaN; that run is written
    out as the branch [Qeq_bool (ls_length pts) 0]. *)
Definition getStartPtOnLS (ls : linegeom) (kwargs : ManualSettings)
    (choseRandom : bool) : M Point :=
  let! pts := lift (match ls with
                    | LineString coords => Ok coords
                    | MultiGeom parts => longest_linestring parts
                    end) in
  if (length pts <? 2)%nat then lift (Raise ValueError)
  else if (length pts =? 2)%nat then
    mret (midpoint (nth 0 pts origin) (nth 1 pts origin))
  else if choseRandom then choice pts
  else if Qeq_bool (ls_length pts) 0 then mret (nth 0 pts origin)
  else
    let sc := scores pts (CornerImportanceMultiplier kwargs) in
    let! m := lift (py_max sc) in
    let! maxIndex := lift (py_index m sc) in
    mret (nth maxIndex pts origin).

End StartPoint.

(** ** Frontier expansion (ll. 1202-1243, 1320-1366) *)

(** How a pass through a loop body ends: with [break], or going on. *)
Inductive loop_step (S : Type) : Type :=
  | Break (s : S)
  | Continue (s : S).
Arguments Break {S} s.
Arguments Continue {S} s.

Section Fill.
Context `{FloatOps} `{Shapely}.
Local Open Scope Q_scope.

(** [get_farthest_points]: [None] stands for the pair [(None, None)]. *)
Definition get_farthest_points (from_geom to_poly : geom)
    (number_of_points : nat) : result (option (list Point * list Q)) :=
  if is_empty from_geom then Ok None
  else
    let* coords :=
      match geom_coords from_geom with
      | Some cs => Ok cs
      | None =>
          if is_MultiLineString from_geom
          then Ok (concat (map (fun g => default [] (geom_coords g))
                               (geoms from_geom)))
          else Raise UnboundLocalError
      end in
    let distances := map (point_distance (boundary to_poly)) coords in
    let sorted_indices := rev (np_argsort distances) in
    let top_indices := take number_of_points sorted_indices in
    let longest_distances := map (fun i => nth i distances 0) top_indices in
    let farthest_points := map (fun i => nth i coords (0, 0)) top_indices in
    Ok (Some (farthest_points, longest_distances)).

(** The variables the loop of [fill_remaining_space] updates. *)
Record FillState : Type := {
  last_arc : Arc;
  filled_space : geom;
  arcs : list Arc;
  failureCount : nat;
}.

(** One pass through the body of the [for] loop. *)
Definition fill_remaining_space_body (r_min r_max min_distance_from_perimeter : Q)
    (poly : geom) (parameters : ManualSettings) (st : FillState)
    : result (loop_step FillState) :=
  let allowedRetries := AllowedArcRetries parameters in
  let remaining_space :=
    difference poly (buffer (filled_space st) (ArcWidth parameters / 2)) in
  let* far := get_farthest_points (boundary (filled_space st)) poly
                                  (allowedRetries + 1) in
  match far with
  | None => Raise AttributeError
  | Some (farthest_points, longest_distances) =>
      let* stop :=
        (if (length farthest_points =? 0)%nat then Ok true
         else match longest_distances !! failureCount st with
              | Some d => Ok (Qlt_bool d min_distance_from_perimeter)
              | None => Raise IndexError
              end) in
      if (stop : bool) then Ok (Break st)
      else
        let* far_pt := match farthest_points !! failureCount st with
                       | Some p => Ok p
                       | None => Raise IndexError
                       end in
        let start_pt :=
          move_toward_point far_pt (center (last_arc st))
                            (ArcCenterOffset parameters) 0 in
        let* concentric_arcs :=
          generateMultipleConcentricArcs start_pt r_min r_max (boundary poly)
                                         remaining_space parameters in
        match last concentric_arcs with
        | None =>
            let failureCount' := S (failureCount st) in
            let st' := {| last_arc := last_arc st;
                          filled_space := filled_space st;
                          arcs := arcs st;
                          failureCount := failureCount' |} in
            if (allowedRetries <=? failureCount')%nat then Ok (Break st')
            else Ok (Continue st')
        | Some newest =>
            Ok (Continue
                  {| last_arc := newest;
                     filled_space :=
                       intersection poly
                         (unary_union [filled_space st;
                                       Polygon_of_ring (circle newest)]);
                     arcs := arcs st ++ concentric_arcs;
                     failureCount := 0 |})
        end
  end.

(** [for id in range(n)]: at most [n] passes, fewer after a [break]. *)
Fixpoint fill_remaining_space_loop (n : nat)
    (r_min r_max min_distance_from_perimeter : Q)
    (poly : geom) (parameters : ManualSettings) (st : FillState)
    : result FillState :=
  match n with
  | O => Ok st
  | S n' =>
      let* step := fill_remaining_space_body r_min r_max
                     min_distance_from_perimeter poly parameters st in
      match step with
      | Break st' => Ok st'
      | Continue st' =>
          fill_remaining_space_loop n' r_min r_max
            min_distance_from_perimeter poly parameters st'
      end
  end.

Definition fill_remaining_space (last_arc0 : Arc)
    (r_min r_max min_distance_from_perimeter : Q)
    (filled_space0 poly : geom) (parameters : ManualSettings)
    : result (list Arc * geom) :=
  let* st := fill_remaining_space_loop
               (SafetyBreak_MaxArcNumber parameters)
               r_min r_max min_distance_from_perimeter poly parameters
               {| last_arc := last_arc0; filled_space := filled_space0;
                  arcs := []; failureCount := 0 |} in
  Ok (arcs st, buffer (filled_space st) (ArcWidth parameters / 2)).

End Fill.

(** ** From arcs to G-code (ll. 1589-1659) *)

(** The lines the emitter writes, before they are formatted as text. *)
Inductive gcmd : Type :=
  | G1_E (E : pyval) (F : pyval)              (* [retractGCode]: "G1 E.. F.." *)
  | ArcComment (arcidx : nat) (length : Q)    (* ";Arc .. Length:.." *)
  | G1_XYE (p : Point) (E : Q) (F : option Z) (* [p2GCode]: "G1 X.. Y.. E.. [F..]" *)
  | G1_F (F : Q)                              (* [setFeedRateGCode]: "G1 F.." *)
  | M240.

(** The lines that set a feedrate on their own. *)
Definition is_G1_F (c : gcmd) : bool :=
  match c with
  | G1_F _ => true
  | _ => false
  end.

(** [d.get(key, dflt)] *)
Definition dict_get_default (d : gmap string pyval) (key : string)
    (dflt : pyval) : pyval :=
  match d !! key with
  | Some v => v
  | None => dflt
  end.

(** [-v] *)
Definition py_neg (v : pyval) : result pyval :=
  match v with
  | PBool b => Ok (PInt (if b then -1 else 0))
  | PInt z => Ok (PInt (- z))
  | PFloat q => Ok (PFloat (- q))
  | PNone | PStr _ | POther _ => Raise TypeError
  end.

Fixpoint str_repeat (s : string) (n : nat) : string :=
  match n with
  | O => EmptyString
  | S n' => String.append s (str_repeat s n')
  end.

(** [v * 60]: a string or a list is repeated. *)
Definition py_times60 (v : pyval) : result pyval :=
  match v with
  | PNone => Raise TypeError
  | PBool b => Ok (PInt (if b then 60 else 0))
  | PInt z => Ok (PInt (z * 60))
  | PFloat q => Ok (PFloat (q * 60))
  | PStr s => Ok (PStr (str_repeat s 60))
  | POther b => Ok (POther b)
  end.

Definition retractGCode (retract : bool) (kwargs : gmap string pyval)
    : result gcmd :=
  let retractDist := dict_get_default kwargs "retract_length" (PInt 1) in
  let* E := (if retract then py_neg retractDist else Ok retractDist) in
  let* F := py_times60 (dict_get_default kwargs "retract_speed" (PInt 35)) in
  Ok (G1_E E F).

(** [p2GCode(p, E, F=F)]; an [F] of zero is not written. *)
Definition p2GCode (p : Point) (E : Q) (F : Z) : gcmd :=
  G1_XYE p E (if (F =? 0)%Z then None else Some F).

Definition setFeedRateGCode (F : Q) : gcmd := G1_F F.

Section Emitter.
Context `{FloatOps}.
Local Open Scope Q_scope.

(** [x / y] on Python floats *)
Definition py_div (x y : Q) : result Q :=
  if Qeq_bool y 0 then Raise ZeroDivisionError else Ok (x / y).

Definition calcESteps (settingsdict : Parameters) (layerheight : option Q)
    : result Q :=
  let d := slicerSettings settingsdict in
  let m := manual settingsdict in
  let* eSurfaceArea :=
    match layerheight with
    | Some h =>
        if Qeq_bool h 0 then
          let* nozzle := py_num (dict_get d "nozzle_diameter") in
          Ok ((nozzle / 2) * (nozzle / 2) * fpi * ArcExtrusionMultiplier m)
        else
          let* w := py_num (dict_get d "infill_extrusion_width") in
          Ok ((w - h) * h
              + fpi * ((h / 2) * (h / 2)) * HilbertInfillExtrusionMultiplier m)
    | None =>
        let* nozzle := py_num (dict_get d "nozzle_diameter") in
        Ok ((nozzle / 2) * (nozzle / 2) * fpi * ArcExtrusionMultiplier m)
    end in
  if truthy (dict_get d "use_volumetric_e") then Ok eSurfaceArea
  else
    let* filament := py_num (dict_get d "filament_diameter") in
    py_div eSurfaceArea ((filament / 2) * (filament / 2) * fpi).

(** The feedrate [arc2GCode] computes for an arc. *)
Definition arcPrintSpeed (arcline : list Point) (kwargs : ManualSettings)
    : result Q :=
  let* per_second :=
    py_div (ls_length arcline) (ArcSlowDownBelowThisDuration kwargs) in
  Ok (np_clip (per_second * 60) (ArcMinPrintSpeed kwargs) (ArcPrintSpeed kwargs)).

(** [for idp, p in enumerate(pts)]: [p1] is the last point written. *)
Fixpoint arc2GCode_loop (pts : list Point) (idp n : nat) (p1 : Point)
    (pExtendBegin pExtendEnd : Point) (speed eSteps : Q) (arcidx : nat)
    (arclength : Q) (kwargs : Parameters) : result (list gcmd) :=
  match pts with
  | [] => Ok []
  | p :: pts' =>
      let* (here, p1') :=
        (if (idp =? 0)%nat then
           let* rt := retractGCode true (slicerSettings kwargs) in
           let dist := distance pExtendBegin p in
           let* unrt := retractGCode false (slicerSettings kwargs) in
           Ok ([rt;
                ArcComment arcidx arclength;
                p2GCode pExtendBegin 0 (ArcTravelFeedRate (manual kwargs));
                p2GCode p (dist * eSteps) 0;
                unrt;
                setFeedRateGCode speed], p)
         else
           let dist := distance p p1 in
           if Qlt_bool (GCodeArcPtMinDist (manual kwargs)) dist
           then Ok ([p2GCode p (dist * eSteps) 0], p)
           else Ok ([], p1)) in
      let at_end :=
        if (idp =? n - 1)%nat
        then [p2GCode pExtendEnd (ExtendArcDist (manual kwargs) * eSteps) 0]
        else [] in
      let* more := arc2GCode_loop pts' (S idp) n p1' pExtendBegin pExtendEnd
                                  speed eSteps arcidx arclength kwargs in
      Ok (here ++ at_end ++ more)
  end.

Definition arc2GCode (arcline : list Point) (eSteps : Q) (arcidx : nat)
    (kwargs : Parameters) : result (list gcmd) :=
  let pts := arcline in
  let n := length pts in
  if (n <? 2)%nat then Ok []
  else
    let extDist := ExtendArcDist (manual kwargs) in
    let pExtendBegin :=
      move_toward_point (nth 0 pts (0, 0)) (nth 1 pts (0, 0)) extDist (-90) in
    let pExtendEnd :=
      move_toward_point (nth (n - 1) pts (0, 0)) (nth (n - 2) pts (0, 0))
                        extDist 90 in
    let* speed := arcPrintSpeed arcline (manual kwargs) in
    arc2GCode_loop pts 0 n (0, 0) pExtendBegin pExtendEnd speed eSteps arcidx
                   (ls_length arcline) kwargs.

End Emitter.

(** ** Slicer dialects (ll. 102-167) *)

Inductive Slicer : Type := PrusaSlicer | OrcaSlicer.

Definition _EQUIVALENT_NAMES (slicer : Slicer) : gmap string string :=
  match slicer with
  | PrusaSlicer =>
      list_to_map
        [(";TYPE:Bridge infill", ";TYPE:Bridge infill");
         (";TYPE:External perimeter", ";TYPE:External perimeter");
         (";TYPE:Overhang perimeter", ";TYPE:Overhang perimeter");
         (";TYPE:Solid infill", ";TYPE:Solid infill");
         (";WIPE_START", ";WIPE_START");
         (";WIPE_END", ";WIPE_END")]
  | OrcaSlicer =>
      list_to_map
        [(";TYPE:Bridge infill", ";TYPE:Bridge");
         (";TYPE:External perimeter", ";TYPE:Outer wall");
         (";TYPE:Overhang perimeter", ";TYPE:Overhang wall");
         (";TYPE:Solid infill", ";TYPE:Internal solid infill");
         (";WIPE_START", ";WIPE_START");
         (";WIPE_END", ";WIPE_END")]
  end.

Definition getSlicerSpecificName (slicer : Slicer) (name : string) : string :=
  match slicer with
  | PrusaSlicer => name
  | _ => default name (_EQUIVALENT_NAMES slicer !! name)
  end.

(** ** Bridge infill objects (ll. 1193-1197) *)

Module BridgeInfill.

Record t : Type := mk {
  pts : list Point;
  deleteLater : bool;
  id : Z;
}.

(** The [class] statement evaluates the default of [id] once, when the
    module is loaded: one call of [randint(1, int(1e10))].  The value is
    kept with the function object and is what [class_default_id] holds. *)
Record class : Type := {
  class_default_id : Z;
}.

Definition define `{Random} : M class :=
  let! default_id := randint 1 10000000000 in
  mret {| class_default_id := default_id |}.

(** [BridgeInfill(pts, id)]; [id = None] is a call without that
    argument.  No random number is drawn here. *)
Definition init (cls : class) (pts : list Point) (id : option Z) : t :=
  {| pts := pts;
     deleteLater := false;
     id := default (class_default_id cls) id |}.

End BridgeInfill.

(** ** Layers (ll. 605-1129) *)

(** A feature: its [;TYPE:] line, its lines, the index of its first line. *)
Definition Feature : Type := (string * list string * nat)%type.

Section Layers.
Context `{FloatOps} `{Shapely}.
Local Open Scope Q_scope.

(** The attributes of a [Layer] the modelled code reads or writes.  [height]
    and [fansetting] exist only once [addHeight] and [spotFanSetting] ran. *)
Record Layer : Type := {
  lines : list string;
  layernumber : nat;
  z : pyval;
  height : option pyval;
  fansetting : option Q;
  polys : list geom;
  validpolys : list geom;
  extPerimeterPolys : list geom;
  failedArcGenPolys : list geom;
  binfills : list BridgeInfill.t;
  features : list Feature;
  oldpolys : list geom;
  deleteTheseInfills : list nat;
  associatedIDs : list Z;
}.

(** [Layer(lines, kwargs, layernumber)] *)
Definition Layer_init (lines : list string) (kwargs : Parameters)
    (layernumber : nat) : Layer :=
  {| lines := lines;
     layernumber := layernumber;
     z := dict_get (slicerSettings kwargs) "z";
     height := None;
     fansetting := None;
     polys := [];
     validpolys := [];
     extPerimeterPolys := [];
     failedArcGenPolys := [];
     binfills := [];
     features := [];
     oldpolys := [];
     deleteTheseInfills := [];
     associatedIDs := [] |}.

Definition set_lines (v : list string) (l : Layer) : Layer :=
  {| lines := v; layernumber := layernumber l; z := z l; height := height l;
     fansetting := fansetting l; polys := polys l; validpolys := validpolys l;
     extPerimeterPolys := extPerimeterPolys l;
     failedArcGenPolys := failedArcGenPolys l; binfills := binfills l;
     features := features l; oldpolys := oldpolys l;
     deleteTheseInfills := deleteTheseInfills l;
     associatedIDs := associatedIDs l |}.

Definition set_z (v : pyval) (l : Layer) : Layer :=
  {| lines := lines l; layernumber := layernumber l; z := v; height := height l;
     fansetting := fansetting l; polys := polys l; validpolys := validpolys l;
     extPerimeterPolys := extPerimeterPolys l;
     failedArcGenPolys := failedArcGenPolys l; binfills := binfills l;
     features := features l; oldpolys := oldpolys l;
     deleteTheseInfills := deleteTheseInfills l;
     associatedIDs := associatedIDs l |}.

Definition set_height (v : pyval) (l : Layer) : Layer :=
  {| lines := lines l; layernumber := layernumber l; z := z l;
     height := Some v;
     fansetting := fansetting l; polys := polys l; validpolys := validpolys l;
     extPerimeterPolys := extPerimeterPolys l;
     failedArcGenPolys := failedArcGenPolys l; binfills := binfills l;
     features := features l; oldpolys := oldpolys l;
     deleteTheseInfills := deleteTheseInfills l;
     associatedIDs := associatedIDs l |}.

Definition set_fansetting (v : Q) (l : Layer) : Layer :=
  {| lines := lines l; layernumber := layernumber l; z := z l;
     height := height l;
     fansetting := Some v; polys := polys l; validpolys := validpolys l;
     extPerimeterPolys := extPerimeterPolys l;
     failedArcGenPolys := failedArcGenPolys l; binfills := binfills l;
     features := features l; oldpolys := oldpolys l;
     deleteTheseInfills := deleteTheseInfills l;
     associatedIDs := associatedIDs l |}.

Definition set_polys (v : list geom) (l : Layer) : Layer :=
  {| lines := lines l; layernumber := layernumber l; z := z l;
     height := height l;
     fansetting := fansetting l; polys := v; validpolys := validpolys l;
     extPerimeterPolys := extPerimeterPolys l;
     failedArcGenPolys := failedArcGenPolys l; binfills := binfills l;
     features := features l; oldpolys := oldpolys l;
     deleteTheseInfills := deleteTheseInfills l;
     associatedIDs := associatedIDs l |}.

(** [validpolys.append(poly); deleteTheseInfills.append(idp)] *)
Definition add_validpoly (poly : geom) (idp : nat) (l : Layer) : Layer :=
  {| lines := lines l; layernumber := layernumber l; z := z l;
     height := height l;
     fansetting := fansetting l; polys := polys l;
     validpolys := validpolys l ++ [poly];
     extPerimeterPolys := extPerimeterPolys l;
     failedArcGenPolys := failedArcGenPolys l; binfills := binfills l;
     features := features l; oldpolys := oldpolys l;
     deleteTheseInfills := deleteTheseInfills l ++ [idp];
     associatedIDs := associatedIDs l |}.

Definition add_extPerimeterPolys (v : list geom) (l : Layer) : Layer :=
  {| lines := lines l; layernumber := layernumber l; z := z l;
     height := height l;
     fansetting := fansetting l; polys := polys l; validpolys := validpolys l;
     extPerimeterPolys := extPerimeterPolys l ++ v;
     failedArcGenPolys := failedArcGenPolys l; binfills := binfills l;
     features := features l; oldpolys := oldpolys l;
     deleteTheseInfills := deleteTheseInfills l;
     associatedIDs := associatedIDs l |}.

Definition add_failedArcGenPoly (poly : geom) (l : Layer) : Layer :=
  {| lines := lines l; layernumber := layernumber l; z := z l;
     height := height l;
     fansetting := fansetting l; polys := polys l; validpolys := validpolys l;
     extPerimeterPolys := extPerimeterPolys l;
     failedArcGenPolys := failedArcGenPolys l ++ [poly];
     binfills := binfills l;
     features := features l; oldpolys := oldpolys l;
     deleteTheseInfills := deleteTheseInfills l;
     associatedIDs := associatedIDs l |}.

Definition add_binfill (b : BridgeInfill.t) (l : Layer) : Layer :=
  {| lines := lines l; layernumber := layernumber l; z := z l;
     height := height l;
     fansetting := fansetting l; polys := polys l; validpolys := validpolys l;
     extPerimeterPolys := extPerimeterPolys l;
     failedArcGenPolys := failedArcGenPolys l;
     binfills := binfills l ++ [b];
     features := features l; oldpolys := oldpolys l;
     deleteTheseInfills := deleteTheseInfills l;
     associatedIDs := associatedIDs l |}.

(** [polys.append(infillPoly); associatedIDs.append(bInfill.id)] *)
Definition add_poly (poly : geom) (bid : Z) (l : Layer) : Layer :=
  {| lines := lines l; layernumber := layernumber l; z := z l;
     height := height l;
     fansetting := fansetting l; polys := polys l ++ [poly];
     validpolys := validpolys l;
     extPerimeterPolys := extPerimeterPolys l;
     failedArcGenPolys := failedArcGenPolys l;
     binfills := binfills l;
     features := features l; oldpolys := oldpolys l;
     deleteTheseInfills := deleteTheseInfills l;
     associatedIDs := associatedIDs l ++ [bid] |}.

Definition add_features (v : list Feature) (l : Layer) : Layer :=
  {| lines := lines l; layernumber := layernumber l; z := z l;
     height := height l;
     fansetting := fansetting l; polys := polys l; validpolys := validpolys l;
     extPerimeterPolys := extPerimeterPolys l;
     failedArcGenPolys := failedArcGenPolys l; binfills := binfills l;
     features := features l ++ v; oldpolys := oldpolys l;
     deleteTheseInfills := deleteTheseInfills l;
     associatedIDs := associatedIDs l |}.

(** [oldpolys.extend(v)] *)
Definition extend_oldpolys (v : list geom) (l : Layer) : Layer :=
  {| lines := lines l; layernumber := layernumber l; z := z l;
     height := height l;
     fansetting := fansetting l; polys := polys l; validpolys := validpolys l;
     extPerimeterPolys := extPerimeterPolys l;
     failedArcGenPolys := failedArcGenPolys l; binfills := binfills l;
     features := features l; oldpolys := oldpolys l ++ v;
     deleteTheseInfills := deleteTheseInfills l;
     associatedIDs := associatedIDs l |}.

(** *** [extract_features] (ll. 643-657) *)

Fixpoint extract_features_loop (lns : list string) (idl : nat)
    (acc : list Feature) (buff : list string) (currenttype : string)
    (start : nat) : list Feature :=
  match lns with
  | [] => acc ++ [(currenttype, buff, start)]
  | line :: lns' =>
      if str_in ";TYPE:" line then
        if negb (String.eqb currenttype "")
        then extract_features_loop lns' (S idl)
               (acc ++ [(currenttype, buff, start)]) [] line idl
        else extract_features_loop lns' (S idl) acc buff line start
      else extract_features_loop lns' (S idl) acc (buff ++ [line])
                                 currenttype start
  end.

Definition extract_features (self : Layer) : Layer :=
  add_features (extract_features_loop (lines self) 0 [] [] "" 0) self.

(** *** [addZ] (ll. 659-671), called without argument *)

Fixpoint addZ_cmds (cmds : list string) : option (result Q) :=
  match cmds with
  | [] => None
  | c :: cmds' => if str_in "Z" c then Some (py_float (str_tail c))
                  else addZ_cmds cmds'
  end.

Fixpoint addZ_lines (lns : list string) : option (result Q) :=
  match lns with
  | [] => None
  | l :: lns' =>
      let cmd := before_char ";" l in
      if str_in "G1" cmd && str_in "Z" cmd then
        match addZ_cmds (split_char " " cmd) with
        | Some found => Some found
        | None => addZ_lines lns'
        end
      else addZ_lines lns'
  end.

Definition addZ (self : Layer) : result Layer :=
  match addZ_lines (lines self) with
  | None => Ok self
  | Some found => let* v := found in Ok (set_z (PFloat v) self)
  end.

(** *** [addHeight] (ll. 673-681) *)

Fixpoint addHeight_lines (lns : list string) : option (result Q) :=
  match lns with
  | [] => None
  | l :: lns' => if str_in ";HEIGHT" l then Some (py_float (after_char ":" l))
                 else addHeight_lines lns'
  end.

Definition addHeight (kwargs : Parameters) (self : Layer) : result Layer :=
  match addHeight_lines (lines self) with
  | None => Ok (set_height (dict_get (slicerSettings kwargs) "layer_height") self)
  | Some found => let* h := found in Ok (set_height (PFloat h) self)
  end.

(** *** [spotFanSetting] (ll. 1121-1129) *)

Fixpoint spotFanSetting_lines (lns : list string) : option (result Q) :=
  match lns with
  | [] => None
  | line :: lns' =>
      if str_in "M106" (before_char ";" line) then
        Some (match split_char " " (before_char ";" (strip_newline line)) with
              | _ :: svalue :: _ => py_float (str_tail svalue)
              | _ => Raise IndexError
              end)
      else spotFanSetting_lines lns'
  end.

Definition spotFanSetting (lastfansetting : Q) (self : Layer)
    : result (Layer * Q) :=
  match spotFanSetting_lines (lines self) with
  | None => Ok (set_fansetting lastfansetting self, lastfansetting)
  | Some found => let* v := found in Ok (set_fansetting v self, v)
  end.

End Layers.

(** ** The parts of the script left abstract

    [readSettingsFromGCode2dict] (ll. 1517-1566) returns the dialect it sets
    in the global [slicer] together with the dictionary.
    [spotFeaturePoints] (ll. 789-875) returns its parts and their locations.
    [makeExternalPerimeter2Polys] (ll. 693-718) returns the polygons it
    appends to [extPerimeterPolys].
    [rewriteLayer] is the rest of the loop body of [main] for a layer that
    is modified (ll. 378-463): the Hilbert plan, the deletions and the
    injection; it returns [modifiedlayer.lines]. *)
Class LayerCode `{Shapely} `{Random} : Type := {
  readSettingsFromGCode2dict :
    list string -> gmap string pyval -> result (Slicer * gmap string pyval);
  spotFeaturePoints :
    Slicer -> Layer -> string -> bool -> bool -> bool ->
    result (list (list Point) * list (nat * nat));
  makeExternalPerimeter2Polys : Slicer -> Layer -> result (list geom);
  rewriteLayer :
    Slicer -> Parameters -> Layer -> list (list gcmd) -> bool ->
    M (list string);
}.

(** ** From bridge infill to valid polygons (ll. 776-787, 908-987) *)

Section Validation.
Context `{FloatOps} `{Shapely} `{Random} `{!LayerCode}.
Local Open Scope Q_scope.

Definition spotBridgeInfill (cls : BridgeInfill.class) (slicer : Slicer)
    (self : Layer) : result Layer :=
  let* (parts, _) :=
    spotFeaturePoints slicer self
      (getSlicerSpecificName slicer ";TYPE:Bridge infill") false true true in
  Ok (foldl (fun l infillpts =>
               add_binfill (BridgeInfill.init cls infillpts None) l)
            self parts).

Definition makePolysFromBridgeInfill (extend : Q) (self : Layer) : Layer :=
  foldl (fun l bInfill =>
           let infillLS := LineString_of (BridgeInfill.pts bInfill) in
           let infillPoly := buffer infillLS (extend + (5 # 100)) in
           add_poly infillPoly (BridgeInfill.id bInfill) l)
        self (binfills self).

Definition mergePolys (self : Layer) (thesepolys : list geom) : list geom :=
  let thesepolys := match thesepolys with [] => polys self | _ => thesepolys end in
  let mergedPolys := unary_union thesepolys in
  if is_a "Polygon" mergedPolys then [mergedPolys]
  else if is_a "MultiPolygon" mergedPolys || is_a "GeometryCollection" mergedPolys
  then geoms mergedPolys
  else thesepolys.

Definition getOverhangPerimeterLineStrings (slicer : Slicer) (self : Layer)
    : result (list geom) :=
  let* (parts, _) :=
    spotFeaturePoints slicer self
      (getSlicerSpecificName slicer ";TYPE:Overhang perimeter")
      false true false in
  Ok (map LineString_of parts).

(** The loop over [self.polys].  [query_nearest] yields the distance to the
    nearest overhang perimeter when it is within [maxDistForValidation], so
    a distance below that bound exists exactly when some overhang perimeter
    is closer than it; the [overlaps] query and the test that follows it
    both ask [overlaps(poly, ·)]. *)
Fixpoint verifyinfillpolys_loop (slicer : Slicer) (kwargs : ManualSettings)
    (overhangs : list geom) (maxDistForValidation : Q)
    (todo : list geom) (idp : nat) (self prevLayer : Layer)
    : result (Layer * Layer) :=
  match todo with
  | [] => Ok (self, prevLayer)
  | poly :: todo' =>
      let next := verifyinfillpolys_loop slicer kwargs overhangs
                    maxDistForValidation todo' (S idp) in
      if negb (is_valid poly) then next self prevLayer
      else if negb (contains (Polygon (AllowedSpaceForArcs kwargs)) poly)
              && CheckForAllowedSpace kwargs then next self prevLayer
      else if Qlt_bool (area poly) (MinArea kwargs) then next self prevLayer
      else
        let* ext := makeExternalPerimeter2Polys slicer prevLayer in
        let prevLayer := add_extPerimeterPolys ext prevLayer in
        let verified :=
          existsb (fun o => Qlt_bool (geom_distance o poly) maxDistForValidation)
                  overhangs in
        let verified :=
          verified
          || (ReplaceInternalBridging kwargs
              && existsb (overlaps poly) (extPerimeterPolys prevLayer)) in
        next (if verified then add_validpoly poly idp self else self) prevLayer
  end.

Definition verifyinfillpolys (slicer : Slicer) (kwargs : ManualSettings)
    (self prevLayer : Layer) (maxDistForValidation : Q)
    : result (Layer * Layer) :=
  let* overhangs := getOverhangPerimeterLineStrings slicer self in
  if (0 <? length overhangs)%nat || ReplaceInternalBridging kwargs then
    if is_empty (Polygon (AllowedSpaceForArcs kwargs)) then Raise ValueError
    else verifyinfillpolys_loop slicer kwargs overhangs maxDistForValidation
                                (polys self) 0 self prevLayer
  else Ok (self, prevLayer).

(** *** [makeStartLineString] (ll. 720-774), a method of the previous layer *)

Fixpoint makeStartLineString_loop (eps : list geom) (poly : geom)
    : result (option (geom * geom)) :=
  match eps with
  | [] => Ok None
  | ep :: eps' =>
      let ep := buffer ep (1 # 100) in
      if intersects ep poly then
        let startArea := intersection ep poly in
        let startLineString :=
          intersection (boundary startArea) (buffer (boundary poly) (1 # 100)) in
        if is_empty startLineString then
          if contains poly startArea then
            let startLineString := boundary startArea in
            let boundaryLineString := boundary poly in
            if is_empty startLineString then Ok None
            else Ok (Some (startLineString, boundaryLineString))
          else
            (* [boundaryLineString] was never assigned *)
            Raise UnboundLocalError
        else
          let boundaryLineString :=
            difference (boundary poly) (buffer (boundary startArea) (1 # 100)) in
          Ok (Some (startLineString, boundaryLineString))
      else makeStartLineString_loop eps' poly
  end.

Definition makeStartLineString (slicer : Slicer) (self : Layer) (poly : geom)
    : result (Layer * option (geom * geom)) :=
  let* self :=
    match extPerimeterPolys self with
    | [] => let* ext := makeExternalPerimeter2Polys slicer self in
            Ok (add_extPerimeterPolys ext self)
    | _ => Ok self
    end in
  if (length (extPerimeterPolys self) <? 1)%nat then Ok (self, None)
  else
    let* found := makeStartLineString_loop (extPerimeterPolys self) poly in
    Ok (self, found).

End Validation.

(** ** [checkforNecesarrySettings] (ll. 1568-1587) *)

Definition checkforNecesarrySettings (gCodeSettingDict : gmap string pyval)
    : result bool :=
  let get := dict_get gCodeSettingDict in
  if negb (truthy (get "use_relative_e_distances")) then Ok false
  else
    let* ew := py_num (get "extrusion_width") in
    let* too_thin :=
      (if Qlt_bool ew (1 # 1000) then Ok true
       else let* pw := py_num (get "perimeter_extrusion_width") in
            if Qlt_bool pw (1 # 1000) then Ok true
            else let* sw := py_num (get "solid_infill_extrusion_width") in
                 Ok (Qlt_bool sw (1 # 1000))) in
    if (too_thin : bool) then Ok false
    else if negb (truthy (get "overhangs")) then Ok false
    else
      (* [bridge_speed > 5] only warns, but the comparison is evaluated *)
      let* _ := py_num (get "bridge_speed") in
      (* the remaining tests only warn and cannot raise *)
      Ok true.

(** ** The tokenizer: [splitGCodeIntoLayers] (ll. 504-517) *)

(** The [for] loop: [gcode_list] and [buff] are the two accumulators. *)
Fixpoint splitGCodeIntoLayers_loop (gcode : list string)
    (gcode_list : list (list string)) (buff : list string)
    : list (list string) * list string :=
  match gcode with
  | [] => (gcode_list, buff)
  | line :: rest =>
      if str_in ";LAYER_CHANGE" line
      then splitGCodeIntoLayers_loop rest (gcode_list ++ [buff]) [line]
      else splitGCodeIntoLayers_loop rest gcode_list (buff ++ [line])
  end.

(** After the loop the last buffer is appended, and [linenumber] is printed:
    on an empty input the loop variable was never bound and the [print]
    raises. *)
Definition splitGCodeIntoLayers (gcode : list string)
    : result (list (list string)) :=
  let '(gcode_list, buff) := splitGCodeIntoLayers_loop gcode [] [] in
  match gcode with
  | [] => Raise UnboundLocalError
  | _ :: _ => Ok (gcode_list ++ [buff])
  end.

(** ** [main] (ll. 234-487) *)

Section Main.
Context `{FloatOps} `{Shapely} `{Random} `{!LayerCode}.
Local Open Scope Q_scope.

(** How [getStartPtOnLS] sees a start line. *)
Definition linegeom_of (g : geom) : result linegeom :=
  if is_a "MultiLineString" g || is_a "GeometryCollection" g
  then Ok (MultiGeom (map (fun lss => (is_a "LineString" lss, geom_coords lss))
                          (geoms g)))
  else match geom_coords g with
       | Some coords => Ok (LineString coords)
       | None => Raise NotImplementedError
       end.

(** [Arc.extractArcBoundary] (ll. 1141-1170): the boundaries
    [getArcBoundaries] appends or extends by. *)
Definition extractArcBoundary (self : Arc) : result (list geom) :=
  let trueArc := arcline self in
  if is_a "MultiLineString" trueArc then
    let merged := linemerge trueArc in
    if is_a "LineString" merged || is_a "LinearRing" merged then Ok [merged]
    else Ok (geoms merged)
  else if is_a "LineString" trueArc || is_a "LinearRing" trueArc then
    Ok [trueArc]
  else if is_a "GeometryCollection" trueArc then
    let found :=
      concat (map (fun g =>
                     if is_a "MultiLineString" g then geoms g
                     else if is_a "LineString" g || is_a "LinearRing" g
                     then [g]
                     else [])
                  (geoms trueArc)) in
    match found with
    | [] => Raise ValueError
    | [g] => Ok [g]
    | _ => Ok [linemerge (MultiLineString_of found)]
    end
  else Raise ValueError.

Fixpoint getArcBoundaries (concentricArcs : list Arc) : result (list geom) :=
  match concentricArcs with
  | [] => Ok []
  | arc :: more =>
      let* arcLines := extractArcBoundary arc in
      let* boundaries := getArcBoundaries more in
      Ok (arcLines ++ boundaries)
  end.

(** [for idr in range(n)]: a random start point each time, until enough
    arcs come out (ll. 322-326 and 328-332). *)
Fixpoint randomStartpoints (n : nat) (startLineString : geom)
    (rMinStart rMax : Q) (boundaryWithOutStartLine poly : geom)
    (kwargs : ManualSettings) (concentricArcs : list Arc) : M (list Arc) :=
  match n with
  | O => mret concentricArcs
  | S n' =>
      let! ls := lift (linegeom_of startLineString) in
      let! startpt := getStartPtOnLS ls kwargs true in
      let! concentricArcs :=
        lift (generateMultipleConcentricArcs startpt rMinStart rMax
                boundaryWithOutStartLine poly kwargs) in
      if (MinStartArcs kwargs <=? length concentricArcs)%nat
      then mret concentricArcs
      else randomStartpoints n' startLineString rMinStart rMax
                             boundaryWithOutStartLine poly kwargs concentricArcs
  end.

(** The first bundle of a polygon (ll. 311-336); [None] when the polygon is
    given up ([failedArcGenPolys.append(poly); continue]). *)
Definition firstConcentricArcs (startLineString boundaryWithOutStartLine
    poly : geom) (rMinStart rMax : Q) (kwargs : ManualSettings)
    : M (option (list Arc)) :=
  let enough (arcs : list Arc) := (MinStartArcs kwargs <=? length arcs)%nat in
  let! ls := lift (linegeom_of startLineString) in
  let! startpt := getStartPtOnLS ls kwargs false in
  let! concentricArcs :=
    lift (generateMultipleConcentricArcs startpt rMinStart rMax
            boundaryWithOutStartLine poly kwargs) in
  if enough concentricArcs then mret (Some concentricArcs)
  else
    let dense := segmentize startLineString (1 # 10) in
    let! ls := lift (linegeom_of dense) in
    let! startpt := getStartPtOnLS ls kwargs false in
    let! concentricArcs :=
      lift (generateMultipleConcentricArcs startpt rMinStart rMax
              boundaryWithOutStartLine poly kwargs) in
    if enough concentricArcs then mret (Some concentricArcs)
    else
      let! concentricArcs :=
        randomStartpoints 10 startLineString rMinStart rMax
                          boundaryWithOutStartLine poly kwargs concentricArcs in
      let! concentricArcs :=
        (if enough concentricArcs then mret concentricArcs
         else randomStartpoints 10 dense rMinStart rMax
                boundaryWithOutStartLine poly kwargs concentricArcs) in
      if enough concentricArcs then mret (Some concentricArcs)
      else mret None.

(** [for ida, arc in enumerate(arcs4gcode)] (ll. 366-372) *)
Fixpoint arcs2GCode (arcs4gcode : list geom) (ida : nat) (eSteps : Q)
    (parameters : Parameters) : result (list (list gcmd)) :=
  match arcs4gcode with
  | [] => Ok []
  | arc :: more =>
      let* here :=
        (if negb (is_empty arc) then
           let* coords := match geom_coords arc with
                          | Some cs => Ok cs
                          | None => Raise NotImplementedError
                          end in
           let* arcGCode := arc2GCode coords eSteps ida parameters in
           let n := TimeLapseEveryNArcs (manual parameters) in
           if (0 <? n)%nat && negb (ida mod n =? 0)%nat
           then Ok [arcGCode; [M240]]
           else Ok [arcGCode]
         else Ok []) in
      let* rest := arcs2GCode more (S ida) eSteps parameters in
      Ok (here ++ rest)
  end.

(** What one polygon of [validpolys] yields when its arcs are generated
    (ll. 291-375): the arc objects of the first bundle, those of
    [fill_remaining_space], and the G-code of all of them. *)
Record PolyArcs : Type := {
  concentricArcs : list Arc;
  remainingArcs : list Arc;
  arcGCodes : list (list gcmd);
}.

Definition arcsOfPoly (slicer : Slicer) (parameters : Parameters)
    (prevLayer : Layer) (poly : geom) : M (Layer * option PolyArcs) :=
  let kwargs := manual parameters in
  let MinDistanceFromPerimeter := MinDistanceFromPerimeter kwargs in
  let rMax := RMax kwargs in
  let arcWidth := ArcWidth kwargs in
  let rMin := ArcCenterOffset kwargs + arcWidth / (15 # 10) in
  let! rMinStart :=
    lift (py_num (dict_get (slicerSettings parameters) "nozzle_diameter")) in
  let! (prevLayer, start) := lift (makeStartLineString slicer prevLayer poly) in
  match start with
  | None => mret (prevLayer, None)
  | Some (startLineString, boundaryWithOutStartLine) =>
      let! first :=
        firstConcentricArcs startLineString boundaryWithOutStartLine poly
                            rMinStart rMax kwargs in
      match first with
      | None => mret (prevLayer, None)
      | Some concentricArcs =>
          let! arcBoundaries := lift (getArcBoundaries concentricArcs) in
          let! outermost := lift (match last concentricArcs with
                                  | Some a => Ok a
                                  | None => Raise IndexError
                                  end) in
          let filledSpace :=
            intersection (Polygon_of_ring (circle outermost)) poly in
          let! (remainingArcs, finalFilledSpace) :=
            lift (fill_remaining_space outermost rMin rMax
                    MinDistanceFromPerimeter filledSpace poly kwargs) in
          let! moreBoundaries := lift (getArcBoundaries remainingArcs) in
          let arcs4gcode := arcBoundaries ++ moreBoundaries in
          let! _ := lift (py_div (area finalFilledSpace) (area poly)) in
          let! eSteps := lift (calcESteps parameters None) in
          let! gcode := lift (arcs2GCode arcs4gcode 0 eSteps parameters) in
          mret (prevLayer,
                Some {| concentricArcs := concentricArcs;
                        remainingArcs := remainingArcs;
                        arcGCodes := gcode |})
      end
  end.

(** The special-cooling annotation of the follow-up layers (ll. 279-287):
    [later] are the layers above the overhang layer, [currZ] the Z last
    looked at.  The test [currZ < maxZ] comes before the test for a next
    layer. *)
Fixpoint annotateFollowUpLayers (maxZ : Q) (currZ : pyval)
    (later : list Layer) (validpolys : list geom) : result (list Layer) :=
  let* cz := py_num currZ in
  if Qlt_bool cz maxZ then
    match later with
    | [] => Ok []
    | next :: later' =>
        let* rest := annotateFollowUpLayers maxZ (z next) later' validpolys in
        Ok (extend_oldpolys validpolys next :: rest)
    end
  else Ok later.

(** The variables of [main] its second loop updates. *)
Record MainState : Type := {
  layerobjs : list Layer;
  gcodeWasModified : bool;
  numOverhangs : nat;
}.

(** The variables of the loop over [layer.validpolys]. *)
Record PolyLoop : Type := {
  pl_prevLayer : Layer;
  pl_layer : Layer;
  arcOverhangGCode : list (list gcmd);
  pl_modify : bool;
  pl_gcodeWasModified : bool;
}.

Fixpoint validpolys_loop (slicer : Slicer) (parameters : Parameters)
    (todo : list geom) (st : PolyLoop) : M PolyLoop :=
  match todo with
  | [] => mret st
  | poly :: todo' =>
      let! (prevLayer, arcs) :=
        arcsOfPoly slicer parameters (pl_prevLayer st) poly in
      match arcs with
      | None =>
          validpolys_loop slicer parameters todo'
            {| pl_prevLayer := prevLayer;
               pl_layer := add_failedArcGenPoly poly (pl_layer st);
               arcOverhangGCode := arcOverhangGCode st;
               pl_modify := pl_modify st;
               pl_gcodeWasModified := pl_gcodeWasModified st |}
      | Some a =>
          validpolys_loop slicer parameters todo'
            {| pl_prevLayer := prevLayer;
               pl_layer := pl_layer st;
               arcOverhangGCode := arcOverhangGCode st ++ arcGCodes a;
               pl_modify := true;
               pl_gcodeWasModified := true |}
      end
  end.

(** The body of the second loop for the layer at index [idl]. *)
Definition main_layer (cls : BridgeInfill.class) (slicer : Slicer)
    (parameters : Parameters) (idl : nat) (st : MainState) : M MainState :=
  if (idl <? 2)%nat then mret st
  else
    match layerobjs st !! idl, layerobjs st !! (idl - 1)%nat with
    | Some layer, Some prevLayer =>
        let kwargs := manual parameters in
        let layer := extract_features layer in
        let! layer := lift (spotBridgeInfill cls slicer layer) in
        let layer :=
          makePolysFromBridgeInfill (ExtendArcsIntoPerimeter kwargs) layer in
        let layer := set_polys (mergePolys layer []) layer in
        let! pw := lift (py_num (dict_get (slicerSettings parameters)
                                          "perimeter_extrusion_width")) in
        let! (layer, prevLayer) :=
          lift (verifyinfillpolys slicer kwargs layer prevLayer (2 * pw)) in
        let! (objs, found, loop) :=
          match validpolys layer with
          | [] =>
              mret (layerobjs st, false,
                    {| pl_prevLayer := prevLayer; pl_layer := layer;
                       arcOverhangGCode := []; pl_modify := false;
                       pl_gcodeWasModified := gcodeWasModified st |})
          | _ :: _ =>
              let! lz := lift (py_num (z layer)) in
              let maxZ := lz + specialCoolingZdist kwargs in
              let! later :=
                lift (annotateFollowUpLayers maxZ (z layer)
                        (drop (S idl) (layerobjs st)) (validpolys layer)) in
              let! loop :=
                validpolys_loop slicer parameters (validpolys layer)
                  {| pl_prevLayer := prevLayer; pl_layer := layer;
                     arcOverhangGCode := []; pl_modify := false;
                     pl_gcodeWasModified := gcodeWasModified st |} in
              mret (take (S idl) (layerobjs st) ++ later, true, loop)
          end in
        let layer := pl_layer loop in
        let modify :=
          pl_modify loop
          || (doSpecialCooling kwargs
              && (0 <? length (oldpolys layer))%nat
              && pl_gcodeWasModified loop) in
        let! layer :=
          (if modify then
             let! newlines :=
               rewriteLayer slicer parameters layer (arcOverhangGCode loop)
                            (pl_gcodeWasModified loop) in
             mret (extract_features (Layer_init newlines parameters idl))
           else mret layer) in
        mret {| layerobjs :=
                  <[idl := layer]>
                    (<[(idl - 1)%nat := pl_prevLayer loop]> objs);
                gcodeWasModified := pl_gcodeWasModified loop;
                numOverhangs :=
                  if (found : bool) then S (numOverhangs st)
                  else numOverhangs st |}
    | _, _ => lift (Raise IndexError)
    end.

Fixpoint main_layers (cls : BridgeInfill.class) (slicer : Slicer)
    (parameters : Parameters) (idls : list nat) (st : MainState)
    : M MainState :=
  match idls with
  | [] => mret st
  | idl :: idls' =>
      let! st := main_layer cls slicer parameters idl st in
      main_layers cls slicer parameters idls' st
  end.

(** The first loop (ll. 254-259) *)
Fixpoint make_layerobjs (layers : list (list string)) (parameters : Parameters)
    (idl : nat) (lastfansetting : Q) : result (list Layer) :=
  match layers with
  | [] => Ok []
  | layerlines :: layers' =>
      let layer := Layer_init layerlines parameters idl in
      let* layer := addZ layer in
      let* layer := addHeight parameters layer in
      let* (layer, lastfansetting) := spotFanSetting lastfansetting layer in
      let* rest := make_layerobjs layers' parameters (S idl) lastfansetting in
      Ok (layer :: rest)
  end.

Definition fallbackValuesDict : gmap string pyval :=
  <["Fallback_nozzle_diameter" := PFloat (4 # 10)]>
    (<["Fallback_filament_diameter" := PFloat (175 # 100)]> ∅).

(** [main] up to the test of [gcodeWasModified] (ll. 236-467): the state of
    its variables there, with the parameters. *)
Definition main_process (cls : BridgeInfill.class) (gCodeLines : list string)
    : M (Parameters * MainState) :=
  let! (slicer, gCodeSettingDict) :=
    lift (readSettingsFromGCode2dict gCodeLines fallbackValuesDict) in
  let! parameters := lift (makeFullSettingDict gCodeSettingDict) in
  let! ok := lift (checkforNecesarrySettings gCodeSettingDict) in
  if negb ok then lift (Raise ValueError)
  else
    let! layers := lift (splitGCodeIntoLayers gCodeLines) in
    let! objs := lift (make_layerobjs layers parameters 0 0) in
    let! st :=
      main_layers cls slicer parameters (seq 0 (length objs))
        {| layerobjs := objs; gcodeWasModified := false; numOverhangs := 0 |} in
    mret (parameters, st).

(** Files: the lines held under each path. *)
Definition FileSystem : Type := gmap string (list string).

(** The end of [main] (ll. 468-487): the file is written only when
    [gcodeWasModified] is set. *)
Definition main_write (path2GCode : string) (parameters : Parameters)
    (st : MainState) (fs : FileSystem) : FileSystem :=
  if gcodeWasModified st then
    let path := if negb (String.eqb (Path2Output (manual parameters)) "")
                then Path2Output (manual parameters) else path2GCode in
    <[path := concat (map lines (layerobjs st))]> fs
  else fs.

(** [main(gCodeFileStream, path2GCode)]: the files after the call, and how
    it ended.  [gCodeLines] is what the stream reads. *)
Definition main (cls : BridgeInfill.class) (gCodeLines : list string)
    (path2GCode : string) (fs : FileSystem) (g : rng)
    : FileSystem * result unit :=
  match main_process cls gCodeLines g with
  | Ok ((parameters, st), _) => (main_write path2GCode parameters st fs, Ok tt)
  | Raise e => (fs, Raise e)
  end.

End Main.

(** ** From G-code lines to points and polygons (ll. 519-600) *)

(** [re.search(r"G[0-3]", s)] *)
Definition search_G_0_3 (s : string) : bool :=
  str_in "G0" s || str_in "G1" s || str_in "G2" s || str_in "G3" s.

(** [re.search("G[0,1]", s)]: the class holds the comma as well. *)
Definition search_G_0_comma_1 (s : string) : bool :=
  str_in "G0" s || str_in "G," s || str_in "G1" s.

(** [re.search(r"G\d", s)]; among the characters of [string] the decimal
    digits are 0 to 9. *)
Definition search_G_digit (s : string) : bool :=
  existsb (fun d => str_in (String.append "G" d) s)
          ["0"; "1"; "2"; "3"; "4"; "5"; "6"; "7"; "8"; "9"]%string.

(** [isTravelMove] (ll. 596-600) *)
Definition isTravelMove (line : string) : bool :=
  str_in "G1 E" line || (str_in "G1 X" line && negb (str_in "E" line)).

Section Commands.
Context `{FloatOps}.

(** The words of a command after its first: the loop of [getPtfromCmd]
    (ll. 530-553) with its four variables; a result is the state at the
    [break] or at the end of the words.  [linear] is the test of l. 541,
    [prevPoint is None or re.search("G[0,1]", cmdType)]. *)
Fixpoint getPtfromCmd_loop (linear : bool) (cmds : list string)
    (x y i j : option Q) : option Q * option Q * option Q * option Q :=
  match cmds with
  | [] => (x, y, i, j)
  | c :: cmds' =>
      if bool_decide (x = None) && str_in "X" c then
        match float_of_string (str_tail c) with
        | Some v => getPtfromCmd_loop linear cmds' (Some v) y i j
        | None => (x, y, i, j)
        end
      else if str_in "Y" c then
        match float_of_string (str_tail c) with
        | Some v => if linear then (x, Some v, i, j)
                    else getPtfromCmd_loop linear cmds' x (Some v) i j
        | None => (x, y, i, j)
        end
      else if str_in "I" c then
        match float_of_string (str_tail c) with
        | Some v => getPtfromCmd_loop linear cmds' x y (Some v) j
        | None => (x, y, i, j)
        end
      else if str_in "J" c then
        match float_of_string (str_tail c) with
        | Some v => (x, y, i, Some v)
        | None => (x, y, i, j)
        end
      else getPtfromCmd_loop linear cmds' x y i j
  end.

(** [getPtfromCmd(line, prevPoint)] (ll. 519-568).  With both offsets [i]
    and [j] read, l. 561 calls [hypot] on one tuple instead of two numbers,
    which raises [TypeError] before anything of the arc is built: the
    function returns a point or [None], or raises. *)
Definition getPtfromCmd (line : string) (prevPoint : option Point)
    : result (option Point) :=
  let line := before_char ";" line in
  let cmds := split_char " " line in
  let* (x, y, i, j) :=
    match cmds with
    | [] => Raise IndexError
    | cmdType :: cmds' =>
        if search_G_0_3 cmdType then
          Ok (getPtfromCmd_loop
                (bool_decide (prevPoint = None) || search_G_0_comma_1 cmdType)
                cmds' None None None None)
        else Ok (None, None, None, None)
    end in
  match x, y with
  | Some x, Some y =>
      match i, j with
      | Some _, Some _ => Raise TypeError
      | _, _ => Ok (Some (x, y))
      end
  | _, _ => Ok None
  end.

End Commands.

Section Polygons.
Context `{FloatOps} `{Shapely}.

(** The loop of [makePolygonFromGCode] (ll. 574-588): the points collected
    when it ends, at a travel move or after the last line. *)
Fixpoint makePolygonFromGCode_loop (slicer : Slicer) (lns : list string)
    (wiping : bool) (pts : list Point) : result (list Point) :=
  match lns with
  | [] => Ok pts
  | line :: lns' =>
      if isTravelMove line then Ok pts
      else
        let '(skip, wiping) :=
          if str_in (getSlicerSpecificName slicer ";WIPE_END") line
          then (false, false)
          else if wiping then (true, wiping)
          else if str_in (getSlicerSpecificName slicer ";WIPE_START") line
          then (false, true)
          else (false, wiping) in
        if (skip : bool) then makePolygonFromGCode_loop slicer lns' wiping pts
        else if str_in "G1 X" line then
          let* p := getPtfromCmd line None in
          match p with
          | Some p => makePolygonFromGCode_loop slicer lns' wiping (pts ++ [p])
          | None => makePolygonFromGCode_loop slicer lns' wiping pts
          end
        else makePolygonFromGCode_loop slicer lns' wiping pts
  end.

(** [makePolygonFromGCode] (ll. 570-594).  [Polygon(pts)] makes a
    [LinearRing] of the points, which raises on a ring that is too short,
    and the polygon of that ring. *)
Definition makePolygonFromGCode (slicer : Slicer) (lns : list string)
    : result (option geom) :=
  let* pts := makePolygonFromGCode_loop slicer lns false [] in
  if (2 <? length pts)%nat then
    let* ring := LinearRing pts in Ok (Some (Polygon_of_ring ring))
  else Ok None.

(** [Layer.getRealFeatureStartPoint] (ll. 683-691) *)
Definition getRealFeatureStartPoint (self : Layer) (idf : nat)
    : result (option Point) :=
  if (idf <? 1)%nat then Ok None
  else
    match features self !! (idf - 1)%nat with
    | None => Raise IndexError
    | Some (_, lns, _) =>
        match List.find (str_in "G1 X") (rev lns) with
        | Some line => getPtfromCmd line None
        | None => Ok None
        end
    end.

End Polygons.

(** ** The layer code as the script has it (ll. 693-718, 789-875)

    [main] above runs on the interface [LayerCode]; these are the two
    methods of [Layer] behind it, as they are written. *)

(** The variables of the loops of [spotFeaturePoints].  Line numbers start
    at -1 where nothing was seen. *)
Record SpotState : Type := {
  sp_parts : list (list Point);
  sp_partLocations : list (Z * Z);
  sp_pts : list Point;
  sp_travelPoints : list Point;
  sp_begin : Z;
  sp_travelBegin : Z;
  sp_end : Z;
  sp_isWipeMove : bool;
  sp_isTravelling : bool;
}.

Definition sp_set_isTravelling (b : bool) (st : SpotState) : SpotState :=
  {| sp_parts := sp_parts st; sp_partLocations := sp_partLocations st;
     sp_pts := sp_pts st; sp_travelPoints := sp_travelPoints st;
     sp_begin := sp_begin st; sp_travelBegin := sp_travelBegin st;
     sp_end := sp_end st; sp_isWipeMove := sp_isWipeMove st;
     sp_isTravelling := b |}.

Definition sp_set_isWipeMove (b : bool) (st : SpotState) : SpotState :=
  {| sp_parts := sp_parts st; sp_partLocations := sp_partLocations st;
     sp_pts := sp_pts st; sp_travelPoints := sp_travelPoints st;
     sp_begin := sp_begin st; sp_travelBegin := sp_travelBegin st;
     sp_end := sp_end st; sp_isWipeMove := b;
     sp_isTravelling := sp_isTravelling st |}.

(** [pts = []] *)
Definition sp_clear_pts (st : SpotState) : SpotState :=
  {| sp_parts := sp_parts st; sp_partLocations := sp_partLocations st;
     sp_pts := []; sp_travelPoints := sp_travelPoints st;
     sp_begin := sp_begin st; sp_travelBegin := sp_travelBegin st;
     sp_end := sp_end st; sp_isWipeMove := sp_isWipeMove st;
     sp_isTravelling := sp_isTravelling st |}.

(** [parts.append(pts); partLocations.append((begin, end))] *)
Definition sp_append_part (st : SpotState) : SpotState :=
  {| sp_parts := sp_parts st ++ [sp_pts st];
     sp_partLocations := sp_partLocations st ++ [(sp_begin st, sp_end st)];
     sp_pts := sp_pts st; sp_travelPoints := sp_travelPoints st;
     sp_begin := sp_begin st; sp_travelBegin := sp_travelBegin st;
     sp_end := sp_end st; sp_isWipeMove := sp_isWipeMove st;
     sp_isTravelling := sp_isTravelling st |}.

(** [if not pts: begin = here]; [pts.append(p); end = here + 2] *)
Definition sp_add_point (here : Z) (p : Point) (st : SpotState) : SpotState :=
  {| sp_parts := sp_parts st; sp_partLocations := sp_partLocations st;
     sp_pts := sp_pts st ++ [p]; sp_travelPoints := sp_travelPoints st;
     sp_begin := match sp_pts st with [] => here | _ => sp_begin st end;
     sp_travelBegin := sp_travelBegin st;
     sp_end := (here + 2)%Z; sp_isWipeMove := sp_isWipeMove st;
     sp_isTravelling := sp_isTravelling st |}.

(** [travelPoints.append(travelP); travelBegin = here] *)
Definition sp_add_travelPoint (here : Z) (travelP : Point) (st : SpotState)
    : SpotState :=
  {| sp_parts := sp_parts st; sp_partLocations := sp_partLocations st;
     sp_pts := sp_pts st; sp_travelPoints := sp_travelPoints st ++ [travelP];
     sp_begin := sp_begin st; sp_travelBegin := here;
     sp_end := sp_end st; sp_isWipeMove := sp_isWipeMove st;
     sp_isTravelling := sp_isTravelling st |}.

(** ll. 823-827: the last point travelled to opens the part. *)
Definition sp_take_travelPoint (st : SpotState) : SpotState :=
  match last (sp_travelPoints st) with
  | Some travelP =>
      {| sp_parts := sp_parts st; sp_partLocations := sp_partLocations st;
         sp_pts := sp_pts st ++ [travelP]; sp_travelPoints := [];
         sp_begin := sp_travelBegin st; sp_travelBegin := sp_travelBegin st;
         sp_end := (sp_travelBegin st + 2)%Z;
         sp_isWipeMove := sp_isWipeMove st;
         sp_isTravelling := sp_isTravelling st |}
  | None => st
  end.

Module AsWritten.
Section AsWritten.
Context `{FloatOps} `{Shapely}.

(** One pass through the loop over the lines of a feature (ll. 813-869).
    The two branches of l. 846 do the same: [getPtfromCmd] gives a point
    there, never a line string, and the coordinates of a point are that
    point. *)
Definition spotFeaturePoints_line (slicer : Slicer)
    (splitAtWipe splitAtTravel : bool) (start idl : nat) (line : string)
    (st : SpotState) : result SpotState :=
  let here := (Z.of_nat idl + Z.of_nat start)%Z in
  let* st :=
    (if negb (sp_isWipeMove st) && search_G_digit line then
       if sp_isTravelling st then
         if isTravelMove line || negb (str_in "X" line) then
           let* travelP := getPtfromCmd line None in
           Ok (match travelP with
               | Some travelP => sp_add_travelPoint here travelP st
               | None => st
               end)
         else
           let st := sp_set_isTravelling false st in
           let st := sp_take_travelPoint st in
           let* p := getPtfromCmd line None in
           Ok (match p with
               | Some p => sp_add_point here p st
               | None => st
               end)
       else if splitAtTravel && isTravelMove line then
         let st := if (2 <=? length (sp_pts st))%nat then sp_append_part st
                   else st in
         let st := if (0 <? length (sp_parts st))%nat then sp_clear_pts st
                   else st in
         let* travelP := getPtfromCmd line None in
         let st := match travelP with
                   | Some travelP => sp_add_travelPoint here travelP st
                   | None => st
                   end in
         Ok (sp_set_isTravelling true st)
       else if str_in "E" line then
         if str_in "G1" line then
           let* p := getPtfromCmd line None in
           Ok (match p with
               | Some p => sp_add_point here p st
               | None => st
               end)
         else
           let* arc := getPtfromCmd line None in
           Ok (match arc with
               | Some arc => sp_add_point here arc st
               | None => st
               end)
       else Ok st
     else Ok st) in
  let st :=
    if str_in (getSlicerSpecificName slicer ";WIPE_START") line then
      let st := sp_set_isWipeMove true st in
      if splitAtWipe then sp_clear_pts (sp_append_part st) else st
    else st in
  let st :=
    if str_in (getSlicerSpecificName slicer ";WIPE_END") line
    then sp_set_isWipeMove false st
    else st in
  Ok st.

(** [for idl, line in enumerate(lines)] *)
Fixpoint spotFeaturePoints_lines (slicer : Slicer)
    (splitAtWipe splitAtTravel : bool) (start : nat) (lns : list string)
    (idl : nat) (st : SpotState) : result SpotState :=
  match lns with
  | [] => Ok st
  | line :: lns' =>
      let* st := spotFeaturePoints_line slicer splitAtWipe splitAtTravel
                   start idl line st in
      spotFeaturePoints_lines slicer splitAtWipe splitAtTravel start lns'
                              (S idl) st
  end.

(** [for idf, fe in enumerate(self.features)] *)
Fixpoint spotFeaturePoints_features (slicer : Slicer) (self : Layer)
    (featureName : string) (splitAtWipe includeRealStartPt splitAtTravel : bool)
    (fes : list Feature) (idf : nat)
    (parts : list (list Point)) (partLocations : list (Z * Z))
    : result (list (list Point) * list (Z * Z)) :=
  match fes with
  | [] => Ok (parts, partLocations)
  | (ftype, lns, start) :: fes' =>
      if negb (str_in featureName ftype) then
        spotFeaturePoints_features slicer self featureName splitAtWipe
          includeRealStartPt splitAtTravel fes' (S idf) parts partLocations
      else
        let* pts :=
          (if includeRealStartPt && (0 <? idf)%nat then
             let* sp := getRealFeatureStartPoint self idf in
             Ok (match sp with
                 | Some sp => [sp]
                 | None => []
                 end)
           else Ok []) in
        let* st :=
          spotFeaturePoints_lines slicer splitAtWipe splitAtTravel start lns 0
            {| sp_parts := parts; sp_partLocations := partLocations;
               sp_pts := pts; sp_travelPoints := [];
               sp_begin := 0; sp_travelBegin := -1; sp_end := -1;
               sp_isWipeMove := false; sp_isTravelling := false |} in
        let st := if (2 <=? length (sp_pts st))%nat then sp_append_part st
                  else st in
        spotFeaturePoints_features slicer self featureName splitAtWipe
          includeRealStartPt splitAtTravel fes' (S idf)
          (sp_parts st) (sp_partLocations st)
  end.

(** [Layer.spotFeaturePoints] (ll. 789-875) *)
Definition spotFeaturePoints (slicer : Slicer) (self : Layer)
    (featureName : string) (splitAtWipe includeRealStartPt splitAtTravel : bool)
    : result (list (list Point) * list (Z * Z)) :=
  spotFeaturePoints_features slicer self featureName splitAtWipe
    includeRealStartPt splitAtTravel (features self) 0 [] [].

(** The loop of [makeExternalPerimeter2Polys] (ll. 696-718); [n] is
    [len(self.features)].  In l. 706 [type(pt)] is [Point] or [NoneType] and
    [type(Point)] is [type]: the two are never equal, and the start point
    fetched is not used. *)
Fixpoint makeExternalPerimeter2Polys_loop (slicer : Slicer)
    (dontPerformPerimeterCheck : bool) (self : Layer) (n : nat)
    (fes : list Feature) (idf : nat) (extPerimeterIsStarted : bool)
    (linesWithStart : list string) : result (list geom) :=
  match fes with
  | [] => Ok []
  | (ftype, lns, _) :: fes' =>
      let external :=
        str_in (getSlicerSpecificName slicer ";TYPE:External perimeter") ftype in
      let overhang :=
        str_in (getSlicerSpecificName slicer ";TYPE:Overhang perimeter") ftype in
      let* (extPerimeterIsStarted, linesWithStart) :=
        (if external || (overhang && extPerimeterIsStarted)
            || (overhang && dontPerformPerimeterCheck) then
           let* linesWithStart :=
             (if negb extPerimeterIsStarted then
                if (1 <? idf)%nat then
                  let* pt := getRealFeatureStartPoint self idf in Ok []
                else Ok []
              else Ok linesWithStart) in
           Ok (true, linesWithStart ++ lns)
         else Ok (extPerimeterIsStarted, linesWithStart)) in
      if (extPerimeterIsStarted : bool)
         && ((idf =? n - 1)%nat || negb (external || overhang)) then
        let* poly := makePolygonFromGCode slicer linesWithStart in
        let* more :=
          makeExternalPerimeter2Polys_loop slicer dontPerformPerimeterCheck
            self n fes' (S idf) false linesWithStart in
        Ok (match poly with
            | Some poly => if is_empty poly then more else poly :: more
            | None => more
            end)
      else
        makeExternalPerimeter2Polys_loop slicer dontPerformPerimeterCheck
          self n fes' (S idf) extPerimeterIsStarted linesWithStart
  end.

(** [Layer.makeExternalPerimeter2Polys] (ll. 693-718): the polygons it
    appends to [extPerimeterPolys].  [dontPerformPerimeterCheck] is what
    [Layer.__init__] read from the parameters (l. 623). *)
Definition makeExternalPerimeter2Polys (slicer : Slicer) (kwargs : Parameters)
    (self : Layer) : result (list geom) :=
  makeExternalPerimeter2Polys_loop slicer
    (truthy (dict_get_default (slicerSettings kwargs)
                              "notPerformPerimeterCheck" (PBool false)))
    self (length (features self)) (features self) 0 false [].

End AsWritten.
End AsWritten.

(** ** Hilbert curves to G-code (ll. 1661-1686) *)

Section Hilbert.
Context `{FloatOps}.
Local Open Scope Q_scope.

(** [for idp, p in enumerate(curvepts)]; [lastP] is [None] while the
    variable is not bound. *)
Fixpoint hilbert2GCode_points (curvepts : list Point) (idc idp : nat)
    (lastP : option Point) (eSteps : Q) (parameters : Parameters)
    : result (list gcmd * option Point) :=
  match curvepts with
  | [] => Ok ([], lastP)
  | p :: curvepts' =>
      let* here :=
        (if (idp =? 0)%nat then
           let travel := p2GCode p 0 (ArcTravelFeedRate (manual parameters)) in
           if (idc =? 0)%nat then
             let* unretract := retractGCode false (slicerSettings parameters) in
             Ok [travel; unretract]
           else Ok [travel]
         else
           match lastP with
           | None => Raise UnboundLocalError
           | Some lastP =>
               if (idp =? 1)%nat then
                 Ok [p2GCode p (eSteps * distance p lastP)
                             (aboveArcsInfillPrintSpeed (manual parameters))]
               else Ok [p2GCode p (eSteps * distance p lastP) 0]
           end) in
      let* (more, lastP) :=
        hilbert2GCode_points curvepts' idc (S idp) (Some p) eSteps parameters in
      Ok (here ++ more, lastP)
  end.

(** [for idc, curvepts in enumerate(allhilbertpts)] *)
Fixpoint hilbert2GCode_curves (allhilbertpts : list (list Point)) (idc : nat)
    (lastP : option Point) (eSteps : Q) (parameters : Parameters)
    : result (list gcmd) :=
  match allhilbertpts with
  | [] => Ok []
  | curvepts :: more =>
      let* (here, lastP) :=
        hilbert2GCode_points curvepts idc 0 lastP eSteps parameters in
      let* rest := hilbert2GCode_curves more (S idc) lastP eSteps parameters in
      Ok (here ++ rest)
  end.

Definition hilbert2GCode (allhilbertpts : list (list Point))
    (parameters : Parameters) (layerheight : Q) : result (list gcmd) :=
  let* eSteps := calcESteps parameters (Some layerheight) in
  let* hilbertGCode := hilbert2GCode_curves allhilbertpts 0 None eSteps
                                            parameters in
  let* retract := retractGCode true (slicerSettings parameters) in
  Ok (hilbertGCode ++ [retract]).

End Hilbert.

(** [lss.length] for a member that is a line string, 0 for another
    (ll. 1253-1258) *)
Definition member_length `{FloatOps} (lss : bool * option (list Point)) : Q :=
  if fst lss then ls_length (default [] (snd lss)) else 0.

(** A layer that a [;LAYER_CHANGE] line opened: that line, then lines
    without the marker. *)
Definition opened_by_marker (layer : list string) : Prop :=
  match layer with
  | [] => False
  | line :: more =>
      str_in ";LAYER_CHANGE" line = true
      /\ Forall (fun l => str_in ";LAYER_CHANGE" l = false) more
  end.

(** What the loops of [spotFeaturePoints] keep: a location for each part,
    and, when no part is cut at a wipe, two points or more in each part. *)
Definition spot_inv (splitAtWipe : bool) (parts : list (list Point))
    (partLocations : list (Z * Z)) : Prop :=
  length parts = length partLocations
  /\ (splitAtWipe = false -> Forall (fun part => (2 <= length part)%nat) parts).

(** The lines that move the filament alone: retraction and its undoing. *)
Definition is_G1_E (c : gcmd) : bool :=
  match c with
  | G1_E _ _ => true
  | _ => false
  end.

(** The entry of [arcOverhangGCode] that takes a picture: ["M240\n"]
    (l. 372) *)
Definition is_M240_entry (cmds : list gcmd) : bool :=
  match cmds with
  | [M240] => true
  | _ => false
  end.

(** The arcs of [arcs4gcode] that the loop of ll. 366-372 follows with a
    picture, [ida] being the number of the first: those that are not empty
    and for which [ida % TimeLapseEveryNArcs] is not 0. *)
Section Pictures.
Context `{Shapely}.

Fixpoint pictures (n : nat) (arcs4gcode : list geom) (ida : nat) : nat :=
  match arcs4gcode with
  | [] => 0
  | arc :: more =>
      ((if negb (is_empty arc) && (0 <? n)%nat && negb (ida mod n =? 0)%nat
        then 1 else 0) + pictures n more (S ida))%nat
  end.

End Pictures.

(** ** Executable instances of the interfaces

    They make the definitions above run on concrete inputs.  [Approx] stands
    for the floats: a rational approximation of each function, rounded down
    to six decimals.  [Counter] is a random
    generator that counts.  [Raster] is a geometry of finite sets of unit
    cells of the plane, tagged with the shapely type they stand for. *)

Module Approx.
Local Open Scope Q_scope.

(** rounding down to six decimals *)
Definition round6 (x : Q) : Q :=
  Qred (inject_Z (Qfloor (x * 1000000)) / 1000000).

Definition sqrt (x : Q) : Q :=
  Qred (inject_Z (Z.sqrt (Qfloor (x * 1000000000000))) / 1000000).

Definition pi : Q := 355 # 113.

(** Bhaskara's approximation of the sine on [0, pi] *)
Definition sin_0_pi (x : Q) : Q :=
  16 * x * (pi - x) / (5 * pi * pi - 4 * x * (pi - x)).

Definition sin (x : Q) : Q :=
  let y := x - inject_Z (Qfloor (x / (2 * pi))) * (2 * pi) in
  round6 (if Qle_bool y pi then sin_0_pi y else - sin_0_pi (y - pi)).

Definition cos (x : Q) : Q := sin (x + pi / 2).

Definition arccos (x : Q) : Q := round6 (pi / 2 - (x + x * x * x / 6)).

Definition atan_unit (t : Q) : Q := t / (1 + (28 # 100) * t * t).

Definition atan (t : Q) : Q :=
  if Qle_bool (Qabs t) 1 then atan_unit t
  else if Qlt_bool 0 t then pi / 2 - atan_unit (/ t)
  else - (pi / 2) - atan_unit (/ t).

Definition atan2 (y x : Q) : Q :=
  round6 (if Qlt_bool 0 x then atan (y / x)
          else if Qlt_bool x 0 then
            (if Qle_bool 0 y then atan (y / x) + pi else atan (y / x) - pi)
          else if Qlt_bool 0 y then pi / 2
          else if Qlt_bool y 0 then - (pi / 2)
          else 0).

(** insertion of an index into indices sorted by their values *)
Fixpoint insert_index (vals : list Q) (i : nat) (sorted : list nat)
    : list nat :=
  match sorted with
  | [] => [i]
  | j :: sorted' =>
      if Qlt_bool (nth i vals 0) (nth j vals 0) then i :: sorted
      else j :: insert_index vals i sorted'
  end.

Definition argsort (vals : list Q) : list nat :=
  foldl (fun sorted i => insert_index vals i sorted) []
        (seq 0 (length vals)).

Definition digit_of (c : ascii) : option Z :=
  let n := nat_of_ascii c in
  if ((48 <=? n) && (n <=? 57))%nat then Some (Z.of_nat (n - 48)) else None.

Fixpoint parse_decimal (s : string) (num : Z) (den : positive)
    (after_point any : bool) : option Q :=
  match s with
  | EmptyString => if any then Some (Qred (num # den)) else None
  | String c s' =>
      match digit_of c with
      | Some d =>
          parse_decimal s' (10 * num + d)%Z
            (if after_point then (10 * den)%positive else den)
            after_point true
      | None =>
          if Ascii.eqb c "." && negb after_point
          then parse_decimal s' num den true any
          else None
      end
  end.

Definition parse_float (s : string) : option Q :=
  match strip_newline s with
  | String "-" s' => option_map Qopp (parse_decimal s' 0 1 false false)
  | s' => parse_decimal s' 0 1 false false
  end.

#[export] Instance floats : FloatOps := {|
  fsqrt := sqrt;
  fsin := sin;
  fcos := cos;
  farccos := arccos;
  fatan2 := atan2;
  fpi := pi;
  np_argsort := argsort;
  float_of_string := parse_float;
|}.
End Approx.

Module Counter.
#[export] Instance random : Random := {|
  rng := nat;
  randbelow n g := ((Z.of_nat g mod n)%Z, S g);
|}.
End Counter.

Module Raster.
Local Open Scope Q_scope.

Definition cells : Type := gset (Z * Z).
Definition shape : Type := (string * cells)%type.

Definition cell (p : Point) : Z * Z := (Qfloor (fst p), Qfloor (snd p)).
Definition corner (c : Z * Z) : Point := (inject_Z (fst c), inject_Z (snd c)).
Definition of_points (pts : list Point) : cells := list_to_set (map cell pts).

(** the cells of [g] with a neighbour outside [g] *)
Definition rim (g : cells) : cells :=
  filter (fun c : Z * Z =>
            ~ ((fst c + 1, snd c)%Z ∈ g /\ (fst c - 1, snd c)%Z ∈ g /\
               (fst c, snd c + 1)%Z ∈ g /\ (fst c, snd c - 1)%Z ∈ g)) g.

(** distance in cells, maximum norm *)
Definition cell_distance (a b : Z * Z) : Z :=
  Z.max (Z.abs (fst a - fst b)) (Z.abs (snd a - snd b)).

Definition distance_to (g : cells) (c : Z * Z) : Q :=
  match map (cell_distance c) (elements g) with
  | [] => 0
  | d :: ds => inject_Z (foldr Z.min d ds)
  end.

Definition tag_of (g : cells) (tag : string) : string :=
  if bool_decide (g = ∅) then "GeometryCollection" else tag.

#[export] Instance geometry : Shapely := {|
  geom := shape;
  LinearRing pts :=
    if (length pts <? 3)%nat then Raise ValueError
    else Ok ("LinearRing", of_points pts);
  Polygon pts := ("Polygon", of_points pts);
  Polygon_of_ring g := ("Polygon", snd g);
  LineString_of pts := ("LineString", of_points pts);
  MultiLineString_of gs := ("MultiLineString", ⋃ (map snd gs));
  is_empty g := bool_decide (snd g = ∅);
  is_valid g := true;
  geom_type g := tag_of (snd g) (fst g);
  area g := inject_Z (Z.of_nat (size (snd g)));
  intersects a b := negb (bool_decide (snd a ∩ snd b = ∅));
  contains a b := bool_decide (snd b ⊆ snd a);
  overlaps a b :=
    negb (bool_decide (snd a ∩ snd b = ∅))
    && negb (bool_decide (snd b ⊆ snd a))
    && negb (bool_decide (snd a ⊆ snd b));
  geom_distance a b :=
    match map (distance_to (snd a)) (elements (snd b)) with
    | [] => 0
    | d :: ds => foldr Qmin d ds
    end;
  point_distance g p := distance_to (snd g) (cell p);
  geom_coords g := Some (map corner (elements (snd g)));
  geoms g := if bool_decide (snd g = ∅) then [] else [g];
  boundary g := ("LineString", rim (snd g));
  buffer g d := g;
  intersection a b := (fst a, snd a ∩ snd b);
  difference a b := (fst a, snd a ∖ snd b);
  unary_union gs := ("Polygon", ⋃ (map snd gs));
  linemerge g := ("LineString", snd g);
  segmentize g d := g;
|}.
End Raster.

(** [Scripted] runs the abstract parts of the script on small files: the
    settings are a fixed profile, in which a line
    ["; use_relative_e_distances = 0"] switches relative extrusion off; a
    part is the points of the [G1 X.. Y..] lines of a feature; an external
    perimeter gives the polygon of its points; a modified layer is its
    lines behind a marker and one line for each arc command. *)
Module Scripted.
Import Approx Counter Raster.

Definition profile (use_relative_e_distances : Z) : gmap string pyval :=
  list_to_map
    [("nozzle_diameter", PFloat (4 # 10));
     ("extrusion_width", PFloat (45 # 100));
     ("perimeter_extrusion_width", PFloat (45 # 100));
     ("solid_infill_extrusion_width", PFloat (45 # 100));
     ("infill_extrusion_width", PFloat (45 # 100));
     ("use_relative_e_distances", PInt use_relative_e_distances);
     ("overhangs", PInt 1);
     ("bridge_speed", PInt 5);
     ("avoid_crossing_perimeters", PInt 1);
     ("filament_diameter", PFloat (175 # 100));
     ("layer_height", PFloat (4 # 10));
     ("retract_length", PFloat (8 # 10));
     ("retract_speed", PInt 35);
     ("travel_speed", PInt 130)].

Definition read_settings (gcodeLines : list string)
    (fallbackValuesDict : gmap string pyval)
    : result (Slicer * gmap string pyval) :=
  let has pat := existsb (str_in pat) gcodeLines in
  let d :=
    profile (if has "; use_relative_e_distances = 0" then 0 else 1)
    ∪ fallbackValuesDict in
  if has "; prusaslicer_config = begin" then Ok (PrusaSlicer, d)
  else if has "; CONFIG_BLOCK_START" then Ok (OrcaSlicer, d)
  else Raise (SystemExit 0).

Definition coordinate (axis : string) (cmds : list string) : option Q :=
  match filter (fun c => String.prefix axis c = true) cmds with
  | c :: _ => parse_float (str_tail c)
  | [] => None
  end.

Definition xy_of_line (line : string) : option Point :=
  let cmds := split_char " " (before_char ";" (strip_newline line)) in
  match coordinate "X" cmds, coordinate "Y" cmds with
  | Some x, Some y => Some (x, y)
  | _, _ => None
  end.

Definition points_of (lns : list string) : list Point :=
  omap xy_of_line (filter (fun l => str_in "G1 X" l = true) lns).

Definition features_named (name : string) (self : Layer) : list Feature :=
  filter (fun f : Feature => str_in name (fst (fst f)) = true)
         (features self).

Definition spot_feature_points (slicer : Slicer) (self : Layer)
    (featureName : string) (splitAtWipe includeRealStartPt splitAtTravel : bool)
    : result (list (list Point) * list (nat * nat)) :=
  let found :=
    filter (fun part : list Point * (nat * nat) =>
              (2 <= length (fst part))%nat)
           (map (fun f : Feature =>
                   (points_of (snd (fst f)),
                    (snd f, (snd f + length (snd (fst f)))%nat)))
                (features_named featureName self)) in
  Ok (map fst found, map snd found).

Definition external_perimeter_polys (slicer : Slicer) (self : Layer)
    : result (list geom) :=
  Ok (map Polygon
        (filter (fun pts : list Point => (2 < length pts)%nat)
           (map (fun f : Feature => points_of (snd (fst f)))
              (features_named
                 (getSlicerSpecificName slicer ";TYPE:External perimeter")
                 self)))).

Definition rewrite_layer (slicer : Slicer) (parameters : Parameters)
    (layer : Layer) (arcOverhangGCode : list (list gcmd))
    (gcodeWasModified : bool) : M (list string) :=
  mret (";TYPE:Arc infill"
        :: map (fun _ => ";arc command") (concat arcOverhangGCode)
        ++ lines layer).

#[export] Instance code : LayerCode := {|
  readSettingsFromGCode2dict := read_settings;
  spotFeaturePoints := spot_feature_points;
  makeExternalPerimeter2Polys := external_perimeter_polys;
  rewriteLayer := rewrite_layer;
|}.

(** The class [BridgeInfill] as the generator started at 7 defines it. *)
Definition cls : BridgeInfill.class :=
  {| BridgeInfill.class_default_id := 8 |}.

(** The settings of the profile with their manual additions. *)
Definition parameters : Parameters :=
  {| manual := AddManualSettingsDict (4 # 10) (45 # 100);
     slicerSettings := profile 1 ∪ fallbackValuesDict |}.


(** A file of five layers: a header, two layers of perimeters, a layer
    with bridge infill over the edge of the perimeter below, and a layer
    of solid infill above it. *)
Definition header : list string :=
  ["; generated"; "; prusaslicer_config = begin"].

Definition perimeter_layer (height : string) : list string :=
  [";LAYER_CHANGE"; String.append "G1 Z" height;
   ";TYPE:External perimeter";
   "G1 X-3 Y-1 E1"; "G1 X-3 Y0 E1"; "G1 X-3 Y1 E1"; "G1 X-4 Y0 E1"].

Definition bridge_layer : list string :=
  [";LAYER_CHANGE"; "G1 Z1.2";
   ";TYPE:Bridge infill";
   "G1 X-3 Y-1 E1"; "G1 X-3 Y0 E1"; "G1 X-3 Y1 E1";
   "G1 X-2 Y1 E1"; "G1 X-2 Y0 E1"; "G1 X-2 Y-1 E1";
   "G1 X-1 Y-1 E1"; "G1 X-1 Y0 E1"; "G1 X-1 Y1 E1";
   "G1 X0 Y1 E1"; "G1 X0 Y0 E1"; "G1 X0 Y-1 E1";
   "G1 X1 Y-1 E1"; "G1 X1 Y0 E1"; "G1 X1 Y1 E1"].

Definition solid_layer : list string :=
  [";LAYER_CHANGE"; "G1 Z1.6";
   ";TYPE:Solid infill";
   "G1 X-3 Y-1 E1"; "G1 X1 Y1 E1"].


Definition overhang_file : list string :=
  header ++ perimeter_layer "0.4" ++ perimeter_layer "0.8"
  ++ bridge_layer ++ solid_layer.

Definition absolute_e_file : list string :=
  "; use_relative_e_distances = 0" :: overhang_file.

(** The bridge polygon of [bridge_layer], and a layer below it whose
    external perimeter is known. *)
Definition bridge_poly : geom :=
  ("Polygon", of_points (points_of bridge_layer)).

Definition layer_below : Layer :=
  add_extPerimeterPolys [Polygon (points_of (perimeter_layer "0.8"))]
                        (Layer_init (perimeter_layer "0.8") parameters 2).

(** The files a run starts from, and the state of its generator. *)
Definition files_with (content : list string) : FileSystem :=
  <["part.gcode" := content]> ∅.

Definition seed : rng := 7%nat.

(** The square of the cells from [(lo, lo)] to [(hi, hi)]. *)
Definition block (lo hi : Z) : geom :=
  ("Polygon",
   list_to_set (x ← seqZ lo (hi - lo + 1); y ← seqZ lo (hi - lo + 1);
                [(x, y)])).

(** A state of the loop of [fill_remaining_space] on [block (-3) 3]: one
    cell is filled, around the centre of the last arc. *)
Definition fill_state : FillState :=
  {| last_arc := {| center := (0, 0)%Q; r := 2;
                    circle := ("LinearRing", ∅);
                    arcline := ("LinearRing", ∅) |};
     filled_space := block 0 0;
     arcs := [];
     failureCount := 0 |}.
End Scripted.

(** ** Sine and cosine on the circle

    [Circle] is an instance of the floats whose sine and cosine are the
    rational parametrisation of the unit circle: [fsin t ^ 2 + fcos t ^ 2]
    is 1 exactly. *)
Module Circle.
Local Open Scope Q_scope.

Definition sin (t : Q) : Q := 2 * t / (1 + t * t).
Definition cos (t : Q) : Q := (1 - t * t) / (1 + t * t).

#[export] Instance floats : FloatOps := {|
  fsqrt := Approx.sqrt;
  fsin := sin;
  fcos := cos;
  farccos := Approx.arccos;
  fatan2 := Approx.atan2;
  fpi := Approx.pi;
  np_argsort := Approx.argsort;
  float_of_string := Approx.parse_float;
|}.
End Circle.

(** ** More sample inputs *)

(** The settings with another [ArcPointsPerMillimeter]. *)
Definition with_ArcPointsPerMillimeter (v : Q) (m : ManualSettings)
    : ManualSettings :=
  {|
     AllowedArcRetries := AllowedArcRetries m;
     CheckForAllowedSpace := CheckForAllowedSpace m;
     AllowedSpaceForArcs := AllowedSpaceForArcs m;
     ArcCenterOffset := ArcCenterOffset m;
     ArcExtrusionMultiplier := ArcExtrusionMultiplier m;
     ArcFanSpeed := ArcFanSpeed m;
     ArcMinPrintSpeed := ArcMinPrintSpeed m;
     ArcPrintSpeed := ArcPrintSpeed m;
     ArcSlowDownBelowThisDuration := ArcSlowDownBelowThisDuration m;
     ArcPointsPerMillimeter := v;
     ArcTravelFeedRate := ArcTravelFeedRate m;
     ArcWidth := ArcWidth m;
     CornerImportanceMultiplier := CornerImportanceMultiplier m;
     DistanceBetweenPointsOnStartLine := DistanceBetweenPointsOnStartLine m;
     ExtendArcDist := ExtendArcDist m;
     ExtendArcsIntoPerimeter := ExtendArcsIntoPerimeter m;
     ExtendHilbertIntoPerimeter := ExtendHilbertIntoPerimeter m;
     GCodeArcPtMinDist := GCodeArcPtMinDist m;
     HilbertFillingPercentage := HilbertFillingPercentage m;
     HilbertInfillExtrusionMultiplier := HilbertInfillExtrusionMultiplier m;
     HilbertTravelEveryNSeconds := HilbertTravelEveryNSeconds m;
     MinArea := MinArea m;
     MinBridgeLength := MinBridgeLength m;
     MinDistanceFromPerimeter := MinDistanceFromPerimeter m;
     MinStartArcs := MinStartArcs m;
     Path2Output := Path2Output m;
     RMax := RMax m;
     ReplaceInternalBridging := ReplaceInternalBridging m;
     SafetyBreak_MaxArcNumber := SafetyBreak_MaxArcNumber m;
     TimeLapseEveryNArcs := TimeLapseEveryNArcs m;
     UseLeastAmountOfCenterPoints := UseLeastAmountOfCenterPoints m;
     WarnBelowThisFillingPercentage := WarnBelowThisFillingPercentage m;
     aboveArcsFanSpeed := aboveArcsFanSpeed m;
     aboveArcsInfillPrintSpeed := aboveArcsInfillPrintSpeed m;
     aboveArcsPerimeterFanSpeed := aboveArcsPerimeterFanSpeed m;
     aboveArcsPerimeterPrintSpeed := aboveArcsPerimeterPrintSpeed m;
     applyAboveFanSpeedToWholeLayer := applyAboveFanSpeedToWholeLayer m;
     CoolingSettingDetectionDistance := CoolingSettingDetectionDistance m;
     doSpecialCooling := doSpecialCooling m;
     specialCoolingZdist := specialCoolingZdist m;
  |}.

(** The settings with another [TimeLapseEveryNArcs]. *)
Definition with_TimeLapseEveryNArcs (v : nat) (m : ManualSettings)
    : ManualSettings :=
  {|
     AllowedArcRetries := AllowedArcRetries m;
     CheckForAllowedSpace := CheckForAllowedSpace m;
     AllowedSpaceForArcs := AllowedSpaceForArcs m;
     ArcCenterOffset := ArcCenterOffset m;
     ArcExtrusionMultiplier := ArcExtrusionMultiplier m;
     ArcFanSpeed := ArcFanSpeed m;
     ArcMinPrintSpeed := ArcMinPrintSpeed m;
     ArcPrintSpeed := ArcPrintSpeed m;
     ArcSlowDownBelowThisDuration := ArcSlowDownBelowThisDuration m;
     ArcPointsPerMillimeter := ArcPointsPerMillimeter m;
     ArcTravelFeedRate := ArcTravelFeedRate m;
     ArcWidth := ArcWidth m;
     CornerImportanceMultiplier := CornerImportanceMultiplier m;
     DistanceBetweenPointsOnStartLine := DistanceBetweenPointsOnStartLine m;
     ExtendArcDist := ExtendArcDist m;
     ExtendArcsIntoPerimeter := ExtendArcsIntoPerimeter m;
     ExtendHilbertIntoPerimeter := ExtendHilbertIntoPerimeter m;
     GCodeArcPtMinDist := GCodeArcPtMinDist m;
     HilbertFillingPercentage := HilbertFillingPercentage m;
     HilbertInfillExtrusionMultiplier := HilbertInfillExtrusionMultiplier m;
     HilbertTravelEveryNSeconds := HilbertTravelEveryNSeconds m;
     MinArea := MinArea m;
     MinBridgeLength := MinBridgeLength m;
     MinDistanceFromPerimeter := MinDistanceFromPerimeter m;
     MinStartArcs := MinStartArcs m;
     Path2Output := Path2Output m;
     RMax := RMax m;
     ReplaceInternalBridging := ReplaceInternalBridging m;
     SafetyBreak_MaxArcNumber := SafetyBreak_MaxArcNumber m;
     TimeLapseEveryNArcs := v;
     UseLeastAmountOfCenterPoints := UseLeastAmountOfCenterPoints m;
     WarnBelowThisFillingPercentage := WarnBelowThisFillingPercentage m;
     aboveArcsFanSpeed := aboveArcsFanSpeed m;
     aboveArcsInfillPrintSpeed := aboveArcsInfillPrintSpeed m;
     aboveArcsPerimeterFanSpeed := aboveArcsPerimeterFanSpeed m;
     aboveArcsPerimeterPrintSpeed := aboveArcsPerimeterPrintSpeed m;
     applyAboveFanSpeedToWholeLayer := applyAboveFanSpeedToWholeLayer m;
     CoolingSettingDetectionDistance := CoolingSettingDetectionDistance m;
     doSpecialCooling := doSpecialCooling m;
     specialCoolingZdist := specialCoolingZdist m;
  |}.

(** [NoOverhangs] is [Scripted] for a file sliced without overhang
    detection: the profile read has [overhangs = 0]. *)
Module NoOverhangs.
Import Approx Counter Raster.

Definition read_settings (gcodeLines : list string)
    (fallbackValuesDict : gmap string pyval)
    : result (Slicer * gmap string pyval) :=
  Ok (PrusaSlicer, <["overhangs" := PInt 0]> (Scripted.profile 1)).

#[export] Instance code : LayerCode := {|
  readSettingsFromGCode2dict := read_settings;
  spotFeaturePoints := Scripted.spot_feature_points;
  makeExternalPerimeter2Polys := Scripted.external_perimeter_polys;
  rewriteLayer := Scripted.rewrite_layer;
|}.
End NoOverhangs.

Module Samples.
Import Approx Counter Raster Scripted.

(** The layer object of [bridge_layer] when [main] hands it to
    [verifyinfillpolys] (ll. 267-270). *)
Definition bridge_layer_object : Layer :=
  let layer := extract_features (Layer_init bridge_layer parameters 3) in
  match spotBridgeInfill cls PrusaSlicer layer with
  | Ok layer =>
      let layer :=
        makePolysFromBridgeInfill (ExtendArcsIntoPerimeter (manual parameters))
                                  layer in
      set_polys (mergePolys layer []) layer
  | Raise _ => layer
  end.

(** An arc that meets the remaining space in one point. *)
Definition touching_arc : Arc :=
  {| center := (0, 0)%Q; r := 1;
     circle := ("LinearRing", {[(1, 0)%Z]});
     arcline := ("Point", {[(1, 0)%Z]}) |}.

(** The start line of the bridge polygon on the layer below it, and the
    rest of the boundary, as [makeStartLineString] gives them. *)
Definition start_lines : geom * geom :=
  match makeStartLineString PrusaSlicer layer_below bridge_poly with
  | Ok (_, Some found) => found
  | _ => (bridge_poly, bridge_poly)
  end.

(** Layers at the heights given, for [annotateFollowUpLayers]. *)
Definition layer_at (height : Q) : Layer :=
  set_z (PFloat height) (Layer_init [] parameters 0).
End Samples.

(* ===================================================================== *)
(** * Part II: theorems                                                    *)
(* ===================================================================== *)

(** ** The tokenizer *)

Lemma splitGCodeIntoLayers_loop_concat gcode : forall gcode_list buff,
  let '(gl, b) := splitGCodeIntoLayers_loop gcode gcode_list buff in
  concat (gl ++ [b]) = concat (gcode_list ++ [buff]) ++ gcode.
Proof.
  induction gcode as [|line rest IH]; intros gl buff; simpl.
  - by rewrite app_nil_r.
  - destruct (str_in ";LAYER_CHANGE" line).
    + specialize (IH (gl ++ [buff]) [line]).
      destruct (splitGCodeIntoLayers_loop rest (gl ++ [buff]) [line]) as [gl' b'].
      rewrite IH. rewrite !concat_app. simpl. by rewrite !app_nil_r, <- !app_assoc.
    + specialize (IH gl (buff ++ [line])).
      destruct (splitGCodeIntoLayers_loop rest gl (buff ++ [line])) as [gl' b'].
      rewrite IH. rewrite !concat_app. simpl. by rewrite !app_nil_r, <- !app_assoc.
Qed.

(** C9. On every non-empty list of lines [splitGCodeIntoLayers] returns, the
    list of layers it returns is non-empty, and the layers concatenated in
    order are exactly the input lines. *)
Theorem splitGCodeIntoLayers_partition (gcode : list string) :
  gcode <> [] ->
  exists layers, splitGCodeIntoLayers gcode = Ok layers
                 /\ layers <> []
                 /\ concat layers = gcode.
Proof.
  intros Hne. unfold splitGCodeIntoLayers.
  pose proof (splitGCodeIntoLayers_loop_concat gcode [] []) as H.
  destruct (splitGCodeIntoLayers_loop gcode [] []) as [gl b].
  destruct gcode as [|l rest]; [done|].
  exists (gl ++ [b]). split; [done|]. split.
  - intros Heq. by apply app_eq_nil in Heq as [_ ?].
  - rewrite H. by simpl.
Qed.

Lemma splitGCodeIntoLayers_partition_witness :
  [";LAYER_CHANGE"; "G1 Z0.2"; "G1 X1 Y1 E1"]%string <> [] /\
  exists layers,
    splitGCodeIntoLayers [";LAYER_CHANGE"; "G1 Z0.2"; "G1 X1 Y1 E1"]%string
      = Ok layers
    /\ layers <> [] /\
    concat layers = [";LAYER_CHANGE"; "G1 Z0.2"; "G1 X1 Y1 E1"]%string.
Proof.
  split; [discriminate|].
  apply (splitGCodeIntoLayers_partition
           [";LAYER_CHANGE"; "G1 Z0.2"; "G1 X1 Y1 E1"]%string).
  discriminate.
Defined.

(** ** Arc radii *)

Section ArcRadii.
Context `{FloatOps} `{Shapely}.
Local Open Scope Q_scope.










End ArcRadii.

(** ** Running code that draws random numbers *)

Section Monad.
Context `{Random}.

Lemma mbind_Ok {A B} (m : M A) (k : A -> M B) g b g' :
  mbind m k g = Ok (b, g') ->
  exists a g1, m g = Ok (a, g1) /\ k a g1 = Ok (b, g').
Proof.
  unfold mbind. destruct (m g) as [[a g1]|]; [|discriminate]. eauto.
Qed.

Lemma lift_Ok {A} (res : result A) g a g' :
  lift res g = Ok (a, g') -> res = Ok a /\ g' = g.
Proof. unfold lift. destruct res; [|discriminate]. by intros [= -> ->]. Qed.

Lemma mret_Ok {A} (a : A) g b g' : mret a g = Ok (b, g') -> b = a /\ g' = g.
Proof. by intros [= -> ->]. Qed.

End Monad.

(** Splits a successful run of a bind, a lift or a return found in [H]. *)
Ltac run_inv H :=
  match type of H with
  | mbind _ _ _ = Ok _ =>
      let a := fresh "a" in let g := fresh "g" in
      let H1 := fresh "Hrun" in
      apply mbind_Ok in H as (a & g & H1 & H); run_inv H1
  | lift _ _ = Ok _ => apply lift_Ok in H as [? ?]; simplify_eq
  | mret _ _ = Ok _ => apply mret_Ok in H as [? ?]; simplify_eq
  | _ => idtac
  end.

Section EmittedArcs.
Context `{FloatOps} `{Shapely} `{Random} `{!LayerCode}.
Local Open Scope Q_scope.





End EmittedArcs.

(** ** The feedrate of an arc *)

Section Feedrate.
Context `{FloatOps}.
Local Open Scope Q_scope.

Lemma arc2GCode_loop_no_feedrate pts :
  forall idp n p1 pb pe speed eSteps arcidx len kwargs cmds,
    (0 < idp)%nat ->
    arc2GCode_loop pts idp n p1 pb pe speed eSteps arcidx len kwargs = Ok cmds ->
    Forall (fun c => is_G1_F c = false) cmds.
Proof.
  induction pts as [|p pts IH]; intros idp n p1 pb pe speed eSteps arcidx len
    kwargs cmds Hidp; simpl.
  - by intros [= <-].
  - destruct idp as [|idp]; [lia|]. cbn [arc2GCode_loop].
    change (S idp =? 0)%nat with false. cbv iota. unfold rbind.
    destruct (Qlt_bool _ _);
      (destruct (arc2GCode_loop pts _ _ _ _ _ _ _ _ _ _) as [more|] eqn:Hmore;
       [|discriminate]);
      intros [= <-]; apply IH in Hmore; try lia;
      repeat match goal with
             | |- context [if ?c then _ else _] => destruct c
             end;
      simpl; repeat (apply Forall_cons; split; [reflexivity|]); assumption.
Qed.

Lemma retractGCode_no_feedrate retract d c :
  retractGCode retract d = Ok c -> is_G1_F c = false.
Proof.
  unfold retractGCode, rbind.
  destruct (if retract then _ else _); [|discriminate].
  destruct (py_times60 _); [|discriminate]. by intros [= <-].
Qed.

(** C6, as the code has it.  For an arc of at least two points [arc2GCode]
    writes, after the retraction, the comment, the travel move, the move to
    the first point and the unretraction, one line that sets the feedrate
    to [clip(arc_length / ArcSlowDownBelowThisDuration * 60,
    ArcMinPrintSpeed, ArcPrintSpeed)]; no other line before or after it
    sets a feedrate on its own. *)
Theorem arc_feedrate (arcline : list Point) (eSteps : Q) (arcidx : nat)
    (kwargs : Parameters) (cmds : list gcmd) :
  (2 <= length arcline)%nat ->
  arc2GCode arcline eSteps arcidx kwargs = Ok cmds ->
  exists before after,
    cmds = before ++ [G1_F (np_clip
                              (ls_length arcline
                               / ArcSlowDownBelowThisDuration (manual kwargs)
                               * 60)
                              (ArcMinPrintSpeed (manual kwargs))
                              (ArcPrintSpeed (manual kwargs)))] ++ after
    /\ length before = 5%nat
    /\ Forall (fun c => is_G1_F c = false) before
    /\ Forall (fun c => is_G1_F c = false) after.
Proof.
  intros Hlen. unfold arc2GCode.
  destruct (length arcline <? 2)%nat eqn:Hlt;
    [apply Nat.ltb_lt in Hlt; lia|].
  unfold rbind at 1. unfold arcPrintSpeed, py_div, rbind at 1.
  destruct (Qeq_bool (ArcSlowDownBelowThisDuration (manual kwargs)) 0);
    [discriminate|].
  destruct arcline as [|p0 pts]; [simpl in Hlen; lia|].
  cbn [arc2GCode_loop]. cbn [Nat.eqb]. unfold rbind.
  destruct (retractGCode true (slicerSettings kwargs)) as [rt|] eqn:Hrt;
    [|discriminate].
  destruct (retractGCode false (slicerSettings kwargs)) as [unrt|] eqn:Hunrt;
    [|discriminate].
  destruct (arc2GCode_loop pts 1 _ _ _ _ _ _ _ _ _) as [more|] eqn:Hmore;
    [|discriminate].
  apply arc2GCode_loop_no_feedrate in Hmore; [|lia].
  apply retractGCode_no_feedrate in Hrt, Hunrt.
  intros [= <-].
  eexists [rt; _; _; _; unrt], _. split; [reflexivity|].
  split; [reflexivity|]. split.
  - by repeat constructor.
  - repeat match goal with
           | |- context [if ?c then _ else _] => destruct c
           end;
    simpl; repeat (apply Forall_cons; split; [reflexivity|]); assumption.
Qed.

End Feedrate.

(** ** Special cooling above an overhang *)

(** C7, where the code departs from it.  An overhang layer at Z 1.2 with
    [specialCoolingZdist] 3 and layers 0.4 apart above it: the polygons
    reach the layers up to Z 4.0, and also the layer at Z 4.4, which is
    more than 3 above the overhang; the layer at Z 4.8 is the first to be
    left alone. *)
Theorem annotateFollowUpLayers_overshoot `{Shapely} (kwargs : Parameters)
    (validpolys : list geom) :
  let layer_at (height : Q) := set_z (PFloat height) (Layer_init [] kwargs 0) in
  annotateFollowUpLayers ((12 # 10) + 3) (PFloat (12 # 10))
    (map layer_at [16 # 10; 2; 24 # 10; 28 # 10; 32 # 10; 36 # 10; 4;
                   44 # 10; 48 # 10]%Q)
    validpolys
  = Ok (map (fun height => extend_oldpolys validpolys (layer_at height))
            [16 # 10; 2; 24 # 10; 28 # 10; 32 # 10; 36 # 10; 4; 44 # 10]%Q
        ++ [layer_at (48 # 10)%Q]).
Proof. reflexivity. Qed.

(** ** Bridge infill identifiers *)

Section BridgeInfillIds.
Context `{FloatOps} `{Shapely} `{Random} `{!LayerCode}.

Lemma foldl_add_binfill cls parts : forall self,
  binfills (foldl (fun l infillpts =>
                     add_binfill (BridgeInfill.init cls infillpts None) l)
                  self parts)
  = binfills self
    ++ map (fun infillpts => BridgeInfill.init cls infillpts None) parts.
Proof.
  induction parts as [|p parts IH]; intros self; simpl.
  - by rewrite app_nil_r.
  - rewrite IH. simpl. by rewrite <- app_assoc.
Qed.

Lemma spotBridgeInfill_ids cls slicer self self' b :
  binfills self = [] ->
  spotBridgeInfill cls slicer self = Ok self' ->
  b ∈ binfills self' ->
  BridgeInfill.id b = BridgeInfill.class_default_id cls.
Proof.
  intros Hnone. unfold spotBridgeInfill, rbind.
  destruct (spotFeaturePoints _ _ _ _ _ _) as [[parts locs]|]; [|discriminate].
  intros [= <-]. rewrite foldl_add_binfill, Hnone. simpl.
  intros (pts & -> & _)%list_elem_of_fmap. reflexivity.
Qed.

(** C10. The class statement draws one random number, the default of [id].
    Every [BridgeInfill] built without an [id] carries that number;
    [spotBridgeInfill] appends one such object for each part
    [spotFeaturePoints] finds, so every object it builds, in whatever layer,
    has this one identifier: it does not tell the bridge regions apart. *)
Theorem BridgeInfill_shared_id (g : rng) (cls : BridgeInfill.class) (g' : rng) :
  BridgeInfill.define g = Ok (cls, g') ->
  let shared := (1 + fst (randbelow (10000000000 - 1 + 1) g))%Z in
  (forall pts, BridgeInfill.id (BridgeInfill.init cls pts None) = shared)
  /\ (forall slicer self self',
        spotBridgeInfill cls slicer self = Ok self' ->
        exists parts partLocations,
          spotFeaturePoints slicer self
            (getSlicerSpecificName slicer ";TYPE:Bridge infill")
            false true true = Ok (parts, partLocations)
          /\ binfills self'
             = binfills self
               ++ map (fun infillpts =>
                         {| BridgeInfill.pts := infillpts;
                            BridgeInfill.deleteLater := false;
                            BridgeInfill.id := shared |}) parts)
  /\ (forall slicer layer1 layer1' layer2 layer2' b1 b2,
        binfills layer1 = [] -> binfills layer2 = [] ->
        spotBridgeInfill cls slicer layer1 = Ok layer1' ->
        spotBridgeInfill cls slicer layer2 = Ok layer2' ->
        b1 ∈ binfills layer1' -> b2 ∈ binfills layer2' ->
        BridgeInfill.id b1 = shared /\ BridgeInfill.id b2 = shared).
Proof.
  intros Hdef shared.
  assert (BridgeInfill.class_default_id cls = shared) as Hid.
  { subst shared. unfold BridgeInfill.define, mbind, randint, mret in Hdef.
    destruct (randbelow _ g) as [i g1]. by injection Hdef as <- _. }
  split; [|split].
  - intros pts. simpl. exact Hid.
  - intros slicer self self'. unfold spotBridgeInfill, rbind.
    destruct (spotFeaturePoints _ _ _ _ _ _) as [[parts locs]|]; [|discriminate].
    intros [= <-]. exists parts, locs. split; [done|].
    rewrite foldl_add_binfill. f_equal. apply map_ext. intros pts.
    unfold BridgeInfill.init. simpl. by rewrite Hid.
  - intros slicer l1 l1' l2 l2' b1 b2 Hn1 Hn2 Hs1 Hs2 Hb1 Hb2.
    rewrite (spotBridgeInfill_ids _ _ _ _ _ Hn1 Hs1 Hb1).
    by rewrite (spotBridgeInfill_ids _ _ _ _ _ Hn2 Hs2 Hb2).
Qed.

End BridgeInfillIds.

(** ** Required settings *)

Section RequiredSettings.
Context `{FloatOps} `{Shapely} `{Random} `{!LayerCode}.

(** C8. When the settings read from the file give [use_relative_e_distances]
    a false value, [checkforNecesarrySettings] returns [False] and [main]
    ends in an exception, whatever the layers hold, leaving every file as it
    was: the [ValueError] of l. 243, unless [makeFullSettingDict] has
    already raised on a setting that is not a number. *)
Theorem relative_e_distances_required (cls : BridgeInfill.class)
    (gCodeLines : list string) (path2GCode : string) (fs : FileSystem)
    (g : rng) (slicer : Slicer) (gCodeSettingDict : gmap string pyval) :
  readSettingsFromGCode2dict gCodeLines fallbackValuesDict
    = Ok (slicer, gCodeSettingDict) ->
  truthy (dict_get gCodeSettingDict "use_relative_e_distances") = false ->
  checkforNecesarrySettings gCodeSettingDict = Ok false
  /\ main cls gCodeLines path2GCode fs g
     = (fs, Raise (match makeFullSettingDict gCodeSettingDict with
                   | Ok _ => ValueError
                   | Raise e => e
                   end)).
Proof.
  intros Hread Hfalsy.
  assert (checkforNecesarrySettings gCodeSettingDict = Ok false) as Hcheck.
  { unfold checkforNecesarrySettings. by rewrite Hfalsy. }
  split; [done|].
  unfold main, main_process, mbind, lift. rewrite Hread.
  destruct (makeFullSettingDict gCodeSettingDict); [|done].
  by rewrite Hcheck.
Qed.

End RequiredSettings.

(** ** The start point *)

Lemma py_max_from_ge l : forall cur,
  (cur <= py_max_from cur l)%Q
  /\ Forall (fun x => (x <= py_max_from cur l)%Q) l.
Proof.
  induction l as [|x l IH]; intros cur; simpl.
  - split; [apply Qle_refl|constructor].
  - destruct (IH (if Qlt_bool cur x then x else cur)) as [Hcur Hall].
    unfold Qlt_bool in *.
    destruct (Qle_bool x cur) eqn:Hle; simpl in *.
    + apply Qle_bool_iff in Hle. split; [done|]. constructor; [|done].
      by eapply Qle_trans.
    + assert (cur <= x)%Q.
      { destruct (Qlt_le_dec cur x) as [Hlt|Hge]; [by apply Qlt_le_weak|].
        apply Qle_bool_iff in Hge. congruence. }
      split; [by eapply Qle_trans|]. by constructor.
Qed.



Lemma py_index_first m l i :
  py_index m l = Ok i ->
  (i < length l)%nat
  /\ (nth i l 0 == m)%Q
  /\ forall j, (j < i)%nat -> ~ (nth j l 0 == m)%Q.
Proof.
  revert i. induction l as [|x l IH]; intros i; simpl; [done|].
  destruct (Qeq_bool x m) eqn:Hx.
  - intros [= <-]. split; [lia|]. split; [by apply Qeq_bool_iff|].
    intros j Hj. lia.
  - unfold rbind. destruct (py_index m l) as [i'|]; [|discriminate].
    intros [= <-]. destruct (IH i' eq_refl) as (Hlt & Hnth & Hfirst).
    split; [lia|]. split; [done|]. intros [|j] Hj.
    + simpl. intros Heq. apply Qeq_bool_iff in Heq. congruence.
    + simpl. apply Hfirst. lia.
Qed.

Section StartPointFacts.
Context `{FloatOps} `{Random}.
Local Open Scope Q_scope.

Hypothesis fsqrt_nonneg : forall x, 0 <= fsqrt x.









End StartPointFacts.

(** ** Coverage grows *)

Section Coverage.
Context `{FloatOps} `{Shapely} `{!ShapelyLaws}.
Local Open Scope Q_scope.

(** The state a pass through the loop body leaves. *)
Lemma fill_remaining_space_body_filled r_min r_max mdp poly kwargs st step :
  fill_remaining_space_body r_min r_max mdp poly kwargs st = Ok step ->
  let st' := match step with Break s | Continue s => s end in
  filled_space st' = filled_space st
  \/ exists newest,
       filled_space st'
       = intersection poly
           (unary_union [filled_space st; Polygon_of_ring (circle newest)]).
Proof.
  unfold fill_remaining_space_body, rbind.
  destruct (get_farthest_points _ _ _) as [[[fp ld]|]|]; try discriminate.
  destruct (if (length fp =? 0)%nat then _ else _) as [[]|];
    try discriminate.
  { intros [= <-]. by left. }
  destruct (fp !! failureCount st); [|discriminate].
  destruct (generateMultipleConcentricArcs _ _ _ _ _ _) as [ca|];
    [|discriminate].
  destruct (last ca) as [newest|].
  - intros [= <-]. right. by exists newest.
  - destruct (_ <=? _)%nat; intros [= <-]; by left.
Qed.

Lemma fill_remaining_space_body_grows r_min r_max mdp poly kwargs st step :
  within (filled_space st) poly ->
  fill_remaining_space_body r_min r_max mdp poly kwargs st = Ok step ->
  let st' := match step with Break s | Continue s => s end in
  area (filled_space st) <= area (filled_space st')
  /\ within (filled_space st') poly.
Proof.
  intros Hin Hbody.
  destruct (fill_remaining_space_body_filled _ _ _ _ _ _ _ Hbody)
    as [Heq|[newest Heq]]; cbv zeta; rewrite Heq.
  - split; [apply Qle_refl|done].
  - split; [|apply within_intersection_l].
    apply area_mono, within_intersection; [done|].
    apply within_unary_union. by left.
Qed.

(** C4. In [fill_remaining_space], when the filled space lies within the
    polygon before a pass through the loop body, then after the pass it
    still does and its area is not smaller; so the area never decreases
    over any number of passes. *)
Theorem filled_space_area_monotone (r_min r_max min_distance_from_perimeter : Q)
    (poly : geom) (parameters : ManualSettings) :
  (forall st step,
      within (filled_space st) poly ->
      fill_remaining_space_body r_min r_max min_distance_from_perimeter poly
        parameters st = Ok step ->
      area (filled_space st)
      <= area (filled_space (match step with Break s | Continue s => s end))
      /\ within (filled_space (match step with Break s | Continue s => s end))
                poly)
  /\ (forall n st st',
        within (filled_space st) poly ->
        fill_remaining_space_loop n r_min r_max min_distance_from_perimeter
          poly parameters st = Ok st' ->
        area (filled_space st) <= area (filled_space st')
        /\ within (filled_space st') poly).
Proof.
  split.
  - intros st step Hin Hbody.
    by apply (fill_remaining_space_body_grows _ _ _ _ _ _ _ Hin Hbody).
  - induction n as [|n IH]; intros st st' Hin; simpl.
    + intros [= <-]. split; [apply Qle_refl|done].
    + unfold rbind.
      destruct (fill_remaining_space_body _ _ _ _ _ st) as [step|] eqn:Hbody;
        [|discriminate].
      destruct (fill_remaining_space_body_grows _ _ _ _ _ _ _ Hin Hbody)
        as [Hle Hin'].
      destruct step as [s|s]; simpl in Hle, Hin'.
      * by intros [= <-].
      * intros Hloop. destruct (IH _ _ Hin' Hloop) as [Hle' Hin''].
        split; [by eapply Qle_trans|done].
Qed.

End Coverage.

(** ** What [main] leaves alone *)

Section MainFrame.
Context `{FloatOps} `{Shapely} `{Random} `{!LayerCode}.
Local Open Scope Q_scope.

Lemma addZ_lines_eq self self' : addZ self = Ok self' -> lines self' = lines self.
Proof.
  unfold addZ, rbind. destruct (addZ_lines (lines self)) as [[v|]|];
    try discriminate; by intros [= <-].
Qed.

Lemma addHeight_lines_eq kwargs self self' :
  addHeight kwargs self = Ok self' -> lines self' = lines self.
Proof.
  unfold addHeight, rbind. destruct (addHeight_lines (lines self)) as [[v|]|];
    try discriminate; by intros [= <-].
Qed.

Lemma spotFanSetting_lines_eq last self self' fan :
  spotFanSetting last self = Ok (self', fan) -> lines self' = lines self.
Proof.
  unfold spotFanSetting, rbind.
  destruct (spotFanSetting_lines (lines self)) as [[v|]|];
    try discriminate; by intros [= <- _].
Qed.

(** The layer objects of the first loop hold the lines of the layers. *)
Lemma make_layerobjs_lines layers parameters : forall idl last objs,
  make_layerobjs layers parameters idl last = Ok objs ->
  map lines objs = layers.
Proof.
  induction layers as [|layerlines layers IH]; intros idl last objs; simpl.
  - by intros [= <-].
  - unfold rbind.
    destruct (addZ _) as [l1|] eqn:Ez; [|discriminate].
    destruct (addHeight _ l1) as [l2|] eqn:Eh; [|discriminate].
    destruct (spotFanSetting _ l2) as [[l3 fan]|] eqn:Ef; [|discriminate].
    destruct (make_layerobjs layers _ _ _) as [rest|] eqn:Er; [|discriminate].
    intros [= <-]. simpl. rewrite (IH _ _ _ Er).
    apply addZ_lines_eq in Ez. apply addHeight_lines_eq in Eh.
    apply spotFanSetting_lines_eq in Ef. simpl in Ez. congruence.
Qed.

Lemma verifyinfillpolys_loop_lines slicer kwargs overhangs maxd todo :
  forall idp self prevLayer self' prevLayer',
    verifyinfillpolys_loop slicer kwargs overhangs maxd todo idp self prevLayer
      = Ok (self', prevLayer') ->
    lines prevLayer' = lines prevLayer.
Proof.
  induction todo as [|poly todo IH]; intros idp self prev self' prev'; simpl.
  - by intros [= _ <-].
  - destruct (negb (is_valid poly)); [by apply IH|].
    destruct (_ && _); [by apply IH|].
    destruct (Qlt_bool _ _); [by apply IH|].
    unfold rbind.
    destruct (makeExternalPerimeter2Polys slicer prev) as [ext|];
      [|discriminate].
    intros Hloop. by apply IH in Hloop.
Qed.

Lemma verifyinfillpolys_lines slicer kwargs self prevLayer maxd self' prevLayer' :
  verifyinfillpolys slicer kwargs self prevLayer maxd = Ok (self', prevLayer') ->
  lines prevLayer' = lines prevLayer.
Proof.
  unfold verifyinfillpolys, rbind.
  destruct (getOverhangPerimeterLineStrings slicer self); [|discriminate].
  destruct (_ || _); [|by intros [= _ <-]].
  destruct (is_empty _); [discriminate|].
  apply verifyinfillpolys_loop_lines.
Qed.

Lemma makeStartLineString_lines slicer self poly self' found :
  makeStartLineString slicer self poly = Ok (self', found) ->
  lines self' = lines self.
Proof.
  unfold makeStartLineString, rbind.
  destruct (extPerimeterPolys self) eqn:Hext.
  - destruct (makeExternalPerimeter2Polys slicer self); [|discriminate].
    destruct (_ <? _)%nat; [by intros [= <- _]|].
    destruct (makeStartLineString_loop _ _); [|discriminate].
    by intros [= <- _].
  - destruct (_ <? _)%nat; [by intros [= <- _]|].
    destruct (makeStartLineString_loop _ _); [|discriminate].
    by intros [= <- _].
Qed.

Lemma arcsOfPoly_lines slicer parameters prevLayer poly g prevLayer' arcs g' :
  arcsOfPoly slicer parameters prevLayer poly g = Ok ((prevLayer', arcs), g') ->
  lines prevLayer' = lines prevLayer.
Proof.
  intros Hrun. unfold arcsOfPoly in Hrun.
  apply mbind_Ok in Hrun as (nz & g1 & _ & Hrun).
  apply mbind_Ok in Hrun as ([prev1 start] & g2 & Hstart & Hrun).
  run_inv Hstart.
  match goal with
  | Hs : makeStartLineString _ _ _ = Ok _ |- _ =>
      apply makeStartLineString_lines in Hs as Hlines
  end.
  destruct start as [[sls bls]|]; [|by run_inv Hrun].
  apply mbind_Ok in Hrun as (first & g3 & _ & Hrun).
  destruct first as [ca|]; [|by run_inv Hrun].
  apply mbind_Ok in Hrun as (ab & g4 & _ & Hrun).
  apply mbind_Ok in Hrun as (outermost & g5 & _ & Hrun).
  apply mbind_Ok in Hrun as ([ra ffs] & g6 & _ & Hrun).
  apply mbind_Ok in Hrun as (mb & g7 & _ & Hrun).
  apply mbind_Ok in Hrun as (u & g8 & _ & Hrun).
  apply mbind_Ok in Hrun as (eSteps & g9 & _ & Hrun).
  apply mbind_Ok in Hrun as (gcode & g10 & _ & Hrun).
  by run_inv Hrun.
Qed.

Lemma validpolys_loop_lines slicer parameters todo : forall st g st' g',
  validpolys_loop slicer parameters todo st g = Ok (st', g') ->
  lines (pl_prevLayer st') = lines (pl_prevLayer st).
Proof.
  induction todo as [|poly todo IH]; intros st g st' g' Hrun; simpl in Hrun.
  - by run_inv Hrun.
  - apply mbind_Ok in Hrun as ([prev1 arcs] & g1 & Harcs & Hrun).
    apply arcsOfPoly_lines in Harcs.
    destruct arcs; apply IH in Hrun; simpl in Hrun; congruence.
Qed.

Lemma annotateFollowUpLayers_length maxZ validpolys later :
  forall currZ later',
    annotateFollowUpLayers maxZ currZ later validpolys = Ok later' ->
    length later' = length later.
Proof.
  induction later as [|next later IH]; intros currZ later'; simpl;
    unfold rbind; destruct (py_num currZ); try discriminate;
    destruct (Qlt_bool _ _); try (by intros [= <-]).
  destruct (annotateFollowUpLayers maxZ (z next) later validpolys) as [rest|]
    eqn:Hrest; [|discriminate].
  intros [= <-]. simpl. by rewrite (IH _ _ Hrest).
Qed.

(** One pass through the second loop of [main]: the number of layers
    stays, the lines of the first two layers stay, and [gcodeWasModified]
    is set only where [numOverhangs] has been counted up. *)
Lemma main_layer_frame cls slicer parameters idl st g st' g' :
  main_layer cls slicer parameters idl st g = Ok (st', g') ->
  length (layerobjs st') = length (layerobjs st)
  /\ (forall i, (i < 2)%nat ->
        lines <$> (layerobjs st' !! i) = lines <$> (layerobjs st !! i))
  /\ ((gcodeWasModified st = true -> (0 < numOverhangs st)%nat) ->
      gcodeWasModified st' = true -> (0 < numOverhangs st')%nat).
Proof.
  intros Hrun. unfold main_layer in Hrun.
  destruct (idl <? 2)%nat eqn:Hidl.
  { run_inv Hrun. done. }
  apply Nat.ltb_ge in Hidl.
  destruct (layerobjs st !! idl) as [layer|] eqn:Hlayer; [|by run_inv Hrun].
  destruct (layerobjs st !! (idl - 1)%nat) as [prevLayer|] eqn:Hprev;
    [|by run_inv Hrun].
  apply mbind_Ok in Hrun as (layer1 & g1 & _ & Hrun).
  apply mbind_Ok in Hrun as (pw & g2 & _ & Hrun).
  apply mbind_Ok in Hrun as ([layer2 prev2] & g3 & Hverify & Hrun).
  run_inv Hverify.
  match goal with
  | Hv : verifyinfillpolys _ _ _ _ _ = Ok _ |- _ =>
      apply verifyinfillpolys_lines in Hv as Hprev2
  end.
  apply mbind_Ok in Hrun as ([[objs found] loop] & g4 & Hpolys & Hrun).
  assert (length objs = length (layerobjs st)
          /\ (forall i, (i < idl)%nat -> objs !! i = layerobjs st !! i)
          /\ lines (pl_prevLayer loop) = lines prevLayer
          /\ (found = true
              \/ found = false
                 /\ pl_gcodeWasModified loop = gcodeWasModified st))
    as (Hlen & Hsame & Hplines & Hfound).
  { destruct (validpolys layer2) as [|vp vps].
    - run_inv Hpolys. simpl. repeat split; try done. by right.
    - apply mbind_Ok in Hpolys as (lz & g5 & _ & Hpolys).
      apply mbind_Ok in Hpolys as (later & g6 & Hlater & Hpolys).
      run_inv Hlater.
      match goal with
      | Ha : annotateFollowUpLayers _ _ _ _ = Ok _ |- _ =>
          apply annotateFollowUpLayers_length in Ha as Hll
      end.
      apply mbind_Ok in Hpolys as (loop' & g7 & Hloop & Hpolys).
      apply validpolys_loop_lines in Hloop. simpl in Hloop.
      run_inv Hpolys.
      assert (idl < length (layerobjs st))%nat
        by (by eapply lookup_lt_Some).
      repeat split.
      + rewrite length_app, Hll, length_take, length_drop. lia.
      + intros i Hi. rewrite lookup_app_l by (rewrite length_take; lia).
        apply lookup_take_lt. lia.
      + congruence.
      + by left. }
  apply mbind_Ok in Hrun as (layer3 & g5 & _ & Hrun).
  run_inv Hrun. simpl. split; [|split].
  - by rewrite !length_insert.
  - intros i Hi.
    rewrite list_lookup_insert_ne by lia.
    destruct (decide (i = (idl - 1)%nat)) as [->|Hne].
    + rewrite list_lookup_insert_eq by (rewrite Hlen; eapply lookup_lt_Some; done).
      rewrite Hprev. simpl. by rewrite Hplines.
    + rewrite list_lookup_insert_ne by done. rewrite Hsame by lia. done.
  - intros Hinv Hmod. destruct Hfound as [->|[-> Heq]]; [lia|].
    rewrite Heq in Hmod. by apply Hinv.
Qed.

Lemma main_layers_frame cls slicer parameters idls : forall st g st' g',
  main_layers cls slicer parameters idls st g = Ok (st', g') ->
  length (layerobjs st') = length (layerobjs st)
  /\ (forall i, (i < 2)%nat ->
        lines <$> (layerobjs st' !! i) = lines <$> (layerobjs st !! i))
  /\ ((gcodeWasModified st = true -> (0 < numOverhangs st)%nat) ->
      gcodeWasModified st' = true -> (0 < numOverhangs st')%nat).
Proof.
  induction idls as [|idl idls IH]; intros st g st' g' Hrun; simpl in Hrun.
  - by run_inv Hrun.
  - apply mbind_Ok in Hrun as (st1 & g1 & Hone & Hrun).
    apply main_layer_frame in Hone as (Hl1 & Hs1 & Hi1).
    apply IH in Hrun as (Hl2 & Hs2 & Hi2).
    split; [congruence|]. split.
    + intros i Hi. rewrite Hs2, Hs1; done.
    + auto.
Qed.

(** What a run of [main] that reaches l. 468 has done. *)
Lemma main_process_frame cls gCodeLines g parameters st g' :
  main_process cls gCodeLines g = Ok ((parameters, st), g') ->
  exists layers,
    splitGCodeIntoLayers gCodeLines = Ok layers
    /\ length (layerobjs st) = length layers
    /\ (forall i, (i < 2)%nat -> lines <$> (layerobjs st !! i) = layers !! i)
    /\ (gcodeWasModified st = true -> (0 < numOverhangs st)%nat).
Proof.
  intros Hrun. unfold main_process in Hrun.
  apply mbind_Ok in Hrun as ([slicer d] & g1 & _ & Hrun).
  apply mbind_Ok in Hrun as (params & g2 & _ & Hrun).
  apply mbind_Ok in Hrun as (ok & g3 & _ & Hrun).
  destruct (negb ok); [by run_inv Hrun|].
  apply mbind_Ok in Hrun as (layers & g4 & Hsplit & Hrun). run_inv Hsplit.
  apply mbind_Ok in Hrun as (objs & g5 & Hobjs & Hrun). run_inv Hobjs.
  apply mbind_Ok in Hrun as (st1 & g6 & Hloop & Hrun). run_inv Hrun.
  match goal with
  | Hm : make_layerobjs _ _ _ _ = Ok _ |- _ =>
      apply make_layerobjs_lines in Hm as Hlines
  end.
  apply main_layers_frame in Hloop as (Hlen & Hsame & Hinv). simpl in *.
  exists layers. split; [done|]. subst layers. split; [|split].
  - by rewrite Hlen, length_map.
  - intros i Hi. rewrite (Hsame i Hi). by rewrite list_lookup_fmap.
  - apply Hinv. discriminate.
Qed.


(** C2. In every run of [main] the layer objects of layers 0 and 1 keep the
    lines the split gave them; so when the file is written, what is written
    begins with the lines of layers 0 and 1 as they were read, and when it
    is not written the file keeps them too. *)
Theorem first_two_layers_unchanged (cls : BridgeInfill.class)
    (gCodeLines : list string) (path2GCode : string) (fs : FileSystem)
    (g : rng) (parameters : Parameters) (st : MainState) (g' : rng) :
  main_process cls gCodeLines g = Ok ((parameters, st), g') ->
  exists layers,
    splitGCodeIntoLayers gCodeLines = Ok layers
    /\ (forall i, (i < 2)%nat -> lines <$> (layerobjs st !! i) = layers !! i)
    /\ main cls gCodeLines path2GCode fs g
       = (if gcodeWasModified st
          then <[(if negb (String.eqb (Path2Output (manual parameters)) "")
                  then Path2Output (manual parameters) else path2GCode)
                 := concat (take 2 layers)
                    ++ concat (map lines (drop 2 (layerobjs st)))]> fs
          else fs,
          Ok tt).
Proof.
  intros Hrun.
  destruct (main_process_frame _ _ _ _ _ _ Hrun)
    as (layers & Hsplit & Hlen & Hsame & _).
  exists layers. split; [done|]. split; [done|].
  unfold main, main_write. rewrite Hrun.
  destruct (gcodeWasModified st); [|done].
  do 2 f_equal.
  rewrite <- (take_drop 2 (layerobjs st)) at 1.
  rewrite map_app, concat_app. do 2 f_equal.
  apply list_eq. intros i.
  destruct (decide (i < 2)%nat) as [Hi|Hi].
  - rewrite list_lookup_fmap, !lookup_take_lt by done. by apply Hsame.
  - rewrite list_lookup_fmap, !lookup_take_ge by lia. done.
Qed.

End MainFrame.

(** ** The layers of a file *)

Lemma splitGCodeIntoLayers_loop_shape gcode : forall gcode_list buff,
  exists pre rest,
    (let '(gl, b) := splitGCodeIntoLayers_loop gcode gcode_list buff in
     gl ++ [b]) = gcode_list ++ (buff ++ pre) :: rest
    /\ Forall (fun l => str_in ";LAYER_CHANGE" l = false) pre
    /\ Forall opened_by_marker rest
    /\ length rest = length (List.filter (str_in ";LAYER_CHANGE") gcode).
Proof.
  induction gcode as [|line gcode IH]; intros gl buff; simpl.
  - exists [], []. rewrite app_nil_r. split; [done|]. by repeat constructor.
  - destruct (str_in ";LAYER_CHANGE" line) eqn:Hm.
    + destruct (IH (gl ++ [buff]) [line]) as (pre & rest & Heq & Hpre & Hrest & Hlen).
      exists [], (([line] ++ pre) :: rest). rewrite Heq.
      split; [|split; [|split]].
      * by rewrite app_nil_r, <- app_assoc.
      * constructor.
      * constructor; [|done]. by split.
      * simpl. by rewrite Hlen.
    + destruct (IH gl (buff ++ [line])) as (pre & rest & Heq & Hpre & Hrest & Hlen).
      exists (line :: pre), rest. rewrite Heq.
      split; [|split; [|split]]; try done.
      * by rewrite <- app_assoc.
      * by constructor.
Qed.

(** X1. The layers [splitGCodeIntoLayers] returns for a file with at least
    one line: a first layer without any [;LAYER_CHANGE] line, then one layer
    for each line with the marker, which starts with that line and holds no
    other. *)
Theorem splitGCodeIntoLayers_layers (line : string) (gcode : list string) :
  exists first rest,
    splitGCodeIntoLayers (line :: gcode) = Ok (first :: rest)
    /\ Forall (fun l => str_in ";LAYER_CHANGE" l = false) first
    /\ Forall opened_by_marker rest
    /\ length rest
       = length (List.filter (str_in ";LAYER_CHANGE") (line :: gcode)).
Proof.
  unfold splitGCodeIntoLayers.
  destruct (splitGCodeIntoLayers_loop_shape (line :: gcode) [] [])
    as (pre & rest & Heq & Hpre & Hrest & Hlen).
  destruct (splitGCodeIntoLayers_loop (line :: gcode) [] []) as [gl b].
  exists pre, rest. by rewrite Heq.
Qed.

(** ** The features of a layer *)

Lemma str_in_TYPE_nonempty line : str_in ";TYPE:" line = true -> line <> ""%string.
Proof. by intros Hin ->. Qed.

Lemma extract_features_loop_content lns : forall idl acc buff currenttype start,
  let fs := extract_features_loop lns idl acc buff currenttype start in
  concat (map (fun f : Feature => snd (fst f)) fs)
  = concat (map (fun f : Feature => snd (fst f)) acc) ++ buff
    ++ List.filter (fun l => negb (str_in ";TYPE:" l)) lns
  /\ map (fun f : Feature => fst (fst f)) fs
     = map (fun f : Feature => fst (fst f)) acc
       ++ match List.filter (str_in ";TYPE:") lns with
          | [] => [currenttype]
          | t :: ts => if String.eqb currenttype "" then t :: ts
                       else currenttype :: t :: ts
          end.
Proof.
  induction lns as [|line lns IH]; intros idl acc buff ct start; simpl.
  - rewrite !map_app, concat_app. simpl. by rewrite !app_nil_r.
  - destruct (str_in ";TYPE:" line) eqn:Ht; simpl.
    + pose proof (str_in_TYPE_nonempty _ Ht) as Hne.
      apply String.eqb_neq in Hne.
      destruct (String.eqb ct "") eqn:Hct; simpl.
      * destruct (IH (S idl) acc buff line start) as [Hc Hty].
        split; [done|]. rewrite Hty, Hne.
        destruct (List.filter (str_in ";TYPE:") lns); reflexivity.
      * destruct (IH (S idl) (acc ++ [(ct, buff, start)]) [] line idl)
          as [Hc Hty].
        split.
        -- rewrite Hc, map_app, concat_app. simpl.
           by rewrite app_nil_r, <- app_assoc.
        -- rewrite Hty, Hne, map_app. simpl. rewrite <- app_assoc. simpl.
           destruct (List.filter (str_in ";TYPE:") lns); reflexivity.
    + destruct (IH (S idl) acc (buff ++ [line]) ct start) as [Hc Hty].
      split; [|done]. rewrite Hc. by rewrite <- !app_assoc.
Qed.

(** X2. What [extract_features] adds to a layer: at least one feature; the
    lines of the features, one after the other, are the lines of the layer
    without the [;TYPE:] lines; with a [;TYPE:] line in the layer the types
    of the features are these lines in order, the lines before the first of
    them going to the first feature, and without one the whole layer is one
    feature of type [""]. *)
Theorem extract_features_content `{Shapely} (kwargs : Parameters)
    (lns : list string) (idl : nat) :
  let fs := features (extract_features (Layer_init lns kwargs idl)) in
  fs <> []
  /\ concat (map (fun f : Feature => snd (fst f)) fs)
     = List.filter (fun l => negb (str_in ";TYPE:" l)) lns
  /\ map (fun f : Feature => fst (fst f)) fs
     = match List.filter (str_in ";TYPE:") lns with
       | [] => [""%string]
       | types => types
       end.
Proof.
  simpl.
  destruct (extract_features_loop_content lns 0 [] [] "" 0) as [Hc Hty].
  simpl in Hc, Hty. split; [|split].
  - intros Hnil. rewrite Hnil in Hty. simpl in Hty.
    revert Hty. destruct (List.filter (str_in ";TYPE:") lns); discriminate.
  - exact Hc.
  - rewrite Hty. destruct (List.filter (str_in ";TYPE:") lns); reflexivity.
Qed.

Lemma extract_features_loop_start lns : forall idl acc buff currenttype start,
  exists t0 b0 newfs,
    extract_features_loop lns idl acc buff currenttype start
    = acc ++ (t0, b0, start) :: newfs
    /\ (currenttype <> ""%string -> t0 = currenttype)
    /\ Forall (fun f : Feature =>
                 (idl <= snd f)%nat
                 /\ lns !! (snd f - idl)%nat = Some (fst (fst f))) newfs.
Proof.
  induction lns as [|line lns IH]; intros idl acc buff ct start; simpl.
  - exists ct, buff, []. by repeat split.
  - destruct (str_in ";TYPE:" line) eqn:Ht.
    + pose proof (str_in_TYPE_nonempty _ Ht) as Hne.
      destruct (String.eqb ct "") eqn:Hct; simpl.
      * destruct (IH (S idl) acc buff line start)
          as (t0 & b0 & newfs & Heq & Ht0 & Hall).
        exists t0, b0, newfs. split; [done|]. split.
        -- intros Hct'. apply String.eqb_neq in Hct'. congruence.
        -- eapply Forall_impl; [exact Hall|]. intros f [Hle Hl]. split; [lia|].
           replace (snd f - idl)%nat with (S (snd f - S idl)) by lia. done.
      * destruct (IH (S idl) (acc ++ [(ct, buff, start)]) [] line idl)
          as (t0 & b0 & newfs & Heq & Ht0 & Hall).
        exists ct, buff, ((t0, b0, idl) :: newfs). split; [|split].
        -- rewrite Heq. by rewrite <- app_assoc.
        -- done.
        -- constructor.
           ++ simpl. split; [lia|]. rewrite Nat.sub_diag. simpl.
              by rewrite (Ht0 Hne).
           ++ eapply Forall_impl; [exact Hall|]. intros f [Hle Hl].
              split; [lia|].
              replace (snd f - idl)%nat with (S (snd f - S idl)) by lia. done.
    + destruct (IH (S idl) acc (buff ++ [line]) ct start)
        as (t0 & b0 & newfs & Heq & Ht0 & Hall).
      exists t0, b0, newfs. split; [done|]. split; [done|].
      eapply Forall_impl; [exact Hall|]. intros f [Hle Hl]. split; [lia|].
      replace (snd f - idl)%nat with (S (snd f - S idl)) by lia. done.
Qed.

(** X3. The line numbers [extract_features] records: the first feature
    starts at line 0, wherever its [;TYPE:] line is, and every later
    feature starts at its [;TYPE:] line. *)
Theorem extract_features_start `{Shapely} (kwargs : Parameters)
    (lns : list string) (idl : nat) :
  let fs := features (extract_features (Layer_init lns kwargs idl)) in
  (exists ftype body, fs !! 0%nat = Some (ftype, body, 0%nat))
  /\ forall k ftype body start,
       fs !! S k = Some (ftype, body, start) -> lns !! start = Some ftype.
Proof.
  simpl.
  destruct (extract_features_loop_start lns 0 [] [] "" 0)
    as (t0 & b0 & newfs & Heq & _ & Hall).
  rewrite Heq. simpl. split; [by eauto|].
  intros k ftype body start Hk.
  rewrite Forall_lookup in Hall. apply Hall in Hk as [_ Hl]. simpl in Hl.
  by rewrite Nat.sub_0_r in Hl.
Qed.

(** ** Commands *)

Section CommandFacts.
Context `{FloatOps}.

Lemma split_char_nonempty sep s : split_char sep s <> [].
Proof.
  destruct s as [|c s]; simpl; [done|].
  destruct (Ascii.eqb c sep); [done|]. by destruct (split_char sep s).
Qed.

(** With [linear] set the loop stops at the first [Y] and at the first [J]
    it reads: it never leaves with both. *)
Lemma getPtfromCmd_loop_linear cmds : forall x i,
  let '(_, y', _, j') := getPtfromCmd_loop true cmds x None i None in
  y' = None \/ j' = None.
Proof.
  induction cmds as [|c cmds IH]; intros x i; simpl; [by left|].
  destruct (bool_decide (x = None) && str_in "X" c).
  { destruct (float_of_string (str_tail c)); [apply IH|by left]. }
  destruct (str_in "Y" c).
  { destruct (float_of_string (str_tail c)); [by right|by left]. }
  destruct (str_in "I" c).
  { destruct (float_of_string (str_tail c)); [apply IH|by left]. }
  destruct (str_in "J" c).
  { destruct (float_of_string (str_tail c)); by left. }
  apply IH.
Qed.

(** Called without [prevPoint], as everywhere in the script, [getPtfromCmd]
    returns. *)
Lemma getPtfromCmd_None_Ok line : exists o, getPtfromCmd line None = Ok o.
Proof.
  unfold getPtfromCmd.
  destruct (split_char " " (before_char ";" line)) as [|cmdType cmds] eqn:Hs.
  { by apply split_char_nonempty in Hs. }
  destruct (search_G_0_3 cmdType); simpl; [|by eauto].
  pose proof (getPtfromCmd_loop_linear cmds None None) as Hl.
  destruct (getPtfromCmd_loop true cmds None None None None)
    as [[[x y] i] j].
  destruct x, y; simpl; eauto.
  destruct Hl as [?| ->]; [done|]. destruct i; eauto.
Qed.

(** X4. [getPtfromCmd] without [prevPoint] never raises: it returns a point
    or [None], and the branch of the arcs is not reached.  With a
    [prevPoint] the only exception is the [TypeError] of l. 561, and only
    for a command whose first word holds none of [G0], [G,], [G1]. *)
Theorem getPtfromCmd_outcomes (line : string) :
  (exists o, getPtfromCmd line None = Ok o)
  /\ forall prevPoint e,
       getPtfromCmd line prevPoint = Raise e ->
       e = TypeError
       /\ prevPoint <> None
       /\ exists cmdType cmds,
            split_char " " (before_char ";" line) = cmdType :: cmds
            /\ search_G_0_3 cmdType = true
            /\ search_G_0_comma_1 cmdType = false.
Proof.
  split; [apply getPtfromCmd_None_Ok|].
  intros prevPoint e Hraise.
  destruct prevPoint as [prev|].
  2:{ destruct (getPtfromCmd_None_Ok line) as [o Ho]. congruence. }
  unfold getPtfromCmd in Hraise.
  destruct (split_char " " (before_char ";" line)) as [|cmdType cmds] eqn:Hs.
  { by apply split_char_nonempty in Hs. }
  destruct (search_G_0_3 cmdType) eqn:Hg; simpl in Hraise; [|done].
  destruct (search_G_0_comma_1 cmdType) eqn:Hlin.
  { simpl in Hraise.
    pose proof (getPtfromCmd_loop_linear cmds None None) as Hl.
    destruct (getPtfromCmd_loop true cmds None None None None)
      as [[[x y] i] j].
    destruct x, y; simpl in Hraise; try done.
    destruct Hl as [?| ->]; [done|]. by destruct i. }
  assert (e = TypeError) as ->.
  { destruct (getPtfromCmd_loop _ cmds None None None None) as [[[x y] i] j].
    destruct x, y, i, j; simpl in Hraise; congruence. }
  split; [done|]. split; [done|]. by exists cmdType, cmds.
Qed.

End CommandFacts.

(** ** Polygons from lines *)

Section PolygonFacts.
Context `{FloatOps} `{Shapely}.

Lemma makePolygonFromGCode_loop_travel slicer before move after :
  isTravelMove move = true ->
  forall wiping pts,
    makePolygonFromGCode_loop slicer (before ++ move :: after) wiping pts
    = makePolygonFromGCode_loop slicer before wiping pts.
Proof.
  intros Hmove. induction before as [|line before IH]; intros wiping pts; simpl.
  - by rewrite Hmove.
  - destruct (isTravelMove line); [done|].
    destruct (if str_in _ line then _ else _) as [[] wiping']; [apply IH|].
    destruct (str_in "G1 X" line); [|apply IH].
    destruct (getPtfromCmd line None) as [[p|]|]; simpl; [apply IH|apply IH|done].
Qed.

(** X5. [makePolygonFromGCode] reads no line from the first travel move on:
    the lines after a travel move, and that move, change nothing of what it
    returns. *)
Theorem makePolygonFromGCode_stops_at_travel (slicer : Slicer)
    (before after : list string) (move : string) :
  isTravelMove move = true ->
  makePolygonFromGCode slicer (before ++ move :: after)
  = makePolygonFromGCode slicer before.
Proof.
  intros Hmove. unfold makePolygonFromGCode.
  by rewrite makePolygonFromGCode_loop_travel.
Qed.

End PolygonFacts.

(** ** The points of a feature *)

Section SpotFacts.
Context `{FloatOps} `{Shapely}.

Lemma spot_inv_append splitAtWipe st :
  spot_inv splitAtWipe (sp_parts st) (sp_partLocations st) ->
  (splitAtWipe = false -> (2 <= length (sp_pts st))%nat) ->
  spot_inv splitAtWipe (sp_parts (sp_append_part st))
           (sp_partLocations (sp_append_part st)).
Proof.
  intros [Hlen Hall] Hpts. split; simpl.
  - rewrite !length_app. simpl. lia.
  - intros Hw. apply Forall_app. split; [auto|]. constructor; auto.
Qed.

Lemma spot_inv_guarded splitAtWipe st :
  spot_inv splitAtWipe (sp_parts st) (sp_partLocations st) ->
  let st' := if (2 <=? length (sp_pts st))%nat then sp_append_part st else st in
  spot_inv splitAtWipe (sp_parts st') (sp_partLocations st').
Proof.
  intros Hinv. cbv zeta. destruct (2 <=? length (sp_pts st))%nat eqn:Hle; [|done].
  apply spot_inv_append; [done|]. intros _. by apply Nat.leb_le.
Qed.

Lemma spotFeaturePoints_line_inv slicer splitAtWipe splitAtTravel start idl
    line st :
  spot_inv splitAtWipe (sp_parts st) (sp_partLocations st) ->
  exists st',
    AsWritten.spotFeaturePoints_line slicer splitAtWipe splitAtTravel start idl
      line st = Ok st'
    /\ spot_inv splitAtWipe (sp_parts st') (sp_partLocations st').
Proof.
  intros Hinv. unfold AsWritten.spotFeaturePoints_line.
  destruct (getPtfromCmd_None_Ok line) as [o Ho]. rewrite Ho.
  set (first_part := if negb (sp_isWipeMove st) && search_G_digit line
                     then _ else _).
  assert (exists st1, first_part = Ok st1
            /\ spot_inv splitAtWipe (sp_parts st1) (sp_partLocations st1))
    as (st1 & -> & Hinv1).
  { subst first_part.
    destruct (negb (sp_isWipeMove st) && search_G_digit line); [|by eauto].
    destruct (sp_isTravelling st).
    { destruct (isTravelMove line || negb (str_in "X" line)); simpl.
      - destruct o; eauto.
      - eexists. split; [reflexivity|].
        unfold sp_take_travelPoint. simpl.
        destruct (last (sp_travelPoints st)); by destruct o. }
    destruct (splitAtTravel && isTravelMove line); simpl.
    { eexists. split; [reflexivity|].
      pose proof (spot_inv_guarded _ _ Hinv) as Hg. simpl in Hg.
      destruct (2 <=? length (sp_pts st))%nat;
        destruct (0 <? length _)%nat; by destruct o. }
    destruct (str_in "E" line); [|by eauto].
    destruct (str_in "G1" line); simpl; destruct o; eauto. }
  simpl. eexists. split; [reflexivity|].
  destruct (str_in (getSlicerSpecificName slicer ";WIPE_START") line).
  - destruct splitAtWipe.
    + destruct (str_in (getSlicerSpecificName slicer ";WIPE_END") line); simpl;
        (split; [rewrite !length_app; simpl; destruct Hinv1; lia|done]).
    + by destruct (str_in (getSlicerSpecificName slicer ";WIPE_END") line).
  - by destruct (str_in (getSlicerSpecificName slicer ";WIPE_END") line).
Qed.

Lemma spotFeaturePoints_lines_inv slicer splitAtWipe splitAtTravel start lns :
  forall idl st,
    spot_inv splitAtWipe (sp_parts st) (sp_partLocations st) ->
    exists st',
      AsWritten.spotFeaturePoints_lines slicer splitAtWipe splitAtTravel start
        lns idl st = Ok st'
      /\ spot_inv splitAtWipe (sp_parts st') (sp_partLocations st').
Proof.
  induction lns as [|line lns IH]; intros idl st Hinv; simpl; [by eauto|].
  destruct (spotFeaturePoints_line_inv slicer splitAtWipe splitAtTravel start
              idl line st Hinv) as (st1 & -> & Hinv1).
  simpl. by apply IH.
Qed.

Lemma getRealFeatureStartPoint_Ok (self : Layer) idf :
  (idf <= length (features self))%nat ->
  exists o, getRealFeatureStartPoint self idf = Ok o.
Proof.
  intros Hidf. unfold getRealFeatureStartPoint.
  destruct (idf <? 1)%nat eqn:Hlt; [by eauto|]. apply Nat.ltb_ge in Hlt.
  destruct (features self !! (idf - 1)%nat) as [[[ftype lns] start]|] eqn:Hf.
  - destruct (List.find _ (rev lns)); [apply getPtfromCmd_None_Ok|by eauto].
  - apply lookup_ge_None in Hf. pose proof (Nat.le_trans _ _ _ Hidf Hf). exfalso. lia.
Qed.

Lemma spotFeaturePoints_features_inv slicer (self : Layer) featureName
    splitAtWipe includeRealStartPt splitAtTravel fes :
  forall idf parts partLocations,
    (idf + length fes = length (features self))%nat ->
    spot_inv splitAtWipe parts partLocations ->
    exists parts' partLocations',
      AsWritten.spotFeaturePoints_features slicer self featureName splitAtWipe
        includeRealStartPt splitAtTravel fes idf parts partLocations
      = Ok (parts', partLocations')
      /\ spot_inv splitAtWipe parts' partLocations'.
Proof.
  induction fes as [|[[ftype lns] start] fes IH];
    intros idf parts locs Hidf Hinv; simpl; [by eauto|].
  simpl in Hidf.
  destruct (negb (str_in featureName ftype)); [apply IH; [lia|done]|].
  assert (exists pts,
            (if includeRealStartPt && (0 <? idf)%nat
             then let* sp := getRealFeatureStartPoint self idf in
                  Ok (match sp with Some sp => [sp] | None => [] end)
             else Ok []) = Ok pts) as [pts ->].
  { destruct (includeRealStartPt && (0 <? idf)%nat); [|by eauto].
    destruct (getRealFeatureStartPoint_Ok self idf ltac:(lia)) as [o ->].
    simpl. eauto. }
  simpl.
  edestruct (spotFeaturePoints_lines_inv slicer splitAtWipe splitAtTravel start
               lns 0) as (st' & -> & Hinv'); [exact Hinv|].
  simpl. apply IH; [lia|]. by apply spot_inv_guarded.
Qed.

(** X6. [spotFeaturePoints] always returns: none of the lines of a layer
    makes it raise.  It returns as many locations as parts, and called
    without [splitAtWipe], as the script calls it, every part has at least
    two points, so that a [LineString] can be made of it. *)
Theorem spotFeaturePoints_parts (slicer : Slicer) (self : Layer)
    (featureName : string)
    (splitAtWipe includeRealStartPt splitAtTravel : bool) :
  exists parts partLocations,
    AsWritten.spotFeaturePoints slicer self featureName splitAtWipe
      includeRealStartPt splitAtTravel = Ok (parts, partLocations)
    /\ length parts = length partLocations
    /\ (splitAtWipe = false ->
        Forall (fun part => (2 <= length part)%nat) parts).
Proof.
  unfold AsWritten.spotFeaturePoints.
  destruct (spotFeaturePoints_features_inv slicer self featureName splitAtWipe
              includeRealStartPt splitAtTravel (features self) 0 [] [])
    as (parts & locs & Heq & Hlen & Hall); [done|by split|].
  by exists parts, locs.
Qed.

Lemma spotFeaturePoints_features_skip slicer (self : Layer) featureName
    splitAtWipe includeRealStartPt splitAtTravel fes :
  Forall (fun f : Feature => str_in featureName (fst (fst f)) = false) fes ->
  forall idf parts partLocations,
    AsWritten.spotFeaturePoints_features slicer self featureName splitAtWipe
      includeRealStartPt splitAtTravel fes idf parts partLocations
    = Ok (parts, partLocations).
Proof.
  induction 1 as [|[[ftype lns] start] fes Hf _ IH]; intros idf parts locs;
    simpl; [done|].
  simpl in Hf. rewrite Hf. simpl. apply IH.
Qed.

Lemma makeExternalPerimeter2Polys_loop_none slicer (self : Layer) n fes :
  Forall (fun f : Feature =>
            str_in (getSlicerSpecificName slicer ";TYPE:External perimeter")
                   (fst (fst f)) = false) fes ->
  forall idf linesWithStart,
    AsWritten.makeExternalPerimeter2Polys_loop slicer false self n fes idf
      false linesWithStart = Ok [].
Proof.
  induction 1 as [|[[ftype lns] start] fes Hf _ IH]; intros idf lws;
    simpl; [done|].
  simpl in Hf. rewrite Hf. rewrite !andb_false_r. simpl. apply IH.
Qed.

(** X7. Without a feature of the type of the external perimeters a layer
    gives [makeExternalPerimeter2Polys] no polygon, whatever overhang
    perimeters it has, unless the parameters hold a true
    [notPerformPerimeterCheck]. *)
Theorem makeExternalPerimeter2Polys_needs_external (slicer : Slicer)
    (kwargs : Parameters) (self : Layer) :
  truthy (dict_get_default (slicerSettings kwargs) "notPerformPerimeterCheck"
                           (PBool false)) = false ->
  Forall (fun f : Feature =>
            str_in (getSlicerSpecificName slicer ";TYPE:External perimeter")
                   (fst (fst f)) = false) (features self) ->
  AsWritten.makeExternalPerimeter2Polys slicer kwargs self = Ok [].
Proof.
  intros Hflag Hnone. unfold AsWritten.makeExternalPerimeter2Polys.
  rewrite Hflag. by apply makeExternalPerimeter2Polys_loop_none.
Qed.

End SpotFacts.
(** ** Comparisons *)

Lemma Qlt_bool_true x y : Qlt_bool x y = true <-> (x < y)%Q.
Proof.
  unfold Qlt_bool. rewrite negb_true_iff. split.
  - intros Hle. apply Qnot_le_lt. intros Hyx.
    apply Qle_bool_iff in Hyx. congruence.
  - intros Hlt. destruct (Qle_bool y x) eqn:Hle; [|done].
    apply Qle_bool_iff in Hle. by apply Qle_not_lt in Hle.
Qed.

Lemma Qlt_bool_false x y : Qlt_bool x y = false <-> (y <= x)%Q.
Proof.
  unfold Qlt_bool. rewrite negb_false_iff. apply Qle_bool_iff.
Qed.

(** ** Hilbert curves *)

Section HilbertFacts.
Context `{FloatOps}.
Local Open Scope Q_scope.

Lemma hilbert2GCode_points_later curvepts : forall idc idp lastP eSteps parameters,
  exists cmds lastP',
    hilbert2GCode_points curvepts idc (S idp) (Some lastP) eSteps parameters
    = Ok (cmds, lastP')
    /\ length cmds = length curvepts
    /\ List.filter is_G1_E cmds = [].
Proof.
  induction curvepts as [|p curvepts IH]; intros idc idp lastP eSteps parameters.
  - simpl. by eauto.
  - cbn [hilbert2GCode_points]. change (S idp =? 0)%nat with false. cbv iota.
    destruct (IH idc (S idp) p eSteps parameters)
      as (more & lastP' & Hmore & Hlen & Hnone).
    destruct (S idp =? 1)%nat; simpl; rewrite Hmore; simpl;
      (eexists _, _; split; [reflexivity|]; simpl; by rewrite Hlen).
Qed.

Lemma hilbert2GCode_points_first curvepts idc lastP eSteps parameters unretract :
  retractGCode false (slicerSettings parameters) = Ok unretract ->
  exists cmds lastP',
    hilbert2GCode_points curvepts idc 0 lastP eSteps parameters
    = Ok (cmds, lastP')
    /\ length cmds
       = (length curvepts
          + match curvepts, idc with _ :: _, O => 1 | _, _ => 0 end)%nat
    /\ List.filter is_G1_E cmds
       = match curvepts, idc with _ :: _, O => [unretract] | _, _ => [] end.
Proof.
  intros Hun. destruct curvepts as [|p curvepts]; [simpl; by eauto|].
  cbn [hilbert2GCode_points]. cbn [Nat.eqb].
  destruct (hilbert2GCode_points_later curvepts idc 0 p eSteps parameters)
    as (more & lastP' & Hmore & Hlen & Hnone).
  assert (is_G1_E unretract = true) as Hisun.
  { unfold retractGCode, rbind in Hun.
    destruct (py_times60 _); [|discriminate]. by injection Hun as <-. }
  destruct idc as [|idc]; cbn [Nat.eqb].
  - rewrite Hun. simpl. rewrite Hmore. simpl.
    eexists _, _. split; [reflexivity|]. simpl.
    rewrite Hisun, Hnone, Hlen. split; [lia|done].
  - simpl. rewrite Hmore. simpl.
    eexists _, _. split; [reflexivity|]. simpl.
    rewrite Hnone, Hlen. split; [lia|done].
Qed.

Lemma hilbert2GCode_curves_later allhilbertpts : forall idc lastP eSteps
    parameters unretract,
  retractGCode false (slicerSettings parameters) = Ok unretract ->
  exists cmds,
    hilbert2GCode_curves allhilbertpts (S idc) lastP eSteps parameters = Ok cmds
    /\ length cmds = length (concat allhilbertpts)
    /\ List.filter is_G1_E cmds = [].
Proof.
  induction allhilbertpts as [|curvepts more IH];
    intros idc lastP eSteps parameters unretract Hun; simpl; [by eauto|].
  destruct (hilbert2GCode_points_first curvepts (S idc) lastP eSteps parameters
              unretract Hun) as (here & lastP' & -> & Hlen & Hnone).
  simpl.
  destruct (IH (S idc) lastP' eSteps parameters unretract Hun)
    as (rest & -> & Hlen' & Hnone').
  simpl. eexists. split; [reflexivity|].
  rewrite length_app, List.filter_app, Hlen, Hlen', Hnone', length_app.
  split; [destruct curvepts; lia|].
  destruct curvepts; by rewrite Hnone.
Qed.

(** X8. With settings on which the extrusion per millimetre and the two
    retraction lines can be computed, [hilbert2GCode] returns: one move for
    each point of each curve, the line that undoes the retraction after the
    first point of the first curve when that curve has a point, and the
    retraction as the last line.  No other line retracts or undoes it:
    between two curves the nozzle travels without retracting. *)
Theorem hilbert2GCode_lines (allhilbertpts : list (list Point))
    (parameters : Parameters) (layerheight eSteps : Q)
    (retract unretract : gcmd) :
  calcESteps parameters (Some layerheight) = Ok eSteps ->
  retractGCode true (slicerSettings parameters) = Ok retract ->
  retractGCode false (slicerSettings parameters) = Ok unretract ->
  exists moves,
    hilbert2GCode allhilbertpts parameters layerheight = Ok (moves ++ [retract])
    /\ length moves
       = (length (concat allhilbertpts)
          + match allhilbertpts with (_ :: _) :: _ => 1 | _ => 0 end)%nat
    /\ List.filter is_G1_E moves
       = match allhilbertpts with (_ :: _) :: _ => [unretract] | _ => [] end.
Proof.
  intros He Hrt Hun. unfold hilbert2GCode. rewrite He. simpl.
  destruct allhilbertpts as [|curvepts more].
  { simpl. rewrite Hrt. simpl. by exists []. }
  simpl.
  destruct (hilbert2GCode_points_first curvepts 0 None eSteps parameters
              unretract Hun) as (here & lastP' & -> & Hlen & Hnone).
  simpl.
  destruct (hilbert2GCode_curves_later more 0 lastP' eSteps parameters
              unretract Hun) as (rest & -> & Hlen' & Hnone').
  simpl. rewrite Hrt. simpl.
  eexists. split; [reflexivity|].
  rewrite length_app, List.filter_app, Hlen, Hlen', Hnone, Hnone', length_app.
  split; [destruct curvepts; simpl; lia|].
  destruct curvepts; by rewrite ?app_nil_r.
Qed.

(** ** Extrusion per millimetre *)

(** X9. For the arcs ([calcESteps] without a layer height) and a slicer
    that does not use volumetric E, the extrusion per millimetre is
    [ArcExtrusionMultiplier] times the square of the ratio of nozzle and
    filament diameter: the value of pi does not enter it. *)
Theorem calcESteps_bridging (settingsdict : Parameters) (nozzle filament : Q) :
  ~ fpi == 0 ->
  ~ filament == 0 ->
  py_num (dict_get (slicerSettings settingsdict) "nozzle_diameter") = Ok nozzle ->
  py_num (dict_get (slicerSettings settingsdict) "filament_diameter")
    = Ok filament ->
  truthy (dict_get (slicerSettings settingsdict) "use_volumetric_e") = false ->
  exists eSteps,
    calcESteps settingsdict None = Ok eSteps
    /\ eSteps == ArcExtrusionMultiplier (manual settingsdict)
                 * (nozzle * nozzle) / (filament * filament).
Proof.
  intros Hpi Hf Hn Hfil Hvol. unfold calcESteps. rewrite Hn. simpl.
  rewrite Hvol, Hfil. simpl. unfold py_div.
  destruct (Qeq_bool (filament / 2 * (filament / 2) * fpi) 0) eqn:Hz.
  { apply Qeq_bool_iff in Hz. exfalso.
    assert (filament * filament * fpi == 0) as Hz'.
    { assert (filament * filament * fpi
              == 4 * (filament / 2 * (filament / 2) * fpi)) as -> by field.
      rewrite Hz. ring. }
    apply Qmult_integral in Hz' as [Hz'|Hz']; [|done].
    by apply Qmult_integral in Hz' as [Hz'|Hz']. }
  eexists. split; [reflexivity|]. field. by split.
Qed.

End HilbertFacts.

(** ** Circles *)

Section CircleFacts.
Context `{FloatOps} `{Shapely}.
Local Open Scope Q_scope.


(** X10. A circle without points: when [ArcPointsPerMillimeter] is 0,
    [create_circle] asks for 0 points and divides by that number, so every
    call of [generateMultipleConcentricArcs] that has a radius to try
    raises [ZeroDivisionError]. *)
Theorem no_points_per_millimeter (startpt : Point) (rMin rMax : Q)
    (basePoly remainingSpace : geom) (kwargs : ManualSettings) :
  ArcPointsPerMillimeter kwargs == 0 ->
  0 < ArcWidth kwargs ->
  rMin < rMax + ArcWidth kwargs ->
  generateMultipleConcentricArcs startpt rMin rMax basePoly remainingSpace
    kwargs = Raise ZeroDivisionError.
Proof.
  intros Hppm Hw Hr. unfold generateMultipleConcentricArcs, np_arange.
  destruct (Qeq_bool (ArcWidth kwargs) 0) eqn:Hz.
  { apply Qeq_bool_iff in Hz. rewrite Hz in Hw. by apply Qlt_irrefl in Hw. }
  assert (0 < Qceiling ((rMax + ArcWidth kwargs - rMin) / ArcWidth kwargs))%Z
    as Hcount.
  { assert (0 < (rMax + ArcWidth kwargs - rMin) / ArcWidth kwargs) as Hpos.
    { apply Qlt_shift_div_l; [done|]. lra. }
    pose proof (Qle_ceiling ((rMax + ArcWidth kwargs - rMin) / ArcWidth kwargs))
      as Hle.
    assert (0 < inject_Z
                  (Qceiling ((rMax + ArcWidth kwargs - rMin) / ArcWidth kwargs)))
      as Hlt by (eapply Qlt_le_trans; eassumption).
    by rewrite (Zlt_Qlt 0). }
  destruct (Z.to_nat _) as [|k] eqn:Hk; [lia|].
  simpl. unfold generateConcentricArc, create_circle.
  destruct startpt as [x y]. unfold ceil.
  assert (2 * fpi * (rMin + inject_Z (Z.of_nat 0) * ArcWidth kwargs)
          * ArcPointsPerMillimeter kwargs == 0) as Hzero.
  { rewrite Hppm. ring. }
  rewrite (Qceiling_comp _ _ Hzero). reflexivity.
Qed.

Hypothesis sin2_cos2 : forall t, fsin t * fsin t + fcos t * fcos t == 1.



End CircleFacts.

(** ** Frontier expansion *)

Section FillFacts.
Context `{FloatOps} `{Shapely}.
Local Open Scope Q_scope.

(** X13. When the boundary of the space filled so far is empty,
    [get_farthest_points] returns [(None, None)], and the first pass of the
    loop of [fill_remaining_space] reads [.size] of that [None]: the call
    ends in an [AttributeError] instead of returning no arcs. *)
Theorem fill_remaining_space_empty_boundary (last_arc0 : Arc)
    (r_min r_max min_distance_from_perimeter : Q) (filled_space0 poly : geom)
    (parameters : ManualSettings) :
  is_empty (boundary filled_space0) = true ->
  (0 < SafetyBreak_MaxArcNumber parameters)%nat ->
  fill_remaining_space last_arc0 r_min r_max min_distance_from_perimeter
    filled_space0 poly parameters = Raise AttributeError.
Proof.
  intros Hempty Hn. unfold fill_remaining_space.
  destruct (SafetyBreak_MaxArcNumber parameters) as [|n]; [lia|].
  simpl. unfold fill_remaining_space_body, get_farthest_points. simpl.
  by rewrite Hempty.
Qed.

Lemma generateMultipleConcentricArcs_loop_arcs r_values :
  forall startpt basePoly remainingSpace kwargs arcs,
    generateMultipleConcentricArcs_loop r_values startpt basePoly
      remainingSpace kwargs = Ok arcs ->
    Forall (fun a => center a = startpt /\ is_empty (arcline a) = false) arcs
    /\ (UseLeastAmountOfCenterPoints kwargs = false ->
        forall k a, arcs !! k = Some a -> (S k < length arcs)%nat ->
                    intersects basePoly (arcline a) = false).
Proof.
  induction r_values as [|r0 rs IH];
    intros startpt basePoly remainingSpace kwargs arcs; simpl.
  { intros [= <-]. split; [constructor|]. intros _ k a Hk. done. }
  unfold rbind at 1.
  destruct (generateConcentricArc startpt r0 _ startpt remainingSpace)
    as [arcObj|] eqn:Harc; [|discriminate].
  assert (center arcObj = startpt) as Hcenter.
  { unfold generateConcentricArc, rbind in Harc.
    destruct (create_circle _ _ _); [|discriminate]. by injection Harc as <-. }
  destruct (is_empty (arcline arcObj)) eqn:Hempty.
  { intros [= <-]. split; [constructor|]. intros _ k a Hk. done. }
  destruct (intersects basePoly (arcline arcObj)) eqn:Hint; simpl.
  - destruct (UseLeastAmountOfCenterPoints kwargs) eqn:Hleast; simpl.
    + unfold rbind.
      destruct (generateMultipleConcentricArcs_loop rs _ _ _ _) as [more|] eqn:Hm;
        [|discriminate].
      intros [= <-]. destruct (IH _ _ _ _ _ Hm) as [Hall _].
      split; [by constructor|]. intros Hfalse. congruence.
    + intros [= <-]. split; [by repeat constructor|].
      intros _ k a Hk Hlt. simpl in Hlt. lia.
  - unfold rbind.
    destruct (generateMultipleConcentricArcs_loop rs _ _ _ _) as [more|] eqn:Hm;
      [|discriminate].
    intros [= <-]. destruct (IH _ _ _ _ _ Hm) as [Hall Hlast].
    split; [by constructor|].
    intros Hleast [|k] a Hk Hlt; simpl in *.
    + by injection Hk as <-.
    + apply (Hlast Hleast k a Hk). lia.
Qed.

(** X14. The arcs of one bundle: each has the start point as its centre and
    a line that is not empty, and, unless [UseLeastAmountOfCenterPoints] is
    set, only the last of them can touch the boundary handed over: the
    bundle ends with the first arc that does. *)
Theorem generateMultipleConcentricArcs_arcs (startpt : Point) (rMin rMax : Q)
    (basePoly remainingSpace : geom) (kwargs : ManualSettings)
    (arcs : list Arc) :
  generateMultipleConcentricArcs startpt rMin rMax basePoly remainingSpace
    kwargs = Ok arcs ->
  Forall (fun a => center a = startpt /\ is_empty (arcline a) = false) arcs
  /\ (UseLeastAmountOfCenterPoints kwargs = false ->
      forall k a, arcs !! k = Some a -> (S k < length arcs)%nat ->
                  intersects basePoly (arcline a) = false).
Proof.
  unfold generateMultipleConcentricArcs, rbind.
  destruct (np_arange _ _ _); [|discriminate].
  apply generateMultipleConcentricArcs_loop_arcs.
Qed.

End FillFacts.
(** ** The settings the script needs *)

(** X15. [checkforNecesarrySettings] returns [True] exactly when relative E
    distances are on, the three extrusion widths are numbers of at least
    0.001, overhang detection is on and [bridge_speed] is a number; the
    settings it only warns about do not count. *)
Theorem checkforNecesarrySettings_accepts (gCodeSettingDict : gmap string pyval) :
  checkforNecesarrySettings gCodeSettingDict = Ok true
  <-> truthy (dict_get gCodeSettingDict "use_relative_e_distances") = true
      /\ (exists ew pw sw bs,
            py_num (dict_get gCodeSettingDict "extrusion_width") = Ok ew
            /\ py_num (dict_get gCodeSettingDict "perimeter_extrusion_width")
               = Ok pw
            /\ py_num (dict_get gCodeSettingDict "solid_infill_extrusion_width")
               = Ok sw
            /\ py_num (dict_get gCodeSettingDict "bridge_speed") = Ok bs
            /\ (1 # 1000 <= ew)%Q /\ (1 # 1000 <= pw)%Q /\ (1 # 1000 <= sw)%Q)
      /\ truthy (dict_get gCodeSettingDict "overhangs") = true.
Proof.
  unfold checkforNecesarrySettings. split.
  - destruct (truthy (dict_get _ "use_relative_e_distances")); [|done].
    simpl. destruct (py_num (dict_get _ "extrusion_width")) as [ew|]; [|done].
    simpl. destruct (Qlt_bool ew _) eqn:Hew; [done|].
    destruct (py_num (dict_get _ "perimeter_extrusion_width")) as [pw|]; [|done].
    simpl. destruct (Qlt_bool pw _) eqn:Hpw; [done|].
    destruct (py_num (dict_get _ "solid_infill_extrusion_width")) as [sw|];
      [|done].
    simpl. destruct (Qlt_bool sw _) eqn:Hsw; [done|].
    destruct (truthy (dict_get _ "overhangs")); [|done]. simpl.
    destruct (py_num (dict_get _ "bridge_speed")) as [bs|]; [|done].
    intros _. apply Qlt_bool_false in Hew, Hpw, Hsw.
    split; [done|]. split; [|done]. by exists ew, pw, sw, bs.
  - intros (-> & (ew & pw & sw & bs & -> & -> & -> & -> & Hew & Hpw & Hsw) & ->).
    apply Qlt_bool_false in Hew, Hpw, Hsw. simpl. rewrite Hew. simpl.
    rewrite Hpw. simpl. by rewrite Hsw.
Qed.

Section RefusedSettings.
Context `{FloatOps} `{Shapely} `{Random} `{!LayerCode}.

(** X16. With relative E distances on and the nozzle diameter and the three
    extrusion widths numbers: when one of the widths is below 0.001, or
    overhang detection is off, [checkforNecesarrySettings] returns [False]
    and [main] ends in the [ValueError] of l. 243 before it looks at a
    layer, leaving every file as it was. *)
Theorem unusable_settings_refused (cls : BridgeInfill.class)
    (gCodeLines : list string) (path2GCode : string) (fs : FileSystem)
    (g : rng) (slicer : Slicer) (gCodeSettingDict : gmap string pyval)
    (nozzle ew pw sw : Q) :
  readSettingsFromGCode2dict gCodeLines fallbackValuesDict
    = Ok (slicer, gCodeSettingDict) ->
  truthy (dict_get gCodeSettingDict "use_relative_e_distances") = true ->
  py_num (dict_get gCodeSettingDict "nozzle_diameter") = Ok nozzle ->
  py_num (dict_get gCodeSettingDict "extrusion_width") = Ok ew ->
  py_num (dict_get gCodeSettingDict "perimeter_extrusion_width") = Ok pw ->
  py_num (dict_get gCodeSettingDict "solid_infill_extrusion_width") = Ok sw ->
  (ew < 1 # 1000)%Q \/ (pw < 1 # 1000)%Q \/ (sw < 1 # 1000)%Q
  \/ truthy (dict_get gCodeSettingDict "overhangs") = false ->
  checkforNecesarrySettings gCodeSettingDict = Ok false
  /\ main cls gCodeLines path2GCode fs g = (fs, Raise ValueError).
Proof.
  intros Hread Hrel Hnz Hew Hpw Hsw Hbad.
  assert (checkforNecesarrySettings gCodeSettingDict = Ok false) as Hcheck.
  { unfold checkforNecesarrySettings. rewrite Hrel, Hew. simpl.
    destruct (Qlt_bool ew _) eqn:Hew'; [done|]. rewrite Hpw. simpl.
    destruct (Qlt_bool pw _) eqn:Hpw'; [done|]. rewrite Hsw. simpl.
    destruct (Qlt_bool sw _) eqn:Hsw'; [done|].
    apply Qlt_bool_false in Hew', Hpw', Hsw'.
    destruct Hbad as [Hlt|[Hlt|[Hlt|Hov]]];
      [by apply Qle_not_lt in Hew'|by apply Qle_not_lt in Hpw'
      |by apply Qle_not_lt in Hsw'|].
    by rewrite Hov. }
  split; [done|].
  unfold main, main_process, mbind, lift. rewrite Hread.
  unfold makeFullSettingDict. rewrite Hnz, Hew. simpl. by rewrite Hcheck.
Qed.

End RefusedSettings.

(** ** Special cooling, in general *)

Section FollowUp.
Context `{Shapely}.
Local Open Scope Q_scope.

(** X17. Which layers [annotateFollowUpLayers] gives the polygons of an
    overhang layer: a run of the layers next above it.  A layer is in the
    run when the overhang layer and every layer between the two have a Z
    below [maxZ]: its own Z is not looked at, and the run ends behind the
    first layer whose Z is not below [maxZ], or with the last layer. *)
Theorem annotateFollowUpLayers_run (maxZ : Q) (validpolys : list geom)
    (later : list Layer) :
  forall (currZ : pyval) (annotated : list Layer),
    annotateFollowUpLayers maxZ currZ later validpolys = Ok annotated ->
    exists k,
      (k <= length later)%nat
      /\ annotated
         = map (extend_oldpolys validpolys) (take k later) ++ drop k later
      /\ (forall j, (j < k)%nat ->
            exists zj, py_num (nth j (currZ :: map z later) PNone) = Ok zj
                       /\ zj < maxZ)
      /\ ((k < length later)%nat ->
          exists zk, py_num (nth k (currZ :: map z later) PNone) = Ok zk
                     /\ maxZ <= zk).
Proof.
  induction later as [|next later IH]; intros currZ annotated; simpl.
  - unfold rbind. destruct (py_num currZ) as [cz|]; [|discriminate].
    destruct (Qlt_bool cz maxZ); intros [= <-]; exists 0%nat; simpl;
      (split; [lia|]; split; [done|]; split; intros; lia).
  - unfold rbind at 1. destruct (py_num currZ) as [cz|] eqn:Hcz; [|discriminate].
    destruct (Qlt_bool cz maxZ) eqn:Hlt.
    + unfold rbind.
      destruct (annotateFollowUpLayers maxZ (z next) later validpolys)
        as [rest|] eqn:Hrest; [|discriminate].
      intros [= <-]. destruct (IH _ _ Hrest) as (k & Hk & -> & Hbelow & Hstop).
      exists (S k). simpl. split; [lia|]. split; [done|]. split.
      * intros [|j] Hj; simpl.
        -- exists cz. split; [done|]. by apply Qlt_bool_true.
        -- apply Hbelow. lia.
      * intros Hlt'. apply Hstop. lia.
    + intros [= <-]. exists 0%nat. simpl. split; [lia|]. split; [done|].
      split; [intros; lia|]. intros _. exists cz. split; [done|].
      by apply Qlt_bool_false.
Qed.

End FollowUp.

(** ** Valid polygons *)

Section ValidPolygons.
Context `{FloatOps} `{Shapely} `{Random} `{!LayerCode}.
Local Open Scope Q_scope.

Lemma verifyinfillpolys_loop_added slicer kwargs overhangs maxd todo :
  forall idp self prevLayer self' prevLayer',
    verifyinfillpolys_loop slicer kwargs overhangs maxd todo idp self prevLayer
    = Ok (self', prevLayer') ->
    exists added : list (nat * geom),
      validpolys self' = validpolys self ++ map snd added
      /\ deleteTheseInfills self' = deleteTheseInfills self ++ map fst added
      /\ polys self' = polys self
      /\ Forall (fun ip : nat * geom =>
                   (idp <= fst ip)%nat
                   /\ todo !! (fst ip - idp)%nat = Some (snd ip)
                   /\ is_valid (snd ip) = true
                   /\ MinArea kwargs <= area (snd ip)) added.
Proof.
  induction todo as [|poly todo IH]; intros idp self prev self' prev'; simpl.
  { intros [= <- <-]. exists []. simpl. by rewrite !app_nil_r. }
  assert (forall self1 prev1,
            verifyinfillpolys_loop slicer kwargs overhangs maxd todo (S idp)
              self1 prev1 = Ok (self', prev') ->
            validpolys self1 = validpolys self ->
            deleteTheseInfills self1 = deleteTheseInfills self ->
            polys self1 = polys self ->
            exists added : list (nat * geom),
              validpolys self' = validpolys self ++ map snd added
              /\ deleteTheseInfills self' = deleteTheseInfills self ++ map fst added
              /\ polys self' = polys self
              /\ Forall (fun ip : nat * geom =>
                           (idp <= fst ip)%nat
                           /\ (poly :: todo) !! (fst ip - idp)%nat = Some (snd ip)
                           /\ is_valid (snd ip) = true
                           /\ MinArea kwargs <= area (snd ip)) added) as Hskip.
  { intros self1 prev1 Hrun Hv Hd Hp.
    destruct (IH _ _ _ _ _ Hrun) as (added & Hv' & Hd' & Hp' & Hall).
    exists added. rewrite Hv', Hd', Hp', Hv, Hd, Hp.
    split; [done|]. split; [done|]. split; [done|].
    eapply Forall_impl; [exact Hall|]. intros ip (Hle & Hl & Hval & Harea).
    split; [lia|]. split; [|done].
    replace (fst ip - idp)%nat with (S (fst ip - S idp)) by lia. done. }
  destruct (is_valid poly) eqn:Hvalid; simpl; [|by eauto].
  destruct (negb (contains _ poly) && CheckForAllowedSpace kwargs);
    [by eauto|].
  destruct (Qlt_bool (area poly) (MinArea kwargs)) eqn:Harea; [by eauto|].
  apply Qlt_bool_false in Harea.
  unfold rbind at 1.
  destruct (makeExternalPerimeter2Polys slicer prev) as [ext|]; [|discriminate].
  destruct (existsb _ overhangs || _).
  - intros Hrun.
    destruct (IH _ _ _ _ _ Hrun) as (added & Hv' & Hd' & Hp' & Hall).
    exists ((idp, poly) :: added). simpl in *.
    rewrite Hv', Hd', Hp', <- !app_assoc. simpl.
    split; [done|]. split; [done|]. split; [done|]. constructor.
    + simpl. rewrite Nat.sub_diag. by repeat split.
    + eapply Forall_impl; [exact Hall|]. intros ip (Hle & Hl & Hval & Ha).
      split; [lia|]. split; [|done].
      replace (fst ip - idp)%nat with (S (fst ip - S idp)) by lia. done.
  - by eauto.
Qed.

(** X18. What [verifyinfillpolys] adds to a layer: [validpolys] and
    [deleteTheseInfills] grow by as many entries, side by side; each new
    polygon is the polygon of [polys] at the new index, is valid for
    shapely and has an area of at least [MinArea]; [polys] stays as it
    was. *)
Theorem verifyinfillpolys_valid (slicer : Slicer) (kwargs : ManualSettings)
    (self prevLayer : Layer) (maxDistForValidation : Q)
    (self' prevLayer' : Layer) :
  verifyinfillpolys slicer kwargs self prevLayer maxDistForValidation
  = Ok (self', prevLayer') ->
  exists added : list (nat * geom),
    validpolys self' = validpolys self ++ map snd added
    /\ deleteTheseInfills self' = deleteTheseInfills self ++ map fst added
    /\ polys self' = polys self
    /\ Forall (fun ip : nat * geom =>
                 polys self !! fst ip = Some (snd ip)
                 /\ is_valid (snd ip) = true
                 /\ MinArea kwargs <= area (snd ip)) added.
Proof.
  unfold verifyinfillpolys, rbind.
  destruct (getOverhangPerimeterLineStrings slicer self) as [overhangs|];
    [|discriminate].
  destruct ((0 <? length overhangs)%nat || ReplaceInternalBridging kwargs).
  - destruct (is_empty _); [discriminate|]. intros Hrun.
    destruct (verifyinfillpolys_loop_added _ _ _ _ _ _ _ _ _ _ Hrun)
      as (added & Hv & Hd & Hp & Hall).
    exists added. split; [done|]. split; [done|]. split; [done|].
    eapply Forall_impl; [exact Hall|]. intros ip (_ & Hl & Hval & Ha).
    by rewrite Nat.sub_0_r in Hl.
  - intros [= <- <-]. exists []. simpl. by rewrite !app_nil_r.
Qed.

End ValidPolygons.

(** ** The layer objects *)

Section LayerObjects.
Context `{FloatOps} `{Shapely}.
Local Open Scope Q_scope.

Lemma spotFanSetting_lines_none lns :
  Forall (fun l => str_in "M106" (before_char ";" l) = false) lns ->
  spotFanSetting_lines lns = None.
Proof.
  induction 1 as [|l lns Hl _ IH]; simpl; [done|]. by rewrite Hl.
Qed.

Lemma make_layerobjs_fields layers parameters :
  forall idl lastfansetting objs,
    make_layerobjs layers parameters idl lastfansetting = Ok objs ->
    forall i layer,
      objs !! i = Some layer ->
      layernumber layer = (idl + i)%nat
      /\ is_Some (height layer)
      /\ exists fan,
           fansetting layer = Some fan
           /\ (spotFanSetting_lines (lines layer) = None ->
               Some fan = match i with
                          | O => Some lastfansetting
                          | S j => objs !! j ≫= fansetting
                          end).
Proof.
  induction layers as [|layerlines layers IH]; intros idl lastfan objs; simpl.
  { intros [= <-] i layer Hi. done. }
  unfold rbind at 1. unfold addZ.
  set (l0 := Layer_init layerlines parameters idl).
  assert (forall l1 : Layer,
            layernumber l1 = idl -> lines l1 = layerlines ->
            (let* layer := addHeight parameters l1 in
             let* (layer, lastfansetting) := spotFanSetting lastfan layer in
             let* rest := make_layerobjs layers parameters (S idl)
                                         lastfansetting in
             Ok (layer :: rest)) = Ok objs ->
            forall i layer,
              objs !! i = Some layer ->
              layernumber layer = (idl + i)%nat
              /\ is_Some (height layer)
              /\ exists fan,
                   fansetting layer = Some fan
                   /\ (spotFanSetting_lines (lines layer) = None ->
                       Some fan = match i with
                                  | O => Some lastfan
                                  | S j => objs !! j ≫= fansetting
                                  end)) as Hrest.
  { intros l1 Hnum Hlines. unfold rbind at 1.
    destruct (addHeight parameters l1) as [l2|] eqn:Hh; [|discriminate].
    assert (layernumber l2 = idl /\ lines l2 = layerlines
            /\ is_Some (height l2)) as (Hnum2 & Hlines2 & Hheight2).
    { unfold addHeight, rbind in Hh.
      destruct (addHeight_lines (lines l1)) as [[h|]|]; [|discriminate|];
        injection Hh as <-; simpl; eauto. }
    unfold rbind at 1.
    destruct (spotFanSetting lastfan l2) as [[l3 fan]|] eqn:Hf; [|discriminate].
    assert (layernumber l3 = idl /\ lines l3 = layerlines
            /\ is_Some (height l3) /\ fansetting l3 = Some fan
            /\ (spotFanSetting_lines layerlines = None -> fan = lastfan))
      as (Hnum3 & Hlines3 & Hheight3 & Hfan3 & Hcarry).
    { unfold spotFanSetting, rbind in Hf. rewrite Hlines2 in Hf.
      destruct (spotFanSetting_lines layerlines) as [[v|]|];
        [|discriminate|]; injection Hf as <- <-; simpl; by repeat split. }
    unfold rbind.
    destruct (make_layerobjs layers parameters (S idl) fan) as [rest|] eqn:Hm;
      [|discriminate].
    intros [= <-] [|i] layer Hi; simpl in Hi.
    - injection Hi as <-. split; [lia|]. split; [done|].
      exists fan. split; [done|]. rewrite Hlines3. intros Hnone.
      by rewrite (Hcarry Hnone).
    - destruct (IH _ _ _ Hm i layer Hi) as (Hn & Hh' & fan' & Hf' & Hc').
      split; [lia|]. split; [done|]. exists fan'. split; [done|].
      intros Hnone. rewrite (Hc' Hnone). destruct i; simpl; [|done].
      by rewrite Hfan3. }
  destruct (addZ_lines (lines l0)) as [found|].
  - unfold rbind at 1. destruct found as [v|]; [|discriminate].
    by apply Hrest.
  - by apply Hrest.
Qed.

(** X19. After the first loop of [main] every layer object has the
    attributes the rest reads: its number is its index in the list, and
    [height] and [fansetting] are set. *)
Theorem make_layerobjs_attributes (layers : list (list string))
    (parameters : Parameters) (objs : list Layer) (i : nat) (layer : Layer) :
  make_layerobjs layers parameters 0 0 = Ok objs ->
  objs !! i = Some layer ->
  layernumber layer = i
  /\ is_Some (height layer)
  /\ is_Some (fansetting layer).
Proof.
  intros Hm Hi.
  destruct (make_layerobjs_fields _ _ _ _ _ Hm i layer Hi)
    as (Hn & Hh & fan & Hf & _).
  split; [done|]. split; [done|]. by exists fan.
Qed.

(** X20. The fan setting is carried upwards: a layer without an [M106]
    before the comment of any of its lines has the fan setting of the
    layer below it, and the lowest layer has 0 then. *)
Theorem fansetting_carried (layers : list (list string))
    (parameters : Parameters) (objs : list Layer) (i : nat) (layer : Layer) :
  make_layerobjs layers parameters 0 0 = Ok objs ->
  objs !! i = Some layer ->
  Forall (fun l => str_in "M106" (before_char ";" l) = false) (lines layer) ->
  fansetting layer = match i with
                     | O => Some 0
                     | S j => objs !! j ≫= fansetting
                     end.
Proof.
  intros Hm Hi Hnone.
  destruct (make_layerobjs_fields _ _ _ _ _ Hm i layer Hi)
    as (_ & _ & fan & Hf & Hc).
  rewrite Hf. apply Hc. by apply spotFanSetting_lines_none.
Qed.

End LayerObjects.

(** ** The start line of several parts *)

Section LongestPart.
Context `{FloatOps} `{Random}.
Local Open Scope Q_scope.

(** X21. On a start line of several parts [getStartPtOnLS] works on one
    part as on a line string of its own: the first of the parts whose
    length is greatest, a part that is no line string counting with the
    length 0. *)
Theorem getStartPtOnLS_longest_part
    (parts : list (bool * option (list Point))) (coords : list Point)
    (kwargs : ManualSettings) (choseRandom : bool) :
  longest_linestring parts = Ok coords ->
  getStartPtOnLS (MultiGeom parts) kwargs choseRandom
  = getStartPtOnLS (LineString coords) kwargs choseRandom
  /\ exists i is_line,
       parts !! i = Some (is_line, Some coords)
       /\ Forall (fun lss => member_length lss
                             <= member_length (is_line, Some coords)) parts
       /\ forall j lss, (j < i)%nat -> parts !! j = Some lss ->
            ~ member_length lss == member_length (is_line, Some coords).
Proof.
  intros Hlong. split.
  { unfold getStartPtOnLS. by rewrite Hlong. }
  unfold longest_linestring, np_argmax, rbind in Hlong.
  fold member_length in Hlong.
  set (lengths := map member_length parts) in *.
  destruct (py_max lengths) as [m|] eqn:Hmax; [|discriminate].
  destruct (py_index m lengths) as [i|] eqn:Hidx; [|discriminate].
  destruct (parts !! i) as [[is_line [c|]]|] eqn:Hi; try discriminate.
  injection Hlong as ->.
  apply py_index_first in Hidx as (Hlt & Hnth & Hfirst).
  assert (forall k lss, parts !! k = Some lss ->
                        nth k lengths 0 = member_length lss) as Hlen.
  { intros k lss Hk. subst lengths.
    apply nth_lookup_Some with (d := 0). by rewrite list_lookup_fmap, Hk. }
  rewrite (Hlen _ _ Hi) in Hnth.
  exists i, is_line. split; [done|]. split.
  - destruct lengths as [|x rest] eqn:Hl; [discriminate|].
    injection Hmax as <-.
    destruct (py_max_from_ge rest x) as [Hx Hrest].
    apply Forall_lookup. intros k lss Hk. rewrite Hnth.
    rewrite <- (Hlen _ _ Hk). destruct k as [|k]; [done|]. simpl.
    assert (is_Some (rest !! k)) as [y Hy].
    { apply lookup_lt_is_Some.
      assert (length (x :: rest) = length parts) as Hsame
        by (rewrite <- Hl; subst lengths; apply length_map).
      apply lookup_lt_Some in Hk. simpl in Hsame. lia. }
    rewrite (nth_lookup_Some _ _ _ _ Hy).
    rewrite Forall_lookup in Hrest. by apply (Hrest k).
  - intros j lss Hj Hlss. rewrite Hnth, <- (Hlen _ _ Hlss). by apply Hfirst.
Qed.

End LongestPart.

(** ** Boundaries of arcs *)

Section Boundaries.
Context `{FloatOps} `{Shapely} `{Random} `{!LayerCode}.

Lemma extractArcBoundary_raises (self : Arc) e :
  extractArcBoundary self = Raise e -> e = ValueError.
Proof.
  unfold extractArcBoundary.
  destruct (is_a "MultiLineString" (arcline self)).
  { by destruct (_ || _). }
  destruct (_ || _); [done|].
  destruct (is_a "GeometryCollection" (arcline self)); [|by intros [= <-]].
  destruct (concat _) as [|g [|g' found]]; [by intros [= <-]|done|done].
Qed.

(** X22. An arc whose line is neither a line string nor a collection of
    line strings, as when the circle only touches the remaining space in
    points, stops [getArcBoundaries] with a [ValueError], wherever the arc
    stands in the list. *)
Theorem getArcBoundaries_not_a_line (concentricArcs : list Arc) (arc : Arc) :
  arc ∈ concentricArcs ->
  is_a "MultiLineString" (arcline arc) = false ->
  is_a "LineString" (arcline arc) = false ->
  is_a "LinearRing" (arcline arc) = false ->
  is_a "GeometryCollection" (arcline arc) = false ->
  getArcBoundaries concentricArcs = Raise ValueError.
Proof.
  intros Hin Hm Hl Hr Hg.
  assert (extractArcBoundary arc = Raise ValueError) as Hbad.
  { unfold extractArcBoundary. by rewrite Hm, Hl, Hr, Hg. }
  induction Hin as [arc more|arc other more Hin IH]; simpl.
  - by rewrite Hbad.
  - destruct (extractArcBoundary other) as [lines|e] eqn:Hother; simpl.
    + by rewrite (IH Hm Hl Hr Hg Hbad).
    + by rewrite (extractArcBoundary_raises _ _ Hother).
Qed.

End Boundaries.

(** ** The end of an arc *)

Section ArcEnd.
Context `{FloatOps}.
Local Open Scope Q_scope.

Lemma arc2GCode_loop_end pts :
  forall idp n p1 pb pe speed eSteps arcidx len kwargs cmds,
    pts <> [] -> (0 < idp)%nat -> (idp + length pts = n)%nat ->
    arc2GCode_loop pts idp n p1 pb pe speed eSteps arcidx len kwargs = Ok cmds ->
    last cmds = Some (G1_XYE pe (ExtendArcDist (manual kwargs) * eSteps) None)
    /\ (1 <= length cmds <= length pts + 1)%nat.
Proof.
  induction pts as [|p pts IH];
    intros idp n p1 pb pe speed eSteps arcidx len kwargs cmds Hne Hidp Hn;
    [done|].
  destruct idp as [|idp]; [lia|]. cbn [arc2GCode_loop].
  change (S idp =? 0)%nat with false. cbv iota. simpl in Hn.
  destruct pts as [|q pts].
  - assert ((S idp =? n - 1)%nat = true) as -> by (apply Nat.eqb_eq; simpl in Hn; lia).
    simpl. destruct (Qlt_bool _ _); simpl; intros [= <-]; simpl;
      (split; [done|lia]).
  - assert ((S idp =? n - 1)%nat = false) as ->
      by (apply Nat.eqb_neq; simpl in Hn; lia).
    unfold rbind.
    destruct (Qlt_bool _ _);
      (destruct (arc2GCode_loop (q :: pts) _ _ _ _ _ _ _ _ _ _) as [more|] eqn:Hmore;
       [|discriminate]);
      intros [= <-];
      (eapply IH in Hmore as [Hlast Hlen]; [|done|lia|simpl in *; lia]);
      simpl app.
    + destruct more as [|c more]; [simpl in Hlen; lia|].
      split; [|simpl in *; lia]. by rewrite last_cons, Hlast.
    + split; [done|]. simpl in *. lia.
Qed.

(** X23. The G-code of an arc of at least two points ends with the move
    that extends the arc beyond its last point, which extrudes for the
    length [ExtendArcDist]; the arc takes at least 7 lines and at most 6
    more than it has points. *)
Theorem arc2GCode_end (arcline : list Point) (eSteps : Q) (arcidx : nat)
    (kwargs : Parameters) (cmds : list gcmd) :
  (2 <= length arcline)%nat ->
  arc2GCode arcline eSteps arcidx kwargs = Ok cmds ->
  last cmds
  = Some (G1_XYE (move_toward_point
                    (nth (length arcline - 1) arcline (0, 0))
                    (nth (length arcline - 2) arcline (0, 0))
                    (ExtendArcDist (manual kwargs)) 90)
                 (ExtendArcDist (manual kwargs) * eSteps) None)
  /\ (7 <= length cmds <= length arcline + 6)%nat.
Proof.
  intros Hlen. unfold arc2GCode.
  destruct (length arcline <? 2)%nat eqn:Hlt;
    [apply Nat.ltb_lt in Hlt; lia|].
  unfold rbind at 1. destruct (arcPrintSpeed _ _) as [speed|]; [|discriminate].
  destruct arcline as [|p0 rest]; [simpl in Hlen; lia|].
  assert (rest <> []) as Hne by (intros ->; simpl in Hlen; lia).
  cbn [arc2GCode_loop]. change (0 =? 0)%nat with true. cbv iota.
  unfold rbind.
  destruct (retractGCode true _) as [rt|]; [|discriminate].
  destruct (retractGCode false _) as [unrt|]; [|discriminate].
  destruct (arc2GCode_loop rest 1 _ _ _ _ _ _ _ _ _) as [more|] eqn:Hmore;
    [|discriminate].
  apply arc2GCode_loop_end in Hmore as [Hlast Hl]; [|done|lia|simpl; lia].
  destruct (0 =? length (p0 :: rest) - 1)%nat eqn:Hend.
  { apply Nat.eqb_eq in Hend. simpl in Hend, Hlen. lia. }
  intros [= <-]. simpl app. split.
  - destruct more as [|c more]; [simpl in Hl; lia|].
    rewrite <- Hlast. reflexivity.
  - simpl in *. lia.
Qed.

End ArcEnd.
(** ** Retraction *)

(** X24. The two lines of [retractGCode] undo each other: on settings on
    which both can be written they have the same feedrate, and the
    retraction moves the filament by the negative of what the other line
    moves it. *)
Theorem retractGCode_undone (kwargs : gmap string pyval)
    (retract unretract : gcmd) :
  retractGCode true kwargs = Ok retract ->
  retractGCode false kwargs = Ok unretract ->
  exists E E' F,
    unretract = G1_E E F /\ retract = G1_E E' F /\ py_neg E = Ok E'.
Proof.
  unfold retractGCode, rbind.
  destruct (py_neg _) as [E'|] eqn:Hneg; [|discriminate].
  destruct (py_times60 _) as [F|]; [|discriminate].
  intros [= <-] [= <-]. by eexists _, _, _.
Qed.

(** ** Pictures between arcs *)

Section TimeLapse.
Context `{FloatOps} `{Shapely} `{Random} `{!LayerCode}.
Local Open Scope Q_scope.

Lemma arc2GCode_not_M240 arcline eSteps arcidx kwargs cmds :
  arc2GCode arcline eSteps arcidx kwargs = Ok cmds ->
  is_M240_entry cmds = false.
Proof.
  unfold arc2GCode. destruct (length arcline <? 2)%nat; [by intros [= <-]|].
  unfold rbind at 1. destruct (arcPrintSpeed _ _); [|discriminate].
  destruct arcline as [|p0 rest]; [by intros [= <-]|].
  cbn [arc2GCode_loop]. change (0 =? 0)%nat with true. cbv iota.
  unfold rbind.
  destruct (retractGCode true _) as [rt|] eqn:Hrt; [|discriminate].
  destruct (retractGCode false _) as [unrt|]; [|discriminate].
  destruct (arc2GCode_loop rest 1 _ _ _ _ _ _ _ _ _); [|discriminate].
  intros [= <-]. simpl. by destruct rt.
Qed.

Lemma arcs2GCode_pictures arcs4gcode : forall ida eSteps parameters gcode,
  arcs2GCode arcs4gcode ida eSteps parameters = Ok gcode ->
  length (List.filter is_M240_entry gcode)
  = pictures (TimeLapseEveryNArcs (manual parameters)) arcs4gcode ida.
Proof.
  induction arcs4gcode as [|arc more IH]; intros ida eSteps parameters gcode;
    simpl.
  { by intros [= <-]. }
  unfold rbind at 1.
  destruct (is_empty arc); simpl.
  - unfold rbind.
    destruct (arcs2GCode more (S ida) eSteps parameters) as [rest|] eqn:Hrest;
      [|discriminate].
    intros [= <-]. simpl. by apply IH in Hrest.
  - unfold rbind at 1. destruct (geom_coords arc) as [coords|]; [|discriminate].
    unfold rbind at 1.
    destruct (arc2GCode coords eSteps ida parameters) as [arcGCode|] eqn:Harc;
      [|discriminate].
    apply arc2GCode_not_M240 in Harc.
    destruct ((0 <? TimeLapseEveryNArcs (manual parameters))%nat
              && negb (ida mod TimeLapseEveryNArcs (manual parameters) =? 0)%nat);
      unfold rbind;
      (destruct (arcs2GCode more (S ida) eSteps parameters) as [rest|] eqn:Hrest;
       [|discriminate]);
      intros [= <-]; apply IH in Hrest; simpl; rewrite Harc; simpl;
      by rewrite Hrest.
Qed.

(** X25. With [TimeLapseEveryNArcs] set to [n], [M240] follows every arc
    that is not empty and whose number is not a multiple of [n], and no
    other; so with [n = 1] no picture is taken at all. *)
Theorem timelapse_pictures (arcs4gcode : list geom) (eSteps : Q)
    (parameters : Parameters) (gcode : list (list gcmd)) :
  arcs2GCode arcs4gcode 0 eSteps parameters = Ok gcode ->
  length (List.filter is_M240_entry gcode)
  = pictures (TimeLapseEveryNArcs (manual parameters)) arcs4gcode 0
  /\ (TimeLapseEveryNArcs (manual parameters) = 1%nat ->
      List.filter is_M240_entry gcode = []).
Proof.
  intros Hrun. pose proof (arcs2GCode_pictures _ _ _ _ _ Hrun) as Hcount.
  split; [done|]. intros Hone. rewrite Hone in Hcount.
  assert (forall arcs ida, pictures 1 arcs ida = 0%nat) as Hnone.
  { intros arcs. induction arcs as [|arc more IH]; intros ida; simpl; [done|].
    rewrite IH. by rewrite andb_false_r. }
  rewrite Hnone in Hcount. by apply length_zero_iff_nil.
Qed.

End TimeLapse.

(** ** The first bundle *)

Lemma Ok_Some_inv {A S : Type} (run : result (option A * S)) :
  match run with Ok (Some _, _) => true | _ => false end = true ->
  exists a s, run = Ok (Some a, s).
Proof. destruct run as [[[a|] s]|e]; try discriminate. by exists a, s. Qed.


Section FirstBundle.
Context `{FloatOps} `{Shapely} `{Random} `{!LayerCode}.
Local Open Scope Q_scope.

(** X26. The first bundle of a polygon, when [firstConcentricArcs] settles
    on one after its up to 22 start points, has at least [MinStartArcs]
    arcs. *)
Theorem firstConcentricArcs_enough (startLineString boundaryWithOutStartLine
    poly : geom) (rMinStart rMax : Q) (kwargs : ManualSettings) (g : rng)
    (concentricArcs : list Arc) (g' : rng) :
  firstConcentricArcs startLineString boundaryWithOutStartLine poly rMinStart
    rMax kwargs g = Ok (Some concentricArcs, g') ->
  (MinStartArcs kwargs <= length concentricArcs)%nat.
Proof.
  intros Hrun. unfold firstConcentricArcs in Hrun.
  run_inv Hrun. apply mbind_Ok in Hrun as (startpt & g1 & _ & Hrun).
  apply mbind_Ok in Hrun as (arcs0 & g2 & _ & Hrun).
  destruct (MinStartArcs kwargs <=? length arcs0)%nat eqn:He0.
  { run_inv Hrun. by apply Nat.leb_le. }
  run_inv Hrun. apply mbind_Ok in Hrun as (startpt' & g3 & _ & Hrun).
  apply mbind_Ok in Hrun as (arcs1 & g4 & _ & Hrun).
  destruct (MinStartArcs kwargs <=? length arcs1)%nat eqn:He1.
  { run_inv Hrun. by apply Nat.leb_le. }
  apply mbind_Ok in Hrun as (arcs2 & g5 & _ & Hrun).
  apply mbind_Ok in Hrun as (arcs3 & g6 & _ & Hrun).
  destruct (MinStartArcs kwargs <=? length arcs3)%nat eqn:He3;
    run_inv Hrun. by apply Nat.leb_le.
Qed.

End FirstBundle.

(** ** The theorems on concrete inputs *)

Module Examples.
Import Approx Counter Raster Scripted.
Local Open Scope Q_scope.


Lemma raster_within_intersection_l (a b : geom) :
  snd (intersection a b) ⊆ snd a.
Proof. simpl. apply intersection_subseteq_l. Qed.

Lemma raster_within_intersection (a b c : geom) :
  snd c ⊆ snd a -> snd c ⊆ snd b -> snd c ⊆ snd (intersection a b).
Proof. simpl. intros Ha Hb. by apply intersection_greatest. Qed.

Lemma raster_within_unary_union (a : geom) (gs : list geom) :
  In a gs -> snd a ⊆ snd (unary_union gs).
Proof.
  simpl. intros Hin x Hx. apply elem_of_union_list.
  exists (snd a). split; [|done].
  apply list_elem_of_fmap. exists a. split; [done|].
  by apply list_elem_of_In.
Qed.

Lemma raster_area_mono (a b : geom) : snd a ⊆ snd b -> area a <= area b.
Proof.
  simpl. intros Hsub. rewrite <- Zle_Qle. apply inj_le.
  by apply subseteq_size.
Qed.

(** Inclusion of cell sets satisfies the laws. *)
#[local] Instance raster_laws : ShapelyLaws :=
  {| within a b := snd a ⊆ snd b;
     within_intersection_l := raster_within_intersection_l;
     within_intersection := raster_within_intersection;
     within_unary_union := raster_within_unary_union;
     area_mono := raster_area_mono |}.


(** A file with a bridge over an edge is rewritten from layer 3 on; what
    is written begins with the header and the first layer. *)
Lemma first_two_layers_unchanged_witness :
  exists rest,
    main cls overhang_file "part.gcode" (files_with overhang_file) seed
    = (<["part.gcode" := (header ++ perimeter_layer "0.4") ++ rest]>
         (files_with overhang_file), Ok tt).
Proof.
  assert (match main_process cls overhang_file seed with
          | Ok ((p, st), _) =>
              gcodeWasModified st
              && String.eqb (Path2Output (manual p)) ""
          | Raise _ => false
          end = true) as Hflag by (vm_compute; reflexivity).
  destruct (main_process cls overhang_file seed) as [[[p st] g']|e] eqn:Hrun;
    [|discriminate].
  apply andb_prop in Hflag as [Hmod Hpath].
  destruct (first_two_layers_unchanged cls overhang_file "part.gcode"
              (files_with overhang_file) seed p st g' Hrun)
    as (layers & Hsplit & _ & Hmain).
  rewrite Hmod, Hpath in Hmain.
  assert (splitGCodeIntoLayers overhang_file
          = Ok [header; perimeter_layer "0.4"; perimeter_layer "0.8";
                bridge_layer; solid_layer]) as Hl by reflexivity.
  rewrite Hl in Hsplit. injection Hsplit as <-.
  eexists. rewrite Hmain. cbn [negb take concat]. rewrite app_nil_r.
  reflexivity.
Defined.



(** One pass of [fill_remaining_space] on a square of 49 cells. *)
Lemma filled_space_area_monotone_witness :
  exists step,
    fill_remaining_space_body ((6 # 10) + (38 # 100) / (15 # 10)) 30 (45 # 100)
      (block (-3) 3) (manual parameters) fill_state = Ok step
    /\ area (filled_space fill_state)
       <= area (filled_space (match step with Break s | Continue s => s end)).
Proof.
  assert (match fill_remaining_space_body
                  ((6 # 10) + (38 # 100) / (15 # 10)) 30 (45 # 100)
                  (block (-3) 3) (manual parameters) fill_state with
          | Ok _ => true
          | Raise _ => false
          end = true) as Hok by (vm_compute; reflexivity).
  destruct (fill_remaining_space_body ((6 # 10) + (38 # 100) / (15 # 10)) 30
              (45 # 100) (block (-3) 3) (manual parameters) fill_state)
    as [step|e] eqn:Hbody; [|discriminate].
  exists step. split; [reflexivity|].
  destruct (filled_space_area_monotone
              ((6 # 10) + (38 # 100) / (15 # 10)) 30 (45 # 100)
              (block (-3) 3) (manual parameters)) as [Hstep _].
  apply (Hstep fill_state step); [|exact Hbody].
  change (snd (filled_space fill_state) ⊆ snd (block (-3) 3)).
  apply (bool_decide_unpack _). vm_compute. exact I.
Defined.



(** An arc of three points, 7 long. *)
Lemma arc_feedrate_witness :
  exists cmds before after,
    arc2GCode [(0, 0); (3, 0); (3, 4)] 1 0 parameters = Ok cmds
    /\ cmds
       = before
         ++ [G1_F (np_clip
                     (ls_length [(0, 0); (3, 0); (3, 4)]
                      / ArcSlowDownBelowThisDuration (manual parameters) * 60)
                     (ArcMinPrintSpeed (manual parameters))
                     (ArcPrintSpeed (manual parameters)))]
         ++ after
    /\ length before = 5%nat.
Proof.
  assert (match arc2GCode [(0, 0); (3, 0); (3, 4)] 1 0 parameters with
          | Ok _ => true
          | Raise _ => false
          end = true) as Hok by (vm_compute; reflexivity).
  destruct (arc2GCode [(0, 0); (3, 0); (3, 4)] 1 0 parameters)
    as [cmds|e] eqn:Hrun; [|discriminate].
  destruct (arc_feedrate [(0, 0); (3, 0); (3, 4)] 1 0 parameters cmds)
    as (before & after & Hcmds & Hlen & _); [simpl; lia|exact Hrun|].
  exists cmds, before, after. done.
Defined.

(** C6 fails on an arc 3 long: with 3 s, 30 and 90 mm/min the feedrate
    written is 3 / 3 * 60 = 60, where [clip(3 / 3, 30, 90)] is 30. *)
Lemma feedrate_is_per_minute :
  exists cmds speed,
    arc2GCode [(0, 0); (3, 0)] 1 0 parameters = Ok cmds
    /\ cmds !! 5%nat = Some (G1_F speed)
    /\ speed == 60
    /\ ~ speed == np_clip (ls_length [(0, 0); (3, 0)]
                           / ArcSlowDownBelowThisDuration (manual parameters))
                          (ArcMinPrintSpeed (manual parameters))
                          (ArcPrintSpeed (manual parameters)).
Proof.
  eexists _, _. split; [vm_compute; reflexivity|].
  split; [reflexivity|]. split; [reflexivity|]. vm_compute. discriminate.
Defined.

(** A file that switches relative extrusion off. *)
Lemma relative_e_distances_required_witness :
  main cls absolute_e_file "part.gcode" (files_with absolute_e_file) seed
  = (files_with absolute_e_file, Raise ValueError).
Proof.
  destruct (relative_e_distances_required cls absolute_e_file "part.gcode"
              (files_with absolute_e_file) seed PrusaSlicer
              (profile 0 ∪ fallbackValuesDict)) as [_ Hmain].
  - change (read_settings absolute_e_file fallbackValuesDict
            = Ok (PrusaSlicer, profile 0 ∪ fallbackValuesDict)).
    unfold read_settings.
    replace (existsb (str_in "; use_relative_e_distances = 0") absolute_e_file)
      with true by (vm_compute; reflexivity).
    replace (existsb (str_in "; prusaslicer_config = begin") absolute_e_file)
      with true by (vm_compute; reflexivity).
    reflexivity.
  - vm_compute; reflexivity.
  - rewrite Hmain. vm_compute; reflexivity.
Defined.

(** The class defined by the generator started at 7, and the objects
    [spotBridgeInfill] builds for [bridge_layer]: their identifier is 8. *)
Lemma BridgeInfill_shared_id_witness :
  exists self',
    spotBridgeInfill cls PrusaSlicer
      (extract_features (Layer_init bridge_layer parameters 3)) = Ok self'
    /\ binfills self' <> []
    /\ Forall (fun b => BridgeInfill.id b = 8%Z) (binfills self').
Proof.
  destruct (BridgeInfill_shared_id seed cls 8%nat eq_refl) as (_ & Hspot & _).
  assert (match spotBridgeInfill cls PrusaSlicer
                  (extract_features (Layer_init bridge_layer parameters 3)) with
          | Ok self' => negb (length (binfills self') =? 0)%nat
          | Raise _ => false
          end = true) as Hok by (vm_compute; reflexivity).
  destruct (spotBridgeInfill cls PrusaSlicer _) as [self'|e] eqn:Hrun;
    [|discriminate].
  exists self'. split; [reflexivity|].
  split; [by destruct (binfills self')|].
  destruct (Hspot _ _ _ Hrun) as (parts & locs & _ & ->).
  apply Forall_app. split; [by vm_compute|].
  apply Forall_forall. intros b (pts & -> & _)%list_elem_of_fmap.
  vm_compute. reflexivity.
Defined.

(** A layer of two features: the second starts at its [;TYPE:] line. *)
Lemma extract_features_start_witness :
  [";LAYER_CHANGE"; ";TYPE:Perimeter"; "G1 X1 Y1 E1"; ";TYPE:Solid infill";
   "G1 X2 Y2 E1"]%string !! 3%nat = Some ";TYPE:Solid infill"%string.
Proof.
  destruct (extract_features_start parameters
              [";LAYER_CHANGE"; ";TYPE:Perimeter"; "G1 X1 Y1 E1";
               ";TYPE:Solid infill"; "G1 X2 Y2 E1"]%string 0) as [_ Hlater].
  apply (Hlater 0%nat ";TYPE:Solid infill"%string ["G1 X2 Y2 E1"]%string 3%nat).
  reflexivity.
Defined.

(** An arc command read with a previous point. *)
Lemma getPtfromCmd_outcomes_witness :
  getPtfromCmd "G2 X1 Y1 I1 J1" (Some (0, 0)) = Raise TypeError
  /\ exists cmdType cmds,
       split_char " " (before_char ";" "G2 X1 Y1 I1 J1") = cmdType :: cmds
       /\ search_G_0_3 cmdType = true
       /\ search_G_0_comma_1 cmdType = false.
Proof.
  assert (getPtfromCmd "G2 X1 Y1 I1 J1" (Some (0, 0)) = Raise TypeError)
    as Hraise by (vm_compute; reflexivity).
  split; [exact Hraise|].
  destruct (getPtfromCmd_outcomes "G2 X1 Y1 I1 J1") as [_ Hexc].
  destruct (Hexc (Some (0, 0)) TypeError Hraise) as (_ & _ & Hcmd).
  exact Hcmd.
Defined.

(** Three points, a travel move, and a point behind it. *)
Lemma makePolygonFromGCode_stops_at_travel_witness :
  isTravelMove "G1 X5 Y5" = true
  /\ makePolygonFromGCode PrusaSlicer
       (["G1 X0 Y0 E1"; "G1 X1 Y0 E1"; "G1 X1 Y1 E1"]%string
        ++ "G1 X5 Y5"%string :: ["G1 X9 Y9 E1"]%string)
     = makePolygonFromGCode PrusaSlicer
         ["G1 X0 Y0 E1"; "G1 X1 Y0 E1"; "G1 X1 Y1 E1"]%string.
Proof.
  split; [reflexivity|].
  apply makePolygonFromGCode_stops_at_travel. reflexivity.
Defined.

(** The bridge infill of [bridge_layer]. *)
Lemma spotFeaturePoints_parts_witness :
  exists parts partLocations,
    AsWritten.spotFeaturePoints PrusaSlicer
      (extract_features (Layer_init bridge_layer parameters 3))
      ";TYPE:Bridge infill" false true true = Ok (parts, partLocations)
    /\ Forall (fun part => (2 <= length part)%nat) parts.
Proof.
  destruct (spotFeaturePoints_parts PrusaSlicer
              (extract_features (Layer_init bridge_layer parameters 3))
              ";TYPE:Bridge infill" false true true)
    as (parts & partLocations & Hrun & _ & Hall).
  exists parts, partLocations. split; [exact Hrun|]. apply Hall. reflexivity.
Defined.

(** A layer of solid infill has no external perimeter. *)
Lemma makeExternalPerimeter2Polys_needs_external_witness :
  AsWritten.makeExternalPerimeter2Polys PrusaSlicer parameters
    (extract_features (Layer_init solid_layer parameters 4)) = Ok [].
Proof.
  apply makeExternalPerimeter2Polys_needs_external.
  - vm_compute. reflexivity.
  - apply (bool_decide_unpack _). vm_compute. exact I.
Defined.

(** Two curves of three and two points on a layer 0.2 high. *)
Lemma hilbert2GCode_lines_witness :
  exists moves retract,
    hilbert2GCode [[(0, 0); (1, 0); (1, 1)]; [(2, 2); (3, 2)]] parameters
                  (2 # 10) = Ok (moves ++ [retract])
    /\ length moves = 6%nat.
Proof.
  edestruct (hilbert2GCode_lines [[(0, 0); (1, 0); (1, 1)]; [(2, 2); (3, 2)]]
               parameters (2 # 10)) as (moves & Hrun & Hlen & _).
  - vm_compute. reflexivity.
  - vm_compute. reflexivity.
  - vm_compute. reflexivity.
  - exists moves. eexists. split; [exact Hrun|exact Hlen].
Defined.

(** The profile: a nozzle of 0.4 and a filament of 1.75. *)
Lemma calcESteps_bridging_witness :
  exists eSteps,
    calcESteps parameters None = Ok eSteps
    /\ eSteps == (135 # 100) * ((4 # 10) * (4 # 10))
                 / ((175 # 100) * (175 # 100)).
Proof.
  apply (calcESteps_bridging parameters (4 # 10) (175 # 100)).
  - vm_compute. discriminate.
  - vm_compute. discriminate.
  - vm_compute. reflexivity.
  - vm_compute. reflexivity.
  - vm_compute. reflexivity.
Defined.

(** The bundle of [arc_radii_witness] with no points per millimetre. *)
Lemma no_points_per_millimeter_witness :
  generateMultipleConcentricArcs (-3, 0) (4 # 10) 30 (boundary bridge_poly)
    bridge_poly (with_ArcPointsPerMillimeter 0 (manual parameters))
  = Raise ZeroDivisionError.
Proof.
  apply no_points_per_millimeter.
  - reflexivity.
  - vm_compute. reflexivity.
  - vm_compute. reflexivity.
Defined.



(** Nothing filled yet: the boundary of the empty polygon is empty. *)
Lemma fill_remaining_space_empty_boundary_witness :
  fill_remaining_space (last_arc fill_state) 1 30 (45 # 100)
    ("Polygon"%string, ∅) (block (-3) 3) (manual parameters)
  = Raise AttributeError.
Proof.
  apply fill_remaining_space_empty_boundary.
  - vm_compute. reflexivity.
  - apply Nat.ltb_lt. vm_compute. reflexivity.
Defined.

(** The bundle at the start point of the bridge polygon, up to radius 1. *)
Lemma generateMultipleConcentricArcs_arcs_witness :
  exists bundle,
    generateMultipleConcentricArcs (-3, 0) (4 # 10) 1 (boundary bridge_poly)
      bridge_poly (manual parameters) = Ok bundle
    /\ Forall (fun a => center a = (-3, 0) /\ is_empty (arcline a) = false)
              bundle.
Proof.
  assert (match generateMultipleConcentricArcs (-3, 0) (4 # 10) 1
                  (boundary bridge_poly) bridge_poly (manual parameters) with
          | Ok _ => true
          | Raise _ => false
          end = true) as Hok by (vm_compute; reflexivity).
  destruct (generateMultipleConcentricArcs (-3, 0) (4 # 10) 1
              (boundary bridge_poly) bridge_poly (manual parameters))
    as [bundle|e] eqn:Hrun; [|discriminate].
  exists bundle. split; [reflexivity|].
  destruct (generateMultipleConcentricArcs_arcs _ _ _ _ _ _ _ Hrun) as [Hall _].
  exact Hall.
Defined.

(** The profile is accepted. *)
Lemma checkforNecesarrySettings_accepts_witness :
  checkforNecesarrySettings (profile 1) = Ok true.
Proof.
  apply (proj2 (checkforNecesarrySettings_accepts (profile 1))).
  split; [vm_compute; reflexivity|]. split; [|vm_compute; reflexivity].
  exists (45 # 100), (45 # 100), (45 # 100), 5.
  repeat split; try (vm_compute; reflexivity); vm_compute; discriminate.
Defined.

(** A file sliced without overhang detection. *)
Lemma unusable_settings_refused_witness :
  @main floats geometry random NoOverhangs.code cls overhang_file "part.gcode"
        (files_with overhang_file) seed
  = (files_with overhang_file, Raise ValueError).
Proof.
  destruct (@unusable_settings_refused floats geometry random NoOverhangs.code
              cls overhang_file "part.gcode" (files_with overhang_file) seed
              PrusaSlicer (<["overhangs" := PInt 0]> (profile 1))
              (4 # 10) (45 # 100) (45 # 100) (45 # 100)) as [_ Hmain].
  - reflexivity.
  - vm_compute. reflexivity.
  - vm_compute. reflexivity.
  - vm_compute. reflexivity.
  - vm_compute. reflexivity.
  - vm_compute. reflexivity.
  - right. right. right. vm_compute. reflexivity.
  - exact Hmain.
Defined.

(** An overhang layer at Z 1.2 and cooling 1 mm above it: the layers at
    1.6, 2.0 and 2.4 are reached, the last of them lying above 2.2. *)
Lemma annotateFollowUpLayers_run_witness :
  exists k,
    (k <= 4)%nat
    /\ map (extend_oldpolys [bridge_poly])
           (map Samples.layer_at [16 # 10; 2; 24 # 10])
       ++ [Samples.layer_at (28 # 10)]
       = map (extend_oldpolys [bridge_poly])
             (take k (map Samples.layer_at [16 # 10; 2; 24 # 10; 28 # 10]))
         ++ drop k (map Samples.layer_at [16 # 10; 2; 24 # 10; 28 # 10]).
Proof.
  destruct (annotateFollowUpLayers_run ((12 # 10) + 1) [bridge_poly]
              (map Samples.layer_at [16 # 10; 2; 24 # 10; 28 # 10])
              (PFloat (12 # 10))
              (map (extend_oldpolys [bridge_poly])
                   (map Samples.layer_at [16 # 10; 2; 24 # 10])
               ++ [Samples.layer_at (28 # 10)]))
    as (k & Hk & Heq & _).
  - reflexivity.
  - exists k. split; [exact Hk|exact Heq].
Defined.

(** The bridge layer over the perimeter below it. *)
Lemma verifyinfillpolys_valid_witness :
  exists self' prevLayer' added,
    verifyinfillpolys PrusaSlicer (manual parameters)
      Samples.bridge_layer_object layer_below (2 * (45 # 100))
    = Ok (self', prevLayer')
    /\ validpolys self'
       = validpolys Samples.bridge_layer_object ++ map snd added
    /\ Forall (fun ip : nat * geom =>
                 polys Samples.bridge_layer_object !! fst ip = Some (snd ip))
              added.
Proof.
  assert (match verifyinfillpolys PrusaSlicer (manual parameters)
                  Samples.bridge_layer_object layer_below (2 * (45 # 100)) with
          | Ok _ => true
          | Raise _ => false
          end = true) as Hok by (vm_compute; reflexivity).
  destruct (verifyinfillpolys PrusaSlicer (manual parameters)
              Samples.bridge_layer_object layer_below (2 * (45 # 100)))
    as [[self' prevLayer']|e] eqn:Hrun; [|discriminate].
  destruct (verifyinfillpolys_valid _ _ _ _ _ _ _ Hrun)
    as (added & Hvalid & _ & _ & Hall).
  exists self', prevLayer', added. split; [reflexivity|].
  split; [exact Hvalid|].
  eapply Forall_impl; [exact Hall|]. intros ip [Hl _]. exact Hl.
Defined.

(** The header and the first layer of the sample files. *)
Lemma make_layerobjs_attributes_witness :
  exists objs layer,
    make_layerobjs [header; perimeter_layer "0.4"] parameters 0 0 = Ok objs
    /\ objs !! 1%nat = Some layer
    /\ layernumber layer = 1%nat
    /\ is_Some (height layer)
    /\ is_Some (fansetting layer).
Proof.
  assert (match make_layerobjs [header; perimeter_layer "0.4"] parameters 0 0
          with
          | Ok objs => match objs !! 1%nat with
                       | Some _ => true
                       | None => false
                       end
          | Raise _ => false
          end = true) as Hok by (vm_compute; reflexivity).
  destruct (make_layerobjs [header; perimeter_layer "0.4"] parameters 0 0)
    as [objs|e] eqn:Hrun; [|discriminate].
  destruct (objs !! 1%nat) as [layer|] eqn:Hlayer; [|discriminate].
  exists objs, layer. split; [reflexivity|]. split; [exact Hlayer|].
  exact (make_layerobjs_attributes _ _ _ _ _ Hrun Hlayer).
Defined.

(** A layer that sets the fan, and a layer above it that does not. *)
Lemma fansetting_carried_witness :
  exists objs layer,
    make_layerobjs [["M106 S128"; "G1 Z0.4"]; ["G1 Z0.8"]]%string parameters 0 0
    = Ok objs
    /\ objs !! 1%nat = Some layer
    /\ fansetting layer = Some 128.
Proof.
  assert (match make_layerobjs [["M106 S128"; "G1 Z0.4"]; ["G1 Z0.8"]]%string
                  parameters 0 0 with
          | Ok objs => (lines <$> objs !! 1%nat, objs !! 0%nat ≫= fansetting)
          | Raise _ => (None, None)
          end = (Some ["G1 Z0.8"]%string, Some 128)) as Hok
    by (vm_compute; reflexivity).
  destruct (make_layerobjs [["M106 S128"; "G1 Z0.4"]; ["G1 Z0.8"]]%string
              parameters 0 0) as [objs|e] eqn:Hrun; [|discriminate].
  injection Hok as Hlines Hbelow.
  destruct (objs !! 1%nat) as [layer|] eqn:Hlayer; [|discriminate].
  injection Hlines as Hlines.
  exists objs, layer. split; [reflexivity|]. split; [exact Hlayer|].
  rewrite <- Hbelow.
  apply (fansetting_carried _ _ _ 1 _ Hrun Hlayer).
  rewrite Hlines. repeat constructor.
Defined.

(** A start line of a short part, a long part and a part that is no line. *)
Lemma getStartPtOnLS_longest_part_witness :
  getStartPtOnLS (MultiGeom [(true, Some [(0, 0); (1, 0)]);
                             (true, Some [(0, 0); (3, 0); (3, 4)]);
                             (false, None)])
                 (manual parameters) false
  = getStartPtOnLS (LineString [(0, 0); (3, 0); (3, 4)]) (manual parameters)
                   false.
Proof.
  destruct (getStartPtOnLS_longest_part
              [(true, Some [(0, 0); (1, 0)]);
               (true, Some [(0, 0); (3, 0); (3, 4)]);
               (false, None)]
              [(0, 0); (3, 0); (3, 4)] (manual parameters) false) as [Hsame _].
  - vm_compute. reflexivity.
  - exact Hsame.
Defined.

(** An arc that meets the remaining space in a point. *)
Lemma getArcBoundaries_not_a_line_witness :
  getArcBoundaries [last_arc fill_state; Samples.touching_arc]
  = Raise ValueError.
Proof.
  apply (getArcBoundaries_not_a_line _ Samples.touching_arc).
  - right. left.
  - vm_compute. reflexivity.
  - vm_compute. reflexivity.
  - vm_compute. reflexivity.
  - vm_compute. reflexivity.
Defined.

(** The arc of [arc_feedrate_witness]: its last line. *)
Lemma arc2GCode_end_witness :
  exists cmds,
    arc2GCode [(0, 0); (3, 0); (3, 4)] 1 0 parameters = Ok cmds
    /\ last cmds
       = Some (G1_XYE (move_toward_point (3, 4) (3, 0)
                         (ExtendArcDist (manual parameters)) 90)
                      (ExtendArcDist (manual parameters) * 1) None).
Proof.
  assert (match arc2GCode [(0, 0); (3, 0); (3, 4)] 1 0 parameters with
          | Ok _ => true
          | Raise _ => false
          end = true) as Hok by (vm_compute; reflexivity).
  destruct (arc2GCode [(0, 0); (3, 0); (3, 4)] 1 0 parameters)
    as [cmds|e] eqn:Hrun; [|discriminate].
  destruct (arc2GCode_end [(0, 0); (3, 0); (3, 4)] 1 0 parameters cmds)
    as [Hlast _]; [simpl; lia|exact Hrun|].
  exists cmds. split; [reflexivity|exact Hlast].
Defined.
(** The retraction of the profile: 0.8 mm at 35 mm/s. *)
Lemma retractGCode_undone_witness :
  exists E E' F,
    retractGCode false (slicerSettings parameters) = Ok (G1_E E F)
    /\ retractGCode true (slicerSettings parameters) = Ok (G1_E E' F)
    /\ py_neg E = Ok E'.
Proof.
  assert (exists retract unretract,
            retractGCode true (slicerSettings parameters) = Ok retract
            /\ retractGCode false (slicerSettings parameters) = Ok unretract)
    as (retract & unretract & Hrt & Hun).
  { eexists _, _. split; vm_compute; reflexivity. }
  destruct (retractGCode_undone _ _ _ Hrt Hun) as (E & E' & F & -> & -> & Hneg).
  by exists E, E', F.
Defined.

(** Two arcs with a picture "every" arc: none is taken. *)
Lemma timelapse_pictures_witness :
  TimeLapseEveryNArcs (with_TimeLapseEveryNArcs 1 (manual parameters)) = 1%nat
  /\ exists gcode,
       arcs2GCode [LineString_of [(0, 0); (3, 0)];
                   LineString_of [(0, 0); (3, 4)]] 0 1
         {| manual := with_TimeLapseEveryNArcs 1 (manual parameters);
            slicerSettings := slicerSettings parameters |} = Ok gcode
       /\ List.filter is_M240_entry gcode = [].
Proof.
  split; [reflexivity|].
  assert (match arcs2GCode [LineString_of [(0, 0); (3, 0)];
                            LineString_of [(0, 0); (3, 4)]] 0 1
                  {| manual := with_TimeLapseEveryNArcs 1 (manual parameters);
                     slicerSettings := slicerSettings parameters |} with
          | Ok _ => true
          | Raise _ => false
          end = true) as Hok by (vm_compute; reflexivity).
  destruct (arcs2GCode _ 0 1 _) as [gcode|e] eqn:Hrun; [|discriminate].
  exists gcode. split; [reflexivity|].
  destruct (timelapse_pictures _ _ _ _ Hrun) as [_ Hnone].
  apply Hnone. reflexivity.
Defined.

(** The first bundle of the bridge polygon, with [RMax] 1. *)
Lemma firstConcentricArcs_enough_witness :
  exists concentricArcs g',
    firstConcentricArcs (fst Samples.start_lines) (snd Samples.start_lines)
      bridge_poly (4 # 10) 1 (manual parameters) seed
    = Ok (Some concentricArcs, g')
    /\ (MinStartArcs (manual parameters) <= length concentricArcs)%nat.
Proof.
  pose (run := firstConcentricArcs (fst Samples.start_lines)
                 (snd Samples.start_lines) bridge_poly (4 # 10) 1
                 (manual parameters) seed).
  assert (match run with
          | Ok (Some _, _) => true
          | _ => false
          end = true) as Hok by (vm_compute; reflexivity).
  destruct (Ok_Some_inv run Hok) as (concentricArcs & g' & Hrun).
  exists concentricArcs, g'. split; [exact Hrun|].
  exact (firstConcentricArcs_enough _ _ _ _ _ _ _ _ _ Hrun).
Defined.

End Examples.
